(** * Thermal image processing: zone statistics, rotation and aggregation

    A shallow embedding of [tiprocessing/IRUtils.py] and of the batch driver
    [tiprocessing/AnalyzeIRData.py], together with the fragments of the
    Python runtime, of numpy and of pandas that these functions rely on.

    - Python [int] is [Z]; Python [float] (and numpy [float64]) is the
      kernel's binary64 [float]; Python [str] is [string].
    - A raised exception is the [Raise] case of [result].
    - The calibration dictionary [positions] is a [gmap] from column names
      to columns; it is shared and mutated by the aggregator, so the
      aggregator returns the dictionary it leaves behind.
    - Files are kept in stores indexed by path: as rows of string cells for
      the [csv] module, and as the float matrix of the parsed frame for
      [pandas.read_csv]. *)

From Stdlib Require Import Floats.PrimFloat.
From Stdlib Require Import Strings.Ascii Strings.String.
From stdpp Require Import gmap strings list pretty.

Local Open Scope Z_scope.

(* ===================================================================== *)
(** ** Python runtime fragments *)
(* ===================================================================== *)

Module Py.

(** The exception classes that the modelled code can raise. *)
Inductive exn : Set :=
| KeyError | IndexError | ValueError | TypeError
| FileNotFoundError | SystemExit.

Inductive result (A : Type) : Type :=
| Ok (a : A)
| Raise (e : exn).
Arguments Ok {A} a.
Arguments Raise {A} e.

#[global] Instance result_ret : MRet result := λ A, Ok.
#[global] Instance result_bind : MBind result := λ A B f m,
  match m with Ok a => f a | Raise e => Raise e end.
#[global] Instance result_fmap : FMap result := λ A B f m,
  match m with Ok a => Ok (f a) | Raise e => Raise e end.

Definition is_ok {A} (r : result A) : bool :=
  match r with Ok _ => true | Raise _ => false end.

(** Values stored in the calibration dictionary's columns. *)
Inductive pyval : Set :=
| PyNone
| PyInt (z : Z)
| PyStr (s : string).

#[global] Instance pyval_eq_dec : EqDecision pyval.
Proof. solve_decision. Defined.

(** [str(x)] *)
Definition py_str (v : pyval) : string :=
  match v with
  | PyNone => "None"
  | PyInt z => pretty z
  | PyStr s => s
  end.

Definition is_pystr (v : pyval) : Prop :=
  match v with PyStr _ => True | _ => False end.

(** [l[i]] for a list and an integer index: a negative index counts
    from the end, an index outside [-len, len) raises [IndexError]. *)
Definition py_getitem {A} (l : list A) (i : Z) : result A :=
  let n := Z.of_nat (length l) in
  let k := if i <? 0 then i + n else i in
  if k <? 0 then Raise IndexError
  else match l !! Z.to_nat k with
       | Some x => Ok x
       | None => Raise IndexError
       end.

(** [d[k]] for a dictionary. *)
Definition py_lookup {V} (d : gmap string V) (k : string) : result V :=
  match d !! k with
  | Some v => Ok v
  | None => Raise KeyError
  end.

(** One bound of [a:b] against a sequence of length [len], as
    [PySlice_AdjustIndices] does for step 1: a negative bound has [len]
    added once, and the outcome is clamped to [0, len]. *)
Definition adjust_index (len i : Z) : Z :=
  if i <? 0 then Z.max 0 (i + len) else Z.min i len.

Definition slice_indices (len : nat) (start stop : option Z) : nat * nat :=
  let n := Z.of_nat len in
  (Z.to_nat (from_option (adjust_index n) 0 start),
   Z.to_nat (from_option (adjust_index n) n stop)).

(** [l[start:stop]]; an absent bound is written [None]. *)
Definition py_slice {A} (start stop : option Z) (l : list A) : list A :=
  let '(s, e) := slice_indices (length l) start stop in
  take (e - s)%nat (drop s l).

(** [s[start:stop]] on a string. *)
Definition str_slice (start stop : option Z) (s : string) : string :=
  string_of_list_ascii (py_slice start stop (list_ascii_of_string s)).

(** [l.index(x)]: position of the first element equal to [x],
    [ValueError] when there is none. *)
Fixpoint list_index `{EqDecision A} (x : A) (l : list A) : result nat :=
  match l with
  | [] => Raise ValueError
  | y :: l' => if decide (y = x) then Ok 0%nat
               else S <$> list_index x l'
  end.

(** [range(n)] and [reversed(range(n))] *)
Definition range (n : nat) : list nat := seq 0 n.
Definition reversed {A} (l : list A) : list A := reverse l.

(** An insertion-ordered dictionary with string keys ([dict] literal and
    [d[k] = v]): assigning to an existing key keeps its position. *)
Fixpoint dict_set {V} (k : string) (v : V) (d : list (string * V))
  : list (string * V) :=
  match d with
  | [] => [(k, v)]
  | (k', v') :: d' =>
      if decide (k' = k) then (k, v) :: d' else (k', v') :: dict_set k v d'
  end.

Fixpoint dict_get {V} (k : string) (d : list (string * V)) : option V :=
  match d with
  | [] => None
  | (k', v') :: d' => if decide (k' = k) then Some v' else dict_get k d'
  end.

(** [int(s)] for a string of ASCII characters: the whitespace around the
    literal is dropped (tab, line feed, vertical tab, form feed, carriage
    return and space); what remains is an optional sign followed by one or
    more digits, where single underscores may stand between two digits;
    more than 4300 digits are refused (the default limit of CPython since
    3.11).  Anything else is a [ValueError].  Python also reads the
    decimal digits and the whitespace that lie beyond ASCII; the model
    refuses them. *)
Definition py_isspace (c : ascii) : bool :=
  let n := nat_of_ascii c in
  ((9 <=? n) && (n <=? 13) || (n =? 32))%nat.

Fixpoint lstrip (cs : list ascii) : list ascii :=
  match cs with
  | [] => []
  | c :: cs' => if py_isspace c then lstrip cs' else cs
  end.

Definition strip (cs : list ascii) : list ascii :=
  reverse (lstrip (reverse (lstrip cs))).

(** The value and the number of the digits of [cs]; [after_digit] tells
    whether the character before [cs] was a digit. *)
Fixpoint digits_value (acc : Z) (n : nat) (after_digit : bool)
    (cs : list ascii) : option (Z * nat) :=
  match cs with
  | [] => if after_digit then Some (acc, n) else None
  | c :: cs' =>
      match Ascii.is_nat c with
      | Some d => digits_value (10 * acc + Z.of_nat d) (S n) true cs'
      | None =>
          if after_digit && bool_decide (c = "_"%char)
          then digits_value acc n false cs'
          else None
      end
  end.

Definition py_int (s : string) : result Z :=
  let parse cs :=
    match digits_value 0 0 false cs with
    | Some (z, n) => if (n <=? 4300)%nat then Some z else None
    | None => None
    end in
  let r :=
    match strip (list_ascii_of_string s) with
    | "-"%char :: cs => Z.opp <$> parse cs
    | "+"%char :: cs => parse cs
    | cs => parse cs
    end in
  match r with Some z => Ok z | None => Raise ValueError end.

End Py.
Export Py.

(* ===================================================================== *)
(** ** [os.path] fragments (POSIX flavour) *)
(* ===================================================================== *)

Module OsPath.

(** [s.split(sep)] for a one-character separator. *)
Fixpoint split_go (sep : ascii) (cur : list ascii) (cs : list ascii)
  : list string :=
  match cs with
  | [] => [string_of_list_ascii (reverse cur)]
  | c :: cs' =>
      if decide (c = sep)
      then string_of_list_ascii (reverse cur) :: split_go sep [] cs'
      else split_go sep (c :: cur) cs'
  end.

Definition split (sep : ascii) (s : string) : list string :=
  split_go sep [] (list_ascii_of_string s).

Fixpoint join (sep : string) (l : list string) : string :=
  match l with
  | [] => ""
  | [x] => x
  | x :: l' => x +:+ sep +:+ join sep l'
  end.

(** The component stack of [normpath]; [acc] is kept reversed. *)
Fixpoint norm_comps (absolute : bool) (acc : list string)
    (comps : list string) : list string :=
  match comps with
  | [] => reverse acc
  | comp :: rest =>
      if decide (comp = "") then norm_comps absolute acc rest
      else if decide (comp = ".") then norm_comps absolute acc rest
      else if decide (comp = "..") then
        match acc with
        | [] => if absolute then norm_comps absolute acc rest
                else norm_comps absolute [comp] rest
        | top :: acc' =>
            if decide (top = "..") then norm_comps absolute (comp :: acc) rest
            else norm_comps absolute acc' rest
        end
      else norm_comps absolute (comp :: acc) rest
  end.

Definition leading_slashes (s : string) : string :=
  match list_ascii_of_string s with
  | "/"%char :: "/"%char :: "/"%char :: _ => "/"
  | "/"%char :: "/"%char :: _ => "//"
  | "/"%char :: _ => "/"
  | _ => ""
  end.

Definition normpath (path : string) : string :=
  let lead := leading_slashes path in
  let comps := norm_comps (negb (bool_decide (lead = ""))) [] (split "/" path) in
  let p := lead +:+ join "/" comps in
  if decide (p = "") then "." else p.

(** [basename(p)]: what follows the last slash. *)
Definition basename (p : string) : string :=
  match reverse (split "/" p) with
  | last :: _ => last
  | [] => ""
  end.

End OsPath.

(* ===================================================================== *)
(** ** numpy fragments *)
(* ===================================================================== *)

Module Np.

Local Open Scope float_scope.

(** What [np.array] makes of a list of rows of floats: a 2-D array when
    there is at least one row and all rows have the same length, and the
    1-D array of shape (0,) for the empty list.  Rows of unequal lengths
    are refused with [ValueError] (numpy 1.24 and later; earlier versions
    built a 1-D array of row objects, on which the slicing raised
    [IndexError]). *)
Inductive ndarray : Set :=
| Array1 (len : nat)
| Array2 (data : list (list float)).

Definition array (image : list (list float)) : result ndarray :=
  match image with
  | [] => Ok (Array1 0)
  | r :: rs =>
      if forallb (λ r', Nat.eqb (length r') (length r)) rs
      then Ok (Array2 image)
      else Raise ValueError
  end.

(** A slice bound must be an integer or [None]. *)
Definition slice_bound (v : pyval) : result (option Z) :=
  match v with
  | PyNone => Ok None
  | PyInt z => Ok (Some z)
  | PyStr _ => Raise TypeError
  end.

(** [a[r0:r1, c0:c1]]: two indices on a 1-D array are too many
    ([IndexError]); on a 2-D array the first slice selects rows and the
    second selects cells of every selected row. *)
Definition getitem2 (a : ndarray) (r0 r1 c0 c1 : pyval)
  : result (list (list float)) :=
  match a with
  | Array1 _ => Raise IndexError
  | Array2 data =>
      r0 ← slice_bound r0; r1 ← slice_bound r1;
      c0 ← slice_bound c0; c1 ← slice_bound c1;
      Ok (py_slice c0 c1 <$> py_slice r0 r1 data)
  end.

(** The number of elements as a float (exact below 2^53). *)
Fixpoint float_of_pos (p : positive) : float :=
  match p with
  | xH => 1
  | xO p' => 2 * float_of_pos p'
  | xI p' => 2 * float_of_pos p' + 1
  end.

Definition float_of_nat (n : nat) : float :=
  match N.of_nat n with
  | N0 => 0
  | Npos p => float_of_pos p
  end.

(** [np.add.reduce]: 0.0 for no element, else the elements added up from
    left to right, starting from the first one.  numpy starts from 0.0
    and adds runs of eight elements or more in blocks, so that its result
    can differ from this one in the rounding of the last bits and, for a
    sum of negative zeros, in the sign of zero. *)
Definition sum (xs : list float) : float :=
  match xs with
  | [] => 0
  | x :: xs' => fold_left PrimFloat.add xs' x
  end.

(** [np.mean] over all elements: the sum divided by the element count
    (0.0/0.0, that is NaN, for no element). *)
Definition mean (xs : list float) : float :=
  sum xs / float_of_nat (length xs).

(** [np.std] with its default [ddof=0]: the square root of the mean of
    the squared deviations from the mean, the divisor being the element
    count N. *)
Definition std (xs : list float) : float :=
  let arrmean := mean xs in
  let x := (λ a, a - arrmean) <$> xs in
  let x := (λ d, d * d) <$> x in
  PrimFloat.sqrt (sum x / float_of_nat (length xs)).

(** Ascending order for [np.median]'s selection of the middle. *)
Fixpoint insert_sorted (x : float) (l : list float) : list float :=
  match l with
  | [] => [x]
  | y :: l' => if PrimFloat.leb x y then x :: l else y :: insert_sorted x l'
  end.

Definition sort (xs : list float) : list float :=
  foldr insert_sorted [] xs.

(** [np.median] over all elements: the mean of the middle element (odd
    count) or of the two middle elements (even count) of the ordered
    data; NaN as soon as one element is NaN. *)
Definition median (xs : list float) : float :=
  let part := sort xs in
  let sz := Z.of_nat (length xs) in
  let index := (sz `div` 2)%Z in
  let indexer :=
    if (sz `mod` 2 =? 1)%Z
    then py_slice (Some index) (Some (index + 1)%Z) part
    else py_slice (Some (index - 1)%Z) (Some (index + 1)%Z) part in
  let rout := mean indexer in
  if existsb PrimFloat.is_nan xs then PrimFloat.nan else rout.

(** Reductions without an axis work on the flattened, row-major data. *)
Definition ravel (roi : list (list float)) : list float := concat roi.

End Np.

(* ===================================================================== *)
(** ** pandas fragments *)
(* ===================================================================== *)

Module Pd.

(** A frame read from a file is kept as its float matrix [df.values], one
    list per data row; cells of empty fields are NaN.  (The header line
    that [read_csv] turns into column names is not part of the matrix.) *)
Definition frame : Type := list (list float).

Definition ncols (df : frame) : nat :=
  match df with
  | [] => 0
  | r :: _ => length r
  end.

(** Column [j] holds at least one value that is not NaN. *)
Definition has_value (df : frame) (j : nat) : bool :=
  existsb (λ r, match r !! j with
                | Some x => negb (PrimFloat.is_nan x)
                | None => false
                end) df.

Definition select {A} (mask : list bool) (r : list A) : list A :=
  (filter (λ p, p.1 = true) (zip mask r)).*2.

(** [df.dropna(axis=1, how='all')]: the columns whose values are all NaN
    are removed. *)
Definition dropna_all_columns (df : frame) : frame :=
  let mask := has_value df <$> seq 0 (ncols df) in
  select mask <$> df.

(** [pd.read_csv(path, delimiter=";")] against the store of frames. *)
Definition read_csv (disk : gmap string frame) (path : string)
  : result frame :=
  match disk !! path with
  | Some df => Ok df
  | None => Raise FileNotFoundError
  end.

(** A value of the dictionary handed to the [DataFrame] constructor. *)
Inductive dictval : Set :=
| Scalar (s : string)
| Column (xs : list float).

Inductive cell : Set :=
| CStr (s : string)
| CNum (x : float).

Definition column_length (v : dictval) : option nat :=
  match v with
  | Scalar _ => None
  | Column xs => Some (length xs)
  end.

Definition broadcast (n : nat) (v : dictval) : list cell :=
  match v with
  | Scalar s => replicate n (CStr s)
  | Column xs => CNum <$> xs
  end.

(** [pd.DataFrame(d)] for a dictionary of scalars and lists: the lists
    must agree on their length, scalars are repeated to that length, and
    a dictionary of scalars only is refused ([ValueError]).  The result
    keeps the dictionary's column order; the empty dictionary gives the
    empty frame. *)
Definition DataFrame (d : list (string * dictval))
  : result (list (string * list cell)) :=
  match omap (λ kv, column_length kv.2) d with
  | [] => match d with [] => Ok [] | _ => Raise ValueError end
  | n :: ns =>
      if forallb (Nat.eqb n) ns
      then Ok ((λ kv, (kv.1, broadcast n kv.2)) <$> d)
      else Raise ValueError
  end.

End Pd.

(* ===================================================================== *)
(** ** tiprocessing/IRUtils.py *)
(* ===================================================================== *)

Module IRUtils.

(** The calibration dictionary: column name to column. *)
Abbreviation positions_t := (gmap string (list pyval)).

(** A grid file as the [csv] module reads and writes it: rows of string
    cells.  Writing rows and reading them back is taken to return the
    same rows. *)
Abbreviation csvstore := (gmap string (list (list string))).

(** *** rotateCSVFile180 *)

(** The nested comprehension: rows from the last to the first, and in
    every row the cells at the column indices of row 0, from the last to
    the first. *)
Definition rotated (csvcontent : list (list string))
  : result (list (list string)) :=
  mapM (λ i : nat,
          row0 ← py_getitem csvcontent 0;
          mapM (λ j : nat,
                  row ← py_getitem csvcontent (Z.of_nat i);
                  py_getitem row (Z.of_nat j))
               (reversed (range (length row0))))
       (reversed (range (length csvcontent))).

Definition rotateCSVFile180 (csvpath : string) (disk : csvstore)
  : result csvstore :=
  match disk !! csvpath with
  | None => Raise FileNotFoundError
  | Some csvcontent =>
      csvcontent_new ← rotated csvcontent;
      Ok (<[csvpath := csvcontent_new]> disk)
  end.

(** *** getFileInfo *)

Definition getFileInfo (filename : string)
  : string * string * string * string :=
  let date := str_slice (Some 10) (Some 18) filename in
  let time := str_slice (Some (-12)) (Some (-4)) filename in
  let folder := str_slice (Some 19) (Some 27) filename in
  let filenumber := str_slice (Some 28) (Some 31) filename in
  (date, time, folder, filenumber).

(** *** getIRDataFromZone *)

Definition edge (positions : positions_t) (key : string) (iod : Z)
  : result pyval :=
  col ← py_lookup positions key; py_getitem col iod.

Definition getIRDataFromZone (image : list (list float))
    (positions : positions_t) (zone_name : string) (iod : Z)
  : result (float * float * float) :=
  e0 ← edge positions (zone_name +:+ "_row_start") iod;
  e1 ← edge positions (zone_name +:+ "_row_end") iod;
  e2 ← edge positions (zone_name +:+ "_col_start") iod;
  e3 ← edge positions (zone_name +:+ "_col_end") iod;
  a ← Np.array image;
  roi ← Np.getitem2 a e0 e1 e2 e3;
  let median := Np.median (Np.ravel roi) in
  let mean := Np.mean (Np.ravel roi) in
  let std := Np.std (Np.ravel roi) in
  Ok (median, mean, std).

(** *** getIRDataFromMultipleZones *)

(** What a caller passes as [zone_list]: the documented list of zone
    names, or an integer. *)
Inductive zones_arg : Set :=
| ZoneNames (l : list string)
| ZoneNumber (n : Z).

(** [for zone in zone_list]: an integer is not iterable. *)
Definition iterate (zone_list : zones_arg) : result (list string) :=
  match zone_list with
  | ZoneNames l => Ok l
  | ZoneNumber _ => Raise TypeError
  end.

(** One turn of the loop over the zones. *)
Definition add_zone (image : list (list float)) (positions : positions_t)
    (indexOfDataset : nat) (irdata_dict : list (string * Pd.dictval))
    (zone : string) : result (list (string * Pd.dictval)) :=
  ir_data ← getIRDataFromZone image positions zone (Z.of_nat indexOfDataset);
  let irdata_dict :=
    dict_set ("ir_" +:+ zone +:+ "_med") (Pd.Column [ir_data.1.1]) irdata_dict in
  let irdata_dict :=
    dict_set ("ir_" +:+ zone +:+ "_mean") (Pd.Column [ir_data.1.2]) irdata_dict in
  let irdata_dict :=
    dict_set ("ir_" +:+ zone +:+ "_std") (Pd.Column [ir_data.2]) irdata_dict in
  Ok irdata_dict.

Fixpoint add_zones (image : list (list float)) (positions : positions_t)
    (indexOfDataset : nat) (irdata_dict : list (string * Pd.dictval))
    (zones : list string) : result (list (string * Pd.dictval)) :=
  match zones with
  | [] => Ok irdata_dict
  | zone :: rest =>
      irdata_dict ← add_zone image positions indexOfDataset irdata_dict zone;
      add_zones image positions indexOfDataset irdata_dict rest
  end.

(** The function returns the calibration dictionary as it leaves it,
    next to its outcome. *)
Definition getIRDataFromMultipleZones (csvpath : string)
    (positions : positions_t) (zone_list : zones_arg)
    (disk : gmap string Pd.frame)
  : positions_t * result (list (string * list Pd.cell)) :=
  let filename := OsPath.basename (OsPath.normpath csvpath) in
  let '(date, time, folder, filenumber) := getFileInfo filename in
  match positions !! "measurement" with
  | None => (positions, Raise KeyError)
  | Some measurement =>
      let measurement := (λ x, PyStr (py_str x)) <$> measurement in
      let positions := <["measurement" := measurement]> positions in
      (positions,
       indexOfDataset ← list_index (PyStr date) measurement;
       df ← Pd.read_csv disk csvpath;
       let df := Pd.dropna_all_columns df in
       let irdata_dict :=
         [("ir_date", Pd.Scalar date); ("ir_time", Pd.Scalar time);
          ("ir_folder", Pd.Scalar folder);
          ("ir_filenumber", Pd.Scalar filenumber)] in
       zones ← iterate zone_list;
       irdata_dict ← add_zones df positions indexOfDataset irdata_dict zones;
       Pd.DataFrame irdata_dict)
  end.

(** *** getPositionInformation *)

(** One row of [csv.DictReader]: the cells keyed by the field names (a
    repeated name keeps its last cell), [None] for the names a short row
    leaves out, and the surplus cells of a long row under the key
    [None]. *)
Definition dictreader_row (fieldnames row : list string)
  : list (string * option string) * option (list string) :=
  let d := foldl (λ d kv, dict_set kv.1 (Some kv.2) d) [] (zip fieldnames row) in
  if (length fieldnames <? length row)%nat
  then (d, Some (drop (length fieldnames) row))
  else (foldl (λ d key, dict_set key None d) d (drop (length row) fieldnames),
        None).

(** The reader takes the first row for the field names and skips empty
    rows. *)
Definition DictReader (content : list (list string))
  : list (list (string * option string) * option (list string)) :=
  match content with
  | [] => []
  | fieldnames :: rows =>
      dictreader_row fieldnames <$> filter (λ r, r ≠ []) rows
  end.

(** [pos_info.setdefault(c, []).append(x)] *)
Definition setdefault_append (c : string) (x : pyval)
    (pos_info : positions_t) : positions_t :=
  <[c := default [] (pos_info !! c) ++ [x]]> pos_info.

Definition add_field (pos_info : positions_t) (cv : string * option string)
  : result positions_t :=
  let '(c, v) := cv in
  if decide (c = "measurement")
  then Ok (setdefault_append c (from_option PyStr PyNone v) pos_info)
  else
    match v with
    | Some s => z ← py_int s; Ok (setdefault_append c (PyInt z) pos_info)
    | None => Raise TypeError
    end.

Fixpoint add_fields (pos_info : positions_t)
    (items : list (string * option string)) : result positions_t :=
  match items with
  | [] => Ok pos_info
  | cv :: rest => pos_info ← add_field pos_info cv; add_fields pos_info rest
  end.

(** The surplus cells of a long row come last among the items and are
    handed to [int] as a list. *)
Definition add_row (pos_info : positions_t)
    (row : list (string * option string) * option (list string))
  : result positions_t :=
  pos_info ← add_fields pos_info row.1;
  match row.2 with
  | Some _ => Raise TypeError
  | None => Ok pos_info
  end.

Fixpoint add_rows (pos_info : positions_t)
    (rows : list (list (string * option string) * option (list string)))
  : result positions_t :=
  match rows with
  | [] => Ok pos_info
  | row :: rest => pos_info ← add_row pos_info row; add_rows pos_info rest
  end.

Definition getPositionInformation (files : csvstore) (position_path : string)
  : result (positions_t * Z) :=
  match files !! position_path with
  | None => Raise SystemExit
  | Some content =>
      pos_info ← add_rows ∅ (DictReader content);
      let numberOfZones := (Z.of_nat (size pos_info) - 1) `div` 4 in
      Ok (pos_info, numberOfZones)
  end.

End IRUtils.

(* ===================================================================== *)
(** ** tiprocessing/AnalyzeIRData.py *)
(* ===================================================================== *)

Module AnalyzeIRData.

Import IRUtils.

(** The loop over the files found by [glob]: every file's frame is
    appended to the table; the calibration dictionary is the one object
    handed to every call. *)
Fixpoint analyze (positions : positions_t) (numberOfZones : Z)
    (disk : gmap string Pd.frame)
    (df_ir : list (list (string * list Pd.cell)))
    (csvfiles : list string)
  : result (list (list (string * list Pd.cell))) :=
  match csvfiles with
  | [] => Ok df_ir
  | csvfile :: rest =>
      let '(positions, r) :=
        getIRDataFromMultipleZones csvfile positions
                                   (ZoneNumber numberOfZones) disk in
      ir_data ← r;
      analyze positions numberOfZones disk (df_ir ++ [ir_data]) rest
  end.

(** The script: [calibration] holds the file "positions.csv", [csvfiles]
    is what [glob] finds, and the outcome is the table written to
    "IR_zones.csv". *)
Definition main (calibration : csvstore) (csvfiles : list string)
    (disk : gmap string Pd.frame)
  : result (list (list (string * list Pd.cell))) :=
  pn ← getPositionInformation calibration "positions.csv";
  analyze pn.1 pn.2 disk [] csvfiles.

End AnalyzeIRData.

(* ===================================================================== *)
(** ** tiprocessing/IRUtils.py: the export of the camera files *)
(* ===================================================================== *)

Module IRExport.

Import IRUtils.
Local Open Scope float_scope.

(** The exceptions of the export functions: those of [Py] and the ones
    that only these functions meet. *)
Inductive error : Set :=
| Python (e : exn)
| AttributeError | ZeroDivisionError | OverflowError | OSError.

Inductive outcome (A : Type) : Type :=
| Returns (a : A)
| Raises (e : error).
Arguments Returns {A} a.
Arguments Raises {A} e.

Definition returns {A} (r : outcome A) : bool :=
  match r with Returns _ => true | Raises _ => false end.

(** *** ThermoViewer *)

Definition APP_LINK : string :=
  "/Applications/ThermoViewer.app/Contents/MacOS/ThermoViewer".

(** The argument [meta]: one of the format names, or a bool. *)
Inductive meta_arg : Set :=
| MetaStr (s : string)
| MetaBool (b : bool).

(** [int(rotation)] for a rotation given as an integer, a string or
    [None]. *)
Definition int_of (v : pyval) : result Z :=
  match v with
  | PyInt z => Ok z
  | PyStr s => py_int s
  | PyNone => Raise TypeError
  end.

(** ["..." + x + "..."]: a string is joined to strings only. *)
Definition concat_str (x : pyval) : result unit :=
  match x with
  | PyStr _ => Ok ()
  | _ => Raise TypeError
  end.

(** The argument [rotation] of the two export functions: an integer, a
    string or [None], or a float. *)
Inductive rotation_arg : Set :=
| Value (v : pyval)
| Float (f : float).

Coercion Value : pyval >-> rotation_arg.

(** [rotation == 180]: true of the integer 180 and of the float 180.0. *)
Definition equals_180 (rotation : rotation_arg) : bool :=
  match rotation with
  | Value (PyInt z) => bool_decide (z = 180%Z)
  | Value _ => false
  | Float f => PrimFloat.eqb f 180
  end.

(** The command line that [ThermoViewer] builds and hands to [call]. *)
Definition calllist (mode inputpath exportpath : string) (rotation : pyval)
    (prefix : string) (frame_start frame_end : Z)
    (exportformat colorpalette : string) (meta : meta_arg) (close : bool)
  : result (list string) :=
  calllist ←
    (if decide (mode = "file") then Ok [APP_LINK; "-i"; inputpath]
     else if decide (mode = "folder") then Ok [APP_LINK; "-folder"; inputpath]
     else Raise SystemExit);
  r ← int_of rotation;
  calllist ←
    (if decide (r ∈ [0; 90; 180; 270]%Z)
     then Ok (calllist ++ ["-r"; py_str rotation])
     else _ ← concat_str rotation; Ok calllist);
  let calllist :=
    calllist ++ ["-cp"; colorpalette; "-expa"; exportpath; "-exfn"; prefix;
                 "-exsf"; py_str (PyInt frame_start);
                 "-exef"; py_str (PyInt frame_end)] in
  let calllist :=
    if decide (exportformat ∈ ["png"; "jpg"; "tif"; "avi"; "csv"; "rjpg"])
    then calllist ++ ["-exfo"; exportformat]
    else calllist in
  calllist ←
    match meta with
    | MetaStr s =>
        if decide (s ∈ ["CSVpf"; "CSVfa"; "KML"; "RAW"])
        then Ok (calllist ++ ["-exmeta"; s])
        else Ok calllist
    | MetaBool false => Ok calllist
    | MetaBool true => Raise TypeError
    end;
  let calllist := if close then calllist ++ ["-c"] else calllist in
  Ok calllist.

(** [os.rename(src, dst)] on the CSV files. *)
Definition rename (src dst : string) (disk : csvstore) : result csvstore :=
  match disk !! src with
  | None => Raise FileNotFoundError
  | Some content => Ok (<[dst := content]> (delete src disk))
  end.

(** An integer as a float (exact below 2^53). *)
Definition float_of_Z (z : Z) : float :=
  match z with
  | Z0 => 0
  | Zpos p => Np.float_of_pos p
  | Zneg p => - Np.float_of_pos p
  end.

Section world.

(** What is outside the program: the exporting application, run by
    [subprocess.call] on a command line (it changes the CSV files, and
    [call] raises when it cannot be started); the paths that [glob.glob]
    finds for a pattern; the clock functions of [datetime]. *)
Variable call : list string → csvstore → outcome csvstore.
Variable glob : string → csvstore → list string.
(** [datetime.strptime(s, "%H:%M").timestamp()] *)
Variable strptime_timestamp : string → outcome float.
(** [timedelta(seconds=x).total_seconds()] *)
Variable timedelta_total_seconds : float → outcome float.
(** [datetime.fromtimestamp(t).strftime("%H-%M-%S")] *)
Variable fromtimestamp_strftime : float → outcome string.

Definition ThermoViewer (mode inputpath exportpath : string)
    (rotation : pyval) (prefix : string) (frame_start frame_end : Z)
    (exportformat colorpalette : string) (meta : meta_arg) (close : bool)
    (disk : csvstore) : outcome csvstore :=
  match calllist mode inputpath exportpath rotation prefix frame_start
                 frame_end exportformat colorpalette meta close with
  | Raise e => Raises (Python e)
  | Ok calllist => call calllist disk
  end.

(** The loop [for ofile in glob.glob(...): if rotation == 180:
    rotateCSVFile180(ofile)]; the state of the files is returned next to
    the outcome. *)
Fixpoint rotate_files (rotation : rotation_arg) (ofiles : list string)
    (disk : csvstore) : csvstore * outcome unit :=
  match ofiles with
  | [] => (disk, Returns ())
  | ofile :: rest =>
      if equals_180 rotation
      then match rotateCSVFile180 ofile disk with
           | Raise e => (disk, Raises (Python e))
           | Ok disk => rotate_files rotation rest disk
           end
      else rotate_files rotation rest disk
  end.

(** *** processIRMovie *)

(** The loop over the camera files.  For the first file the time stamp is
    read and turned into a date, and then [datetime.timedelta] is looked
    up on the class [datetime], which has no such attribute. *)
Definition rename_movie_files (ifiles : list string) : outcome unit :=
  match ifiles with
  | [] => Returns ()
  | ifile :: _ => Raises AttributeError
  end.

Definition processIRMovie (measurement : string) (rotation : rotation_arg)
    (inputfolder exportpath : string) (timeshift : Z)
    (doRotation doRenaming : bool) (disk : csvstore)
  : csvstore * outcome unit :=
  let date := str_slice None (Some 8%Z) measurement in
  let foldername := OsPath.basename (OsPath.normpath inputfolder) in
  let prefix := "ir_export_" +:+ date +:+ "_" +:+ foldername in
  match ThermoViewer "folder" inputfolder exportpath (PyInt 0) prefix 1 1
                     "csv" "iron" (MetaBool false) true disk with
  | Raises e => (disk, Raises e)
  | Returns disk =>
      let '(disk, r) :=
        if doRotation
        then rotate_files rotation
                          (glob (exportpath +:+ prefix +:+ "*.csv") disk) disk
        else (disk, Returns ()) in
      match r with
      | Raises e => (disk, Raises e)
      | Returns _ =>
          if doRenaming
          then (disk, rename_movie_files (glob (inputfolder +:+ "/*.TMC") disk))
          else (disk, Returns ())
      end
  end.

(** *** processIRTimelapse *)

(** The list comprehension of the frame times. *)
Fixpoint measurement_intervals (starttimestamp seconds : float)
    (frames : list nat) : outcome (list string) :=
  match frames with
  | [] => Returns []
  | i :: rest =>
      match fromtimestamp_strftime
              (starttimestamp + Np.float_of_nat i * seconds) with
      | Raises e => Raises e
      | Returns t =>
          match measurement_intervals starttimestamp seconds rest with
          | Raises e => Raises e
          | Returns ts => Returns (t :: ts)
          end
      end
  end.

(** The loop [for i, ofile in enumerate(glob.glob(...))]. *)
Fixpoint rename_frames (intervals : list string) (i : nat)
    (ofiles : list string) (disk : csvstore) : csvstore * outcome unit :=
  match ofiles with
  | [] => (disk, Returns ())
  | ofile :: rest =>
      match intervals !! i with
      | None => (disk, Raises (Python IndexError))
      | Some t =>
          let ofile_new :=
            str_slice None (Some (-4)%Z) ofile +:+ "_" +:+ t +:+ ".csv" in
          match rename ofile ofile_new disk with
          | Raise e => (disk, Raises (Python e))
          | Ok disk => rename_frames intervals (S i) rest disk
          end
      end
  end.

Definition rename_timelapse_files (pattern starttime endtime : string)
    (numberofframes : Z) (disk : csvstore) : csvstore * outcome unit :=
  match strptime_timestamp starttime with
  | Raises e => (disk, Raises e)
  | Returns starttimestamp =>
      match strptime_timestamp endtime with
      | Raises e => (disk, Raises e)
      | Returns endtimestamp =>
          if decide (numberofframes - 1 = 0)%Z
          then (disk, Raises ZeroDivisionError)
          else
            match timedelta_total_seconds
                    ((endtimestamp - starttimestamp)
                     / float_of_Z (numberofframes - 1)) with
            | Raises e => (disk, Raises e)
            | Returns seconds =>
                match measurement_intervals starttimestamp seconds
                        (range (Z.to_nat numberofframes)) with
                | Raises e => (disk, Raises e)
                | Returns intervals =>
                    rename_frames intervals 0 (glob pattern disk) disk
                end
            end
      end
  end.

Definition processIRTimelapse (inputfile : string)
    (rotation : rotation_arg)
    (exportpath date starttime endtime : string) (numberofframes : Z)
    (doRotation doRenaming : bool) (disk : csvstore)
  : csvstore * outcome unit :=
  let filename := OsPath.basename (OsPath.normpath inputfile) in
  match py_getitem (OsPath.split "/" (OsPath.normpath inputfile)) (-2) with
  | Raise e => (disk, Raises (Python e))
  | Ok foldername =>
      let prefix :=
        "ir_export_" +:+ date +:+ "_" +:+ foldername +:+ "_"
        +:+ str_slice None (Some (-4)%Z) filename in
      match ThermoViewer "file" inputfile exportpath (PyInt 0) prefix 0 0
                         "csv" "iron" (MetaBool false) true disk with
      | Raises e => (disk, Raises e)
      | Returns disk =>
          let '(disk, r) :=
            if doRotation
            then rotate_files rotation
                   (glob (exportpath +:+ prefix +:+ "*.csv") disk) disk
            else (disk, Returns ()) in
          match r with
          | Raises e => (disk, Raises e)
          | Returns _ =>
              if doRenaming
              then rename_timelapse_files (exportpath +:+ prefix +:+ "*.csv")
                                          starttime endtime numberofframes disk
              else (disk, Returns ())
          end
      end
  end.

End world.

End IRExport.

(* ===================================================================== *)
(** ** Notions of the specification *)
(* ===================================================================== *)

Module Spec.

(** The integers [a <= i < b], in increasing order. *)
Definition zrange (a b : Z) : list Z := seqZ a (b - a).

(** The cell in row [r] and column [c], both counted from 0 at the
    top-left corner; there is none outside the grid. *)
Definition cell_at {A} (grid : list (list A)) (r c : Z) : option A :=
  if (0 <=? r) && (0 <=? c)
  then row ← grid !! Z.to_nat r; row !! Z.to_nat c
  else None.

(** The cells of the rectangle of rows [r0 <= r < r1] and columns
    [c0 <= c < c1], row by row; the positions of the rectangle that lie
    outside the grid contribute nothing, so this is the intersection of
    the rectangle with the grid. *)
Definition sub_rectangle {A} (grid : list (list A)) (r0 r1 c0 c1 : Z)
  : list A :=
  r ← zrange r0 r1; c ← zrange c0 c1; option_list (cell_at grid r c).

(** A bound as the slice reads it against [len] rows or columns: a
    negative bound is counted from the end (and stops at 0). *)
Definition from_end (len b : Z) : Z :=
  if b <? 0 then Z.max 0 (b + len) else b.

(** All rows have [cols] cells. *)
Definition rectangular {A} (grid : list (list A)) (cols : nat) : Prop :=
  Forall (λ row, length row = cols) grid.

(** The entry of calibration column [key] in calibration row [iod]. *)
Definition bound_at (positions : gmap string (list pyval)) (key : string)
    (iod : nat) : option pyval :=
  col ← positions !! key; col !! iod.

(** The four pixel bounds of [zone] in calibration row [iod]. *)
Definition zone_bounds (positions : gmap string (list pyval)) (zone : string)
    (iod : nat) (row_start row_end col_start col_end : Z) : Prop :=
  bound_at positions (zone +:+ "_row_start") iod = Some (PyInt row_start) ∧
  bound_at positions (zone +:+ "_row_end") iod = Some (PyInt row_end) ∧
  bound_at positions (zone +:+ "_col_start") iod = Some (PyInt col_start) ∧
  bound_at positions (zone +:+ "_col_end") iod = Some (PyInt col_end).

(** A grid turned by 180 degrees: the rows in reverse order, and the cells
    of every row in reverse order. *)
Definition rotate180 {A} (grid : list (list A)) : list (list A) :=
  reverse (reverse <$> grid).

(** Two rows differ in length. *)
Definition ragged {A} (grid : list (list A)) : Prop :=
  ∃ row row', row ∈ grid ∧ row' ∈ grid ∧ length row ≠ length row'.

(** The date that the frame file's name encodes. *)
Definition decoded_date (csvpath : string) : string :=
  str_slice (Some 10) (Some 18) (OsPath.basename (OsPath.normpath csvpath)).

(** The calibration table's measurement list, as strings. *)
Definition measurement_dates (measurement : list pyval) : list string :=
  py_str <$> measurement.

(** The three suffixes under which a zone's statistics are recorded. *)
Definition stat_suffix (s : string) : Prop :=
  s = "_med" ∨ s = "_mean" ∨ s = "_std".

(** [df'] is [df] with one more column at the end, whose cells are all
    empty (NaN). *)
Definition trailing_empty_column (df' df : list (list float)) : Prop :=
  Forall2 (λ row' row, ∃ x, row' = row ++ [x] ∧ PrimFloat.is_nan x = true)
          df' df.

(** The dictionary [d] holds the three statistics of [zone], one list of
    one float each, under the names made of [prefix], the zone's name and
    the suffixes "_med", "_mean" and "_std". *)
Definition records_zone (prefix : string) (d : list (string * Pd.dictval))
    (zone : string) (stats : float * float * float) : Prop :=
  dict_get (prefix +:+ zone +:+ "_med") d = Some (Pd.Column [stats.1.1])
  ∧ dict_get (prefix +:+ zone +:+ "_mean") d = Some (Pd.Column [stats.1.2])
  ∧ dict_get (prefix +:+ zone +:+ "_std") d = Some (Pd.Column [stats.2]).

(** Every list held by the dictionary has exactly one element. *)
Definition one_row (d : list (string * Pd.dictval)) : Prop :=
  Forall (λ kv, match kv.2 with
                | Pd.Scalar _ => True
                | Pd.Column xs => length xs = 1%nat
                end) d.

(** The measurement entries of a calibration dictionary are strings. *)
Definition string_measurements (positions : gmap string (list pyval)) : Prop :=
  ∀ measurement, positions !! "measurement" = Some measurement →
                 Forall is_pystr measurement.

(** The number of cells of the first row (0 for no row). *)
Definition first_width {A} (grid : list (list A)) : nat :=
  length (default [] (head grid)).

End Spec.

(* ===================================================================== *)
(** ** Sample data *)
(* ===================================================================== *)

Module Examples.

Import IRUtils.
Local Open Scope float_scope.

(** A calibration dictionary with one zone and five calibration rows. *)
Definition positions : positions_t :=
  <["measurement" := [PyStr "20170815"; PyStr "20170816"; PyStr "20170817";
                      PyStr "20170818"; PyStr "20170819"]]>
  (<["zone1_row_start" := [PyInt 0; PyInt (-1); PyInt (-1); PyInt 0; PyInt 0]]>
  (<["zone1_row_end" := [PyInt 2; PyInt 2; PyInt 10; PyInt 0; PyInt 2]]>
  (<["zone1_col_start" := [PyInt 0; PyInt 0; PyInt 0; PyInt 0; PyInt 0]]>
  (<["zone1_col_end" := [PyInt 2; PyInt 2; PyInt 2; PyInt 0; PyInt 1]]> ∅)))).

(** Bounds that reach beyond a grid of three rows and two columns. *)
Definition clipped_positions : positions_t :=
  <["zone1_row_start" := [PyInt 1]]> (<["zone1_row_end" := [PyInt 10]]>
  (<["zone1_col_start" := [PyInt 1]]> (<["zone1_col_end" := [PyInt 7]]> ∅))).

Definition image32 : list (list float) := [[1; 2]; [3; 4]; [5; 6]].

(** A grid of ten rows and ten columns holding the value 5 everywhere,
    and two zones on it. *)
Definition constant_grid : list (list float) :=
  replicate 10%nat (replicate 10%nat 5%float).

Definition two_zones : positions_t :=
  <["measurement" := [PyStr "20170815"]]>
  (<["zone1_row_start" := [PyInt 0]]> (<["zone1_row_end" := [PyInt 2]]>
  (<["zone1_col_start" := [PyInt 0]]> (<["zone1_col_end" := [PyInt 2]]>
  (<["zone2_row_start" := [PyInt 2]]> (<["zone2_row_end" := [PyInt 4]]>
  (<["zone2_col_start" := [PyInt 2]]> (<["zone2_col_end" := [PyInt 4]]> ∅)))))))).

(** A table in which a date occurs twice. *)
Definition duplicate_positions : positions_t :=
  <["measurement" := [PyStr "20170814"; PyStr "20170815"; PyStr "20170815"]]> ∅.

Definition ragged_image : list (list float) := [[1; 2]; [3]].

(** A frame file whose name follows the naming convention; the frame has a
    trailing column of empty cells. *)
Definition frame_path : string :=
  "path/to/IRExport/ir_export_20170815_P0000004_005_10-50-08.csv".

Definition frames : gmap string Pd.frame :=
  <[frame_path := [[1; 2; nan]; [3; 4; nan]; [5; 6; nan]]]> ∅.

(** The record that the aggregator makes of that file for zone "zone1" and
    the first calibration row of [positions]. *)
Definition record : list (string * list Pd.cell) :=
  [("ir_date", [Pd.CStr "20170815"]); ("ir_time", [Pd.CStr "10-50-08"]);
   ("ir_folder", [Pd.CStr "P0000004"]); ("ir_filenumber", [Pd.CStr "005"]);
   ("ir_zone1_med", [Pd.CNum (Np.median [1; 2; 3; 4])]);
   ("ir_zone1_mean", [Pd.CNum (Np.mean [1; 2; 3; 4])]);
   ("ir_zone1_std", [Pd.CNum (Np.std [1; 2; 3; 4])])].

(** The calibration file "positions.csv": one zone, one calibration row. *)
Definition calibration : csvstore :=
  <["positions.csv" :=
      [["measurement"; "zone1_row_start"; "zone1_row_end";
        "zone1_col_start"; "zone1_col_end"];
       ["20170815"; "0"; "2"; "0"; "2"]]]> ∅.

(** The table that the loader makes of that file. *)
Definition loaded_calibration : positions_t :=
  <["measurement" := [PyStr "20170815"]]>
  (<["zone1_row_start" := [PyInt 0]]> (<["zone1_row_end" := [PyInt 2]]>
  (<["zone1_col_start" := [PyInt 0]]> (<["zone1_col_end" := [PyInt 2]]> ∅)))).

(** Grid files: a rectangular one, one whose second row is longer than the
    first, and one whose second row is shorter than the first. *)
Definition csv_disk : csvstore :=
  <["frame.csv" := [["a"; "b"]; ["c"; "d"]; ["e"; "f"]]]>
  (<["long_row.csv" := [["a"]; ["c"; "d"]]]>
  (<["short_row.csv" := [["a"; "b"]; ["c"]]]> ∅)).

(** A world for the export functions.  The application writes one frame
    of two rows and two columns, whatever its command line; [glob] finds
    that frame under the two patterns of the examples when it is on the
    disk; the clock functions are constant. *)
Definition exported_frame : string :=
  "out/ir_export_20170815_P0000004_0001.csv".

Definition tool (calllist : list string) (disk : csvstore)
  : IRExport.outcome csvstore :=
  IRExport.Returns (<[exported_frame := [["1"; "2"]; ["3"; "4"]]]> disk).

(** An application that knows no other rotation than 0. *)
Definition strict_tool (calllist : list string) (disk : csvstore)
  : IRExport.outcome csvstore :=
  if decide (calllist !! 4%nat = Some "0") then tool calllist disk
  else IRExport.Raises IRExport.OSError.

Definition glob (pattern : string) (disk : csvstore) : list string :=
  filter (λ f, is_Some (disk !! f))
    (if decide (pattern = "out/ir_export_20170815_P0000004*.csv")
     then [exported_frame]
     else if decide (pattern = "out/ir_export_20170815_P0000004_0001*.csv")
          then [exported_frame]
          else []).

Definition strptime_timestamp (s : string) : IRExport.outcome float :=
  IRExport.Returns 0%float.

Definition timedelta_total_seconds (x : float) : IRExport.outcome float :=
  IRExport.Returns x.

Definition fromtimestamp_strftime (t : float) : IRExport.outcome string :=
  IRExport.Returns "12-00-00".

End Examples.

(* ===================================================================== *)
(** ** Further notions *)
(* ===================================================================== *)

Module Conditions.

(** Calibration column [key] exists, has an entry for the (possibly
    negative) row index [iod], and that entry can bound a slice: it is an
    integer or [None]. *)
Definition usable_bound (positions : gmap string (list pyval)) (key : string)
    (iod : Z) : Prop :=
  ∃ col v, positions !! key = Some col ∧ py_getitem col iod = Ok v
           ∧ ¬ is_pystr v.

(** The four bound columns of a zone. *)
Definition bound_keys (zone : string) : list string :=
  [zone +:+ "_row_start"; zone +:+ "_row_end";
   zone +:+ "_col_start"; zone +:+ "_col_end"].

(** The columns of a record: the four name fields, then three columns per
    zone. *)
Definition identity_columns : list string :=
  ["ir_date"; "ir_time"; "ir_folder"; "ir_filenumber"].

Definition zone_columns (zone : string) : list string :=
  ["ir_" +:+ zone +:+ "_med"; "ir_" +:+ zone +:+ "_mean";
   "ir_" +:+ zone +:+ "_std"].

(** A cell of the calibration file that the loader can store under the
    field name [c]: any cell of the measurement column, a decimal integer
    elsewhere. *)
Definition readable (c v : string) : Prop :=
  c = "measurement" ∨ is_ok (py_int v) = true.

(** What the loader stores for the readable cell [v] of column [c]. *)
Definition loaded_cell (c v : string) : pyval :=
  if decide (c = "measurement") then PyStr v
  else match py_int v with Ok z => PyInt z | Raise _ => PyNone end.

(** The items that the reader yields for a row with one cell per field
    name, when the field names are distinct. *)
Definition row_items (fieldnames row : list string)
  : list (string * option string) :=
  (λ kv, (kv.1, Some kv.2)) <$> zip fieldnames row.

(** A row that has more cells than the header, or stops before a column
    other than the measurement column. *)
Definition malformed (fieldnames row : list string) : Prop :=
  row ≠ []
  ∧ ((length fieldnames < length row)%nat
     ∨ ∃ c, c ∈ drop (length row) fieldnames ∧ c ≠ "measurement").

(** The types of a loaded column: text (or [None], for a row that stops
    before it) in the measurement column, integers in every other. *)
Definition loaded_types (c : string) (col : list pyval) : Prop :=
  if decide (c = "measurement")
  then Forall (λ x, x = PyNone ∨ is_pystr x) col
  else Forall (λ x, ∃ z, x = PyInt z) col.

(** The names that processIRMovie gives to the exported files, and the
    command line of the exporting application for a folder. *)
Definition movie_prefix (measurement inputfolder : string) : string :=
  "ir_export_" +:+ str_slice None (Some 8) measurement +:+ "_"
  +:+ OsPath.basename (OsPath.normpath inputfolder).

Definition movie_command_line (measurement inputfolder exportpath : string)
  : list string :=
  [IRExport.APP_LINK; "-folder"; inputfolder; "-r"; "0"; "-cp"; "iron";
   "-expa"; exportpath; "-exfn"; movie_prefix measurement inputfolder;
   "-exsf"; "1"; "-exef"; "1"; "-exfo"; "csv"; "-c"].

(** The same for processIRTimelapse, for an input file that lies in the
    folder [foldername], and the pattern of the files that it looks for
    afterwards. *)
Definition timelapse_prefix (inputfile date foldername : string) : string :=
  "ir_export_" +:+ date +:+ "_" +:+ foldername +:+ "_"
  +:+ str_slice None (Some (-4)) (OsPath.basename (OsPath.normpath inputfile)).

Definition timelapse_command_line
    (inputfile exportpath date foldername : string) : list string :=
  [IRExport.APP_LINK; "-i"; inputfile; "-r"; "0"; "-cp"; "iron";
   "-expa"; exportpath; "-exfn"; timelapse_prefix inputfile date foldername;
   "-exsf"; "0"; "-exef"; "0"; "-exfo"; "csv"; "-c"].

Definition timelapse_pattern (inputfile exportpath date foldername : string)
  : string :=
  exportpath +:+ timelapse_prefix inputfile date foldername +:+ "*.csv".

(** The name that processIRTimelapse gives to the exported file [ofile]
    of the frame taken at the time [t]. *)
Definition frame_name (ofile t : string) : string :=
  str_slice None (Some (-4)) ofile +:+ "_" +:+ t +:+ ".csv".

End Conditions.

(* ===================================================================== *)
(** ** Slices *)
(* ===================================================================== *)

Section slices.
Context {A : Type}.
Implicit Types (l : list A) (a b : Z) (s k : nat).

Lemma seq_lookup_take_drop l s k :
  (i ← seq s k; option_list (l !! i)) = take k (drop s l).
Proof.
  revert s. induction k as [|k IH]; intros s; [done|].
  cbn [seq]. rewrite bind_cons, IH.
  destruct (l !! s) as [x|] eqn:Hs.
  - rewrite (drop_S l x s Hs). reflexivity.
  - apply lookup_ge_None in Hs.
    rewrite !drop_ge by lia. by rewrite !take_nil.
Qed.

Lemma zrange_nonneg a b :
  0 ≤ a → Spec.zrange a b = Z.of_nat <$> seq (Z.to_nat a) (Z.to_nat (b - a)).
Proof.
  intros Ha. unfold Spec.zrange, seqZ.
  rewrite <-(Nat.add_0_r (Z.to_nat a)). generalize 0%nat as s.
  induction (Z.to_nat (b - a)) as [|n IH]; intros s; [done|].
  cbn [seq fmap list_fmap]. f_equal; [lia|].
  rewrite IH. by rewrite Nat.add_succ_r.
Qed.

Lemma py_slice_nonneg l a b :
  0 ≤ a → 0 ≤ b →
  py_slice (Some a) (Some b) l = take (Z.to_nat (b - a)) (drop (Z.to_nat a) l).
Proof.
  intros Ha Hb. unfold py_slice, slice_indices, adjust_index. simpl.
  destruct (Z.ltb_spec a 0); [lia|]. destruct (Z.ltb_spec b 0); [lia|].
  destruct (decide (Z.of_nat (length l) ≤ a)) as [Hge|Hlt].
  - rewrite !drop_ge by lia. by rewrite !take_nil.
  - replace (Z.to_nat (a `min` Z.of_nat (length l))) with (Z.to_nat a) by lia.
    destruct (decide (b ≤ Z.of_nat (length l))).
    + f_equal. lia.
    + rewrite !take_ge; [done| |]; rewrite length_drop; lia.
Qed.

Lemma py_slice_zrange l a b :
  0 ≤ a → 0 ≤ b →
  py_slice (Some a) (Some b) l
  = (i ← Spec.zrange a b; option_list (l !! Z.to_nat i)).
Proof.
  intros Ha Hb. rewrite py_slice_nonneg, zrange_nonneg by done.
  rewrite <-seq_lookup_take_drop.
  induction (seq _ _) as [|i rest IH]; [done|].
  rewrite fmap_cons, !bind_cons, Nat2Z.id. by f_equal.
Qed.

End slices.

(* ===================================================================== *)
(** ** The region of interest of a zone *)
(* ===================================================================== *)

Section region.
Import IRUtils.
Implicit Types (image : list (list float)) (positions : gmap string (list pyval)).

Lemma array_rectangular image cols :
  image ≠ [] → Spec.rectangular image cols →
  Np.array image = Ok (Np.Array2 image).
Proof.
  intros Hne Hrect. destruct image as [|r rs]; [done|]. simpl.
  apply Forall_cons in Hrect as [Hr Hrs].
  rewrite (proj2 (forallb_forall _ _)); [done|].
  intros r' Hin. apply Nat.eqb_eq.
  rewrite Forall_forall in Hrs. rewrite Hr. apply Hrs.
  by apply list_elem_of_In.
Qed.

Lemma array_ragged image r r' :
  r ∈ image → r' ∈ image → length r ≠ length r' →
  Np.array image = Raise ValueError.
Proof.
  intros Hr Hr' Hlen. destruct image as [|r0 rs]; [by apply elem_of_nil in Hr|].
  simpl. destruct (forallb _ rs) eqn:Hall; [|done].
  exfalso. rewrite forallb_forall in Hall.
  assert (∀ x, x ∈ r0 :: rs → length x = length r0) as Hsame.
  { intros x [->|Hx]%elem_of_cons; [done|].
    apply Nat.eqb_eq, Hall. by apply list_elem_of_In. }
  rewrite (Hsame r Hr), (Hsame r' Hr') in Hlen. done.
Qed.

Lemma edge_bound_at positions key (iod : nat) v :
  Spec.bound_at positions key iod = Some v →
  edge positions key (Z.of_nat iod) = Ok v.
Proof.
  unfold Spec.bound_at, edge, py_lookup, py_getitem.
  destruct (positions !! key) as [col|]; [|done]. simpl. intros Hv.
  destruct (Z.ltb_spec (Z.of_nat iod) 0); [lia|].
  destruct (Z.ltb_spec (Z.of_nat iod) 0); [lia|].
  by rewrite Nat2Z.id, Hv.
Qed.

Lemma zrange_elem a b i : i ∈ Spec.zrange a b ↔ a ≤ i < b.
Proof. unfold Spec.zrange. rewrite elem_of_seqZ. lia. Qed.

Lemma bind_no_cell {A} (l : list Z) :
  (c ← l; option_list (@None A)) = [].
Proof. induction l as [|c l IH]; [done|]. by rewrite bind_cons, IH. Qed.

(** Slicing rows and then cells, flattened, visits the rectangle's cells
    row by row. *)
Lemma ravel_slices {A} (grid : list (list A)) (r0 r1 c0 c1 : Z) :
  0 ≤ r0 → 0 ≤ r1 → 0 ≤ c0 → 0 ≤ c1 →
  concat (py_slice (Some c0) (Some c1) <$> py_slice (Some r0) (Some r1) grid)
  = Spec.sub_rectangle grid r0 r1 c0 c1.
Proof.
  intros Hr0 Hr1 Hc0 Hc1. unfold Spec.sub_rectangle.
  rewrite py_slice_zrange by done.
  assert (Forall (λ r, 0 ≤ r) (Spec.zrange r0 r1)) as Hpos.
  { apply Forall_forall. intros r Hr%zrange_elem. lia. }
  induction Hpos as [|r rs Hr _ IH]; [done|].
  rewrite !bind_cons, fmap_app, concat_app, IH. f_equal.
  unfold Spec.cell_at. destruct (Z.leb_spec 0 r); [|lia]. simpl.
  destruct (grid !! Z.to_nat r) as [row|]; simpl.
  - rewrite app_nil_r, py_slice_zrange by done.
    apply Forall_bind_ext, Forall_forall. intros c Hc%zrange_elem.
    destruct (Z.leb_spec 0 c); [done|lia].
  - symmetry. erewrite Forall_bind_ext; [apply bind_no_cell|].
    apply Forall_forall. intros c _. by destruct (0 <=? c).
Qed.

Lemma length_concat_same {A} (rows : list (list A)) n :
  Forall (λ row, length row = n) rows →
  length (concat rows) = (length rows * n)%nat.
Proof.
  induction 1 as [|row rows Hrow _ IH]; [done|].
  simpl. rewrite length_app, IH, Hrow. done.
Qed.

(** Within the grid the rectangle has (r1 - r0) * (c1 - c0) cells. *)
Lemma length_sub_rectangle {A} (grid : list (list A)) cols (r0 r1 c0 c1 : Z) :
  Spec.rectangular grid cols →
  0 ≤ r0 ≤ r1 → r1 ≤ Z.of_nat (length grid) →
  0 ≤ c0 ≤ c1 → c1 ≤ Z.of_nat cols →
  Z.of_nat (length (Spec.sub_rectangle grid r0 r1 c0 c1))
  = (r1 - r0) * (c1 - c0).
Proof.
  intros Hrect Hr Hr1 Hc Hc1.
  rewrite <-ravel_slices by lia.
  rewrite (length_concat_same _ (Z.to_nat (c1 - c0))).
  - rewrite length_fmap, py_slice_nonneg, length_take, length_drop by lia. nia.
  - apply Forall_fmap, Forall_forall. intros row Hrow. simpl.
    rewrite py_slice_nonneg, length_take, length_drop by lia.
    assert (length row = cols) as ->; [|lia].
    rewrite py_slice_nonneg in Hrow by lia.
    apply subseteq_take, subseteq_drop in Hrow.
    unfold Spec.rectangular in Hrect. rewrite Forall_forall in Hrect. auto.
Qed.

End region.

(* ===================================================================== *)
(** ** getIRDataFromZone *)
(* ===================================================================== *)

Section zone_statistics.
Import IRUtils.
Implicit Types (image : list (list float)) (positions : gmap string (list pyval)).

Lemma py_slice_from_end {A} (l : list A) (a b : Z) :
  py_slice (Some a) (Some b) l
  = py_slice (Some (Spec.from_end (Z.of_nat (length l)) a))
             (Some (Spec.from_end (Z.of_nat (length l)) b)) l.
Proof.
  unfold py_slice, slice_indices, adjust_index, Spec.from_end. simpl.
  do 2 f_equal; repeat case_match; lia.
Qed.

Lemma from_end_nonneg (len b : Z) : 0 ≤ len → 0 ≤ Spec.from_end len b.
Proof. unfold Spec.from_end. case_match; lia. Qed.

(** On a non-empty rectangular grid the engine succeeds whatever the
    integer bounds are; its region of interest is the intersection of the
    grid with the rectangle whose negative bounds are counted from the
    end. *)
Lemma getIRDataFromZone_bounds image positions zone (iod : nat)
    (row_start row_end col_start col_end : Z) cols :
  image ≠ [] → Spec.rectangular image cols →
  Spec.zone_bounds positions zone iod row_start row_end col_start col_end →
  let rows := Z.of_nat (length image) in
  let roi :=
    Spec.sub_rectangle image
      (Spec.from_end rows row_start) (Spec.from_end rows row_end)
      (Spec.from_end (Z.of_nat cols) col_start)
      (Spec.from_end (Z.of_nat cols) col_end) in
  getIRDataFromZone image positions zone (Z.of_nat iod)
  = Ok (Np.median roi, Np.mean roi, Np.std roi).
Proof.
  intros Hne Hrect (H0 & H1 & H2 & H3) rows roi. unfold getIRDataFromZone.
  rewrite (edge_bound_at _ _ _ _ H0), (edge_bound_at _ _ _ _ H1),
    (edge_bound_at _ _ _ _ H2), (edge_bound_at _ _ _ _ H3).
  rewrite (array_rectangular image cols Hne Hrect). simpl.
  unfold Np.ravel.
  assert (concat (py_slice (Some col_start) (Some col_end)
                    <$> py_slice (Some row_start) (Some row_end) image) = roi)
    as ->; [|done].
  subst roi rows. rewrite <-ravel_slices by (apply from_end_nonneg; lia).
  rewrite <-py_slice_from_end. f_equal.
  apply Forall_fmap_ext, Forall_forall. intros row Hrow.
  assert (length row = cols) as <-; [|by apply py_slice_from_end].
  unfold py_slice in Hrow. destruct (slice_indices _ _ _) as [s e].
  apply subseteq_take, subseteq_drop in Hrow.
  unfold Spec.rectangular in Hrect. rewrite Forall_forall in Hrect. auto.
Qed.

(** With non-negative bounds the region of interest is the intersection of
    the requested rectangle itself with the grid. *)
Lemma getIRDataFromZone_nonneg image positions zone (iod : nat)
    (row_start row_end col_start col_end : Z) cols :
  image ≠ [] → Spec.rectangular image cols →
  Spec.zone_bounds positions zone iod row_start row_end col_start col_end →
  0 ≤ row_start → 0 ≤ row_end → 0 ≤ col_start → 0 ≤ col_end →
  getIRDataFromZone image positions zone (Z.of_nat iod)
  = Ok (Np.median (Spec.sub_rectangle image row_start row_end col_start col_end),
        Np.mean (Spec.sub_rectangle image row_start row_end col_start col_end),
        Np.std (Spec.sub_rectangle image row_start row_end col_start col_end)).
Proof.
  intros Hne Hrect Hb ? ? ? ?.
  rewrite (getIRDataFromZone_bounds _ _ _ _ _ _ _ _ _ Hne Hrect Hb). cbv zeta.
  unfold Spec.from_end.
  by rewrite !(proj2 (Z.ltb_ge _ 0)) by done.
Qed.

Lemma py_slice_clip {A} (l : list A) (a b : Z) :
  0 ≤ a → 0 ≤ b →
  py_slice (Some a) (Some b) l
  = py_slice (Some (a `min` Z.of_nat (length l)))
             (Some (b `min` Z.of_nat (length l))) l.
Proof.
  intros Ha Hb. unfold py_slice, slice_indices, adjust_index. simpl.
  repeat match goal with |- context [?x <? 0] =>
    destruct (Z.ltb_spec x 0); [lia|] end.
  replace ((a `min` Z.of_nat (length l)) `min` Z.of_nat (length l))
    with (a `min` Z.of_nat (length l)) by lia.
  replace ((b `min` Z.of_nat (length l)) `min` Z.of_nat (length l))
    with (b `min` Z.of_nat (length l)) by lia.
  done.
Qed.

Lemma sub_rectangle_clip {A} (grid : list (list A)) cols (r0 r1 c0 c1 : Z) :
  Spec.rectangular grid cols →
  0 ≤ r0 → 0 ≤ r1 → 0 ≤ c0 → 0 ≤ c1 →
  Spec.sub_rectangle grid r0 r1 c0 c1
  = Spec.sub_rectangle grid
      (r0 `min` Z.of_nat (length grid)) (r1 `min` Z.of_nat (length grid))
      (c0 `min` Z.of_nat cols) (c1 `min` Z.of_nat cols).
Proof.
  intros Hrect ? ? ? ?. rewrite <-!ravel_slices by lia.
  rewrite <-(py_slice_clip grid r0 r1) by done. f_equal.
  apply Forall_fmap_ext, Forall_forall. intros row Hrow.
  assert (length row = cols) as <-; [|by apply py_slice_clip].
  rewrite py_slice_nonneg in Hrow by done.
  apply subseteq_take, subseteq_drop in Hrow.
  unfold Spec.rectangular in Hrect. rewrite Forall_forall in Hrect. auto.
Qed.

(** A grid of constant value 5: median 5, mean 5 and standard deviation 0
    in both zones. *)
Example constant_grid_statistics :
  getIRDataFromZone Examples.constant_grid Examples.two_zones "zone1" 0
  = Ok (5, 5, 0)%float
  ∧ getIRDataFromZone Examples.constant_grid Examples.two_zones "zone2" 0
    = Ok (5, 5, 0)%float.
Proof. split; vm_compute; reflexivity. Qed.

(** Two outcomes with different medians are told apart by the kernel's
    comparison of floats. *)
Ltac median_discriminate H :=
  let m := constr:(λ r : result (float * float * float),
                     match r with Ok (m, _, _) => m | Raise _ => 0%float end) in
  match type of H with
  | ?x = _ =>
      apply (f_equal (λ r, PrimFloat.Leibniz.eqb (m x) (m r))) in H;
      vm_compute in H; discriminate H
  end.

(** C1 (amended): for every non-empty rectangular grid and every zone whose
    calibration bounds satisfy 0 <= row_start <= row_end <= number of rows
    and 0 <= col_start <= col_end <= number of columns, getIRDataFromZone
    returns the median, the mean and the standard deviation of exactly the
    cells of rows row_start..row_end-1 and columns col_start..col_end-1,
    taken row by row from the top-left corner; there are
    (row_end - row_start) * (col_end - col_start) of them, and the standard
    deviation divides the sum of squared deviations by that count N. *)
Theorem zone_statistics_valid_bounds image positions zone (iod : nat)
    (row_start row_end col_start col_end : Z) cols :
  image ≠ [] → Spec.rectangular image cols →
  Spec.zone_bounds positions zone iod row_start row_end col_start col_end →
  0 ≤ row_start ≤ row_end → row_end ≤ Z.of_nat (length image) →
  0 ≤ col_start ≤ col_end → col_end ≤ Z.of_nat cols →
  let roi := Spec.sub_rectangle image row_start row_end col_start col_end in
  getIRDataFromZone image positions zone (Z.of_nat iod)
  = Ok (Np.median roi, Np.mean roi, Np.std roi)
  ∧ Z.of_nat (length roi) = (row_end - row_start) * (col_end - col_start)
  ∧ Np.std roi
    = PrimFloat.sqrt
        (Np.sum ((λ x, (x - Np.mean roi) * (x - Np.mean roi))%float <$> roi)
         / Np.float_of_nat (length roi)).
Proof.
  intros Hne Hrect Hb Hr Hr1 Hc Hc1 roi. split_and!.
  - apply (getIRDataFromZone_nonneg _ _ _ _ _ _ _ _ cols); auto with lia.
  - by apply (length_sub_rectangle _ cols).
  - unfold Np.std. by rewrite <-list_fmap_compose.
Qed.

Lemma zone_statistics_valid_bounds_witness :
  let roi := Spec.sub_rectangle Examples.image32 0 2 0 2 in
  getIRDataFromZone Examples.image32 Examples.positions "zone1" 0
  = Ok (Np.median roi, Np.mean roi, Np.std roi)
  ∧ Z.of_nat (length roi) = (2 - 0) * (2 - 0)
  ∧ Np.std roi
    = PrimFloat.sqrt
        (Np.sum ((λ x, (x - Np.mean roi) * (x - Np.mean roi))%float <$> roi)
         / Np.float_of_nat (length roi)).
Proof.
  apply (zone_statistics_valid_bounds
           Examples.image32 Examples.positions "zone1" 0 0 2 0 2 2).
  - discriminate.
  - repeat constructor.
  - repeat split; vm_compute; reflexivity.
  - lia.
  - simpl; lia.
  - lia.
  - lia.
Defined.

(** C1, as stated, fails in three ways.  A negative start satisfies
    row_start <= row_end <= rows but is counted from the last row: with
    bounds [-1:2, 0:2] on a grid of three rows the engine works on no cell
    at all, where the rectangle covers rows 0 and 1.  The grid without rows
    and a grid with rows of unequal lengths make the engine raise,
    whatever the bounds: IndexError for the first, ValueError for the
    second. *)
Lemma zone_statistics_counterexample :
  (Spec.zone_bounds Examples.positions "zone1" 1 (-1) 2 0 2
   ∧ (-1 ≤ 2 ≤ Z.of_nat (length Examples.image32))
   ∧ (0 ≤ 2 ≤ 2)
   ∧ Spec.sub_rectangle Examples.image32 (-1) 2 0 2 = [1; 2; 3; 4]%float
   ∧ getIRDataFromZone Examples.image32 Examples.positions "zone1" 1
     = Ok (PrimFloat.nan, PrimFloat.nan, PrimFloat.nan)
   ∧ getIRDataFromZone Examples.image32 Examples.positions "zone1" 1
     ≠ Ok (Np.median [1; 2; 3; 4]%float, Np.mean [1; 2; 3; 4]%float,
           Np.std [1; 2; 3; 4]%float))
  ∧ (Spec.zone_bounds Examples.positions "zone1" 3 0 0 0 0
     ∧ getIRDataFromZone [] Examples.positions "zone1" 3 = Raise IndexError)
  ∧ (Spec.zone_bounds Examples.positions "zone1" 4 0 2 0 1
     ∧ (0 ≤ 2 ≤ Z.of_nat (length Examples.ragged_image))
     ∧ Forall (λ row, 0 ≤ 1 ≤ Z.of_nat (length row)) Examples.ragged_image
     ∧ getIRDataFromZone Examples.ragged_image Examples.positions "zone1" 4
       = Raise ValueError).
Proof.
  split_and!; try (vm_compute; reflexivity); try (simpl; lia);
    try (repeat split; vm_compute; reflexivity).
  - intros H. median_discriminate H.
  - repeat constructor; simpl; lia.
Qed.

(** C10 (amended): for every non-empty rectangular grid and every zone
    whose four calibration bounds are non-negative, in particular when
    row_end or col_end exceed the grid's dimensions or the starts lie
    beyond its last row or column, getIRDataFromZone raises no error: the
    slice is clipped to the grid's boundary, and the three statistics are
    those of the intersection of the requested rectangle with the grid. *)
Theorem zone_statistics_clipped image positions zone (iod : nat)
    (row_start row_end col_start col_end : Z) cols :
  image ≠ [] → Spec.rectangular image cols →
  Spec.zone_bounds positions zone iod row_start row_end col_start col_end →
  0 ≤ row_start → 0 ≤ row_end → 0 ≤ col_start → 0 ≤ col_end →
  let rows := Z.of_nat (length image) in
  let roi := Spec.sub_rectangle image row_start row_end col_start col_end in
  getIRDataFromZone image positions zone (Z.of_nat iod)
  = Ok (Np.median roi, Np.mean roi, Np.std roi)
  ∧ roi = Spec.sub_rectangle image
            (row_start `min` rows) (row_end `min` rows)
            (col_start `min` Z.of_nat cols) (col_end `min` Z.of_nat cols).
Proof.
  intros Hne Hrect Hb ? ? ? ? rows roi. split.
  - by apply (getIRDataFromZone_nonneg _ _ _ _ _ _ _ _ cols).
  - by apply sub_rectangle_clip.
Qed.

Lemma zone_statistics_clipped_witness :
  getIRDataFromZone Examples.image32 Examples.clipped_positions "zone1" 0
  = Ok (Np.median (Spec.sub_rectangle Examples.image32 1 10 1 7),
        Np.mean (Spec.sub_rectangle Examples.image32 1 10 1 7),
        Np.std (Spec.sub_rectangle Examples.image32 1 10 1 7))
  ∧ Spec.sub_rectangle Examples.image32 1 10 1 7
    = Spec.sub_rectangle Examples.image32
        (1 `min` 3) (10 `min` 3) (1 `min` 2) (7 `min` 2).
Proof.
  apply (zone_statistics_clipped
           Examples.image32 Examples.clipped_positions "zone1" 0 1 10 1 7 2).
  - discriminate.
  - repeat constructor.
  - repeat split; vm_compute; reflexivity.
  - lia.
  - lia.
  - lia.
  - lia.
Defined.

(** C10, as stated, fails when a bound is negative: with bounds
    [-1:10, 0:2] on a grid of three rows, row_end exceeds the number of
    rows, yet the start is not clipped to row 0 but counted from the last
    row, so that the engine works on the last row only, where the
    intersection of the rectangle with the grid is the whole grid. *)
Lemma zone_statistics_clipped_counterexample :
  Spec.zone_bounds Examples.positions "zone1" 2 (-1) 10 0 2
  ∧ Z.of_nat (length Examples.image32) < 10
  ∧ Spec.sub_rectangle Examples.image32 (-1) 10 0 2 = [1; 2; 3; 4; 5; 6]%float
  ∧ getIRDataFromZone Examples.image32 Examples.positions "zone1" 2
    = Ok (Np.median [5; 6]%float, Np.mean [5; 6]%float, Np.std [5; 6]%float)
  ∧ getIRDataFromZone Examples.image32 Examples.positions "zone1" 2
    ≠ Ok (Np.median [1; 2; 3; 4; 5; 6]%float,
          Np.mean [1; 2; 3; 4; 5; 6]%float,
          Np.std [1; 2; 3; 4; 5; 6]%float).
Proof.
  split_and!; try (vm_compute; reflexivity); try (simpl; lia);
    try (repeat split; vm_compute; reflexivity).
  intros H. median_discriminate H.
Qed.

End zone_statistics.

(* ===================================================================== *)
(** ** rotateCSVFile180 *)
(* ===================================================================== *)

Section rotation.
Import IRUtils.

Lemma mapM_result_total {A B} (f : A → result B) (g : A → B) (l : list A) :
  (∀ x, x ∈ l → f x = Ok (g x)) → mapM f l = Ok (g <$> l).
Proof.
  induction l as [|x l IH]; intros Hf; [done|].
  cbn [mapM]. rewrite Hf by left. simpl.
  rewrite IH; [done|]. intros y Hy. apply Hf. by right.
Qed.

Lemma mapM_result_raise {A B} (f : A → result B) (e : exn) (l : list A) :
  (∀ x, x ∈ l → f x = Raise e ∨ is_ok (f x) = true) →
  (∃ x, x ∈ l ∧ f x = Raise e) →
  mapM f l = Raise e.
Proof.
  induction l as [|x l IH]; intros Hall (y & Hy & Hfy).
  { by apply elem_of_nil in Hy. }
  cbn [mapM]. destruct (Hall x) as [Hx|Hx]; [by left|by rewrite Hx|].
  destruct (f x) as [b|e'] eqn:Hfx; [simpl|done].
  apply elem_of_cons in Hy as [->|Hy]; [congruence|].
  rewrite IH; [done| |by eauto]. intros z Hz. apply Hall. by right.
Qed.

Lemma py_getitem_nat {A} (l : list A) (i : nat) :
  py_getitem l (Z.of_nat i)
  = match l !! i with Some x => Ok x | None => Raise IndexError end.
Proof.
  unfold py_getitem.
  destruct (Z.ltb_spec (Z.of_nat i) 0); [lia|].
  destruct (Z.ltb_spec (Z.of_nat i) 0); [lia|].
  by rewrite Nat2Z.id.
Qed.

Lemma fmap_lookup_seq {A} (d : A) (row : list A) (n : nat) :
  (n ≤ length row)%nat →
  (λ j, default d (row !! j)) <$> seq 0 n = take n row.
Proof.
  intros Hn. apply list_eq. intros i.
  rewrite list_lookup_fmap. destruct (decide (i < n)%nat) as [Hi|Hi].
  - rewrite lookup_seq_lt, lookup_take_lt by done. simpl.
    destruct (lookup_lt_is_Some_2 row i) as [x ->]; [lia|done].
  - rewrite lookup_seq_ge, lookup_take_ge by lia. done.
Qed.

(** The cells of one row at the column indices n-1, ..., 0. *)
Lemma reversed_cells (csvcontent : list (list string)) (i n : nat) row :
  csvcontent !! i = Some row →
  mapM (λ j : nat, row ← py_getitem csvcontent (Z.of_nat i);
                   py_getitem row (Z.of_nat j))
       (reverse (seq 0 n))
  = if decide (n ≤ length row)%nat then Ok (reverse (take n row))
    else Raise IndexError.
Proof.
  intros Hi. case_decide as Hn.
  - rewrite (mapM_result_total _ (λ j, default "" (row !! j))).
    + by rewrite fmap_reverse, fmap_lookup_seq.
    + intros j Hj%elem_of_reverse%elem_of_seq.
      rewrite py_getitem_nat, Hi. simpl. rewrite py_getitem_nat.
      destruct (lookup_lt_is_Some_2 row j) as [x ->]; [lia|done].
  - apply mapM_result_raise.
    + intros j _. rewrite py_getitem_nat, Hi. simpl. rewrite py_getitem_nat.
      destruct (row !! j); auto.
    + exists (length row). split.
      * apply elem_of_reverse, elem_of_seq. lia.
      * rewrite py_getitem_nat, Hi. simpl. rewrite py_getitem_nat.
        by rewrite lookup_ge_None_2.
Qed.

Lemma rotated_row (csvcontent : list (list string)) (i : nat) row :
  csvcontent !! i = Some row →
  (row0 ← py_getitem csvcontent 0;
   mapM (λ j : nat, row ← py_getitem csvcontent (Z.of_nat i);
                    py_getitem row (Z.of_nat j))
        (reverse (seq 0 (length row0))))
  = if decide (Spec.first_width csvcontent ≤ length row)%nat
    then Ok (reverse (take (Spec.first_width csvcontent) row))
    else Raise IndexError.
Proof.
  intros Hi. destruct csvcontent as [|row0 rest]; [done|].
  change (py_getitem (row0 :: rest) 0) with (Ok (A:=list string) row0).
  simpl. by apply reversed_cells.
Qed.

Lemma rotated_covering (csvcontent : list (list string)) :
  Forall (λ row, Spec.first_width csvcontent ≤ length row)%nat csvcontent →
  rotated csvcontent
  = Ok (reverse ((λ row, reverse (take (Spec.first_width csvcontent) row))
                   <$> csvcontent)).
Proof.
  intros Hall. unfold rotated, reversed, range.
  rewrite (mapM_result_total _
    (λ i, reverse (take (Spec.first_width csvcontent)
                        (default [] (csvcontent !! i))))).
  - rewrite fmap_reverse. do 2 f_equal. apply list_eq. intros i.
    rewrite !list_lookup_fmap. destruct (csvcontent !! i) as [row|] eqn:Hi.
    + rewrite lookup_seq_lt by (by eapply lookup_lt_Some). simpl. by rewrite Hi.
    + rewrite lookup_seq_ge; [done|]. by apply lookup_ge_None.
  - intros i Hi%elem_of_reverse%elem_of_seq.
    destruct (lookup_lt_is_Some_2 csvcontent i) as [row Hrow]; [lia|].
    rewrite (rotated_row _ _ _ Hrow), Hrow. simpl.
    rewrite decide_True; [done|].
    rewrite Forall_forall in Hall. by eapply Hall, list_elem_of_lookup_2.
Qed.

Lemma rotated_short_row (csvcontent : list (list string)) :
  Exists (λ row, length row < Spec.first_width csvcontent)%nat csvcontent →
  rotated csvcontent = Raise IndexError.
Proof.
  intros (row & [i Hi]%list_elem_of_lookup_1 & Hshort)%Exists_exists.
  unfold rotated, reversed, range. apply mapM_result_raise.
  - intros k Hk%elem_of_reverse%elem_of_seq.
    destruct (lookup_lt_is_Some_2 csvcontent k) as [row' Hrow']; [lia|].
    rewrite (rotated_row _ _ _ Hrow'). case_decide; auto.
  - exists i. split.
    + apply elem_of_reverse, elem_of_seq. apply lookup_lt_Some in Hi. lia.
    + rewrite (rotated_row _ _ _ Hi). rewrite decide_False; [done|lia].
Qed.

Lemma rotated_rectangular (grid : list (list string)) cols :
  Spec.rectangular grid cols → rotated grid = Ok (Spec.rotate180 grid).
Proof.
  intros Hrect.
  assert (Forall (λ row, length row = Spec.first_width grid) grid) as Hsame.
  { destruct grid as [|row0 rest]; [done|].
    pose proof (Forall_inv Hrect) as H0. unfold Spec.first_width. simpl.
    eapply Forall_impl; [exact Hrect|].
    intros row Hrow. simpl in *. congruence. }
  rewrite rotated_covering.
  - unfold Spec.rotate180. do 2 f_equal.
    apply Forall_fmap_ext. eapply Forall_impl; [exact Hsame|].
    intros row Hrow. cbv beta. rewrite take_ge; [done|]. by rewrite Hrow.
  - eapply Forall_impl; [exact Hsame|]. intros row Hrow. simpl in *.
    by rewrite Hrow.
Qed.

Lemma rotate180_involutive {A} (grid : list (list A)) :
  Spec.rotate180 (Spec.rotate180 grid) = grid.
Proof.
  unfold Spec.rotate180.
  rewrite fmap_reverse, reverse_involutive, <-list_fmap_compose.
  rewrite <-(list_fmap_id grid) at 2. apply list_fmap_ext.
  intros _ row _. simpl. apply reverse_involutive.
Qed.

Lemma rotate180_rectangular {A} (grid : list (list A)) cols :
  Spec.rectangular grid cols → Spec.rectangular (Spec.rotate180 grid) cols.
Proof.
  unfold Spec.rectangular, Spec.rotate180. intros Hrect.
  apply Forall_reverse, Forall_fmap.
  eapply Forall_impl; [exact Hrect|]. intros row Hrow. simpl.
  by rewrite length_reverse.
Qed.

Lemma getIRDataFromZone_ragged (image : list (list float))
    (positions : gmap string (list pyval)) zone (iod : nat)
    (row_start row_end col_start col_end : Z) :
  Spec.ragged image →
  Spec.zone_bounds positions zone iod row_start row_end col_start col_end →
  getIRDataFromZone image positions zone (Z.of_nat iod) = Raise ValueError.
Proof.
  intros (row & row' & Hr & Hr' & Hlen) (H0 & H1 & H2 & H3).
  unfold getIRDataFromZone.
  rewrite (edge_bound_at _ _ _ _ H0), (edge_bound_at _ _ _ _ H1),
    (edge_bound_at _ _ _ _ H2), (edge_bound_at _ _ _ _ H3).
  by rewrite (array_ragged image row row').
Qed.

(** C2: for every rectangular grid, one application of rotateCSVFile180
    leaves in the file the grid with its rows in reverse order and the
    cells of every row in reverse order, and a second application restores
    the original content, cell for cell. *)
Theorem rotate_twice_restores (disk : gmap string (list (list string)))
    csvpath grid cols :
  disk !! csvpath = Some grid → Spec.rectangular grid cols →
  rotateCSVFile180 csvpath disk = Ok (<[csvpath := Spec.rotate180 grid]> disk)
  ∧ (rotateCSVFile180 csvpath disk ≫= rotateCSVFile180 csvpath) = Ok disk.
Proof.
  intros Hfile Hrect.
  assert (rotateCSVFile180 csvpath disk
          = Ok (<[csvpath := Spec.rotate180 grid]> disk)) as Hone.
  { unfold rotateCSVFile180. by rewrite Hfile, (rotated_rectangular grid cols). }
  split; [done|]. rewrite Hone. simpl.
  unfold rotateCSVFile180. rewrite lookup_insert_eq.
  rewrite (rotated_rectangular _ cols) by by apply rotate180_rectangular.
  simpl. rewrite rotate180_involutive, insert_insert_eq.
  by rewrite insert_id.
Qed.

Lemma rotate_twice_restores_witness :
  rotateCSVFile180 "frame.csv" Examples.csv_disk
  = Ok (<["frame.csv" := Spec.rotate180 [["a"; "b"]; ["c"; "d"]; ["e"; "f"]]]>
          Examples.csv_disk)
  ∧ (rotateCSVFile180 "frame.csv" Examples.csv_disk
       ≫= rotateCSVFile180 "frame.csv") = Ok Examples.csv_disk.
Proof.
  apply (rotate_twice_restores Examples.csv_disk "frame.csv" _ 2).
  - reflexivity.
  - repeat constructor.
Defined.

(** C7 (amended): rotateCSVFile180 completes without an index error on
    every grid none of whose rows is shorter than the first row, whether
    the rows are of equal lengths or not, and keeps of every row as many
    cells as the first row has; as soon as one row is shorter than the
    first row, the rotation itself raises the index error.  A grid with
    rows of unequal lengths that reaches the zone slicing raises no index
    error there either: getIRDataFromZone raises ValueError, when numpy
    refuses to build the array. *)
Theorem rotation_of_ragged_grid (disk : gmap string (list (list string)))
    csvpath csvcontent :
  disk !! csvpath = Some csvcontent →
  let n := Spec.first_width csvcontent in
  (Forall (λ row, n ≤ length row)%nat csvcontent →
   rotateCSVFile180 csvpath disk
   = Ok (<[csvpath := reverse ((λ row, reverse (take n row)) <$> csvcontent)]>
           disk))
  ∧ (Exists (λ row, length row < n)%nat csvcontent →
     rotateCSVFile180 csvpath disk = Raise IndexError)
  ∧ (∀ (image : list (list float)) positions zone (iod : nat)
       (row_start row_end col_start col_end : Z),
       Spec.ragged image →
       Spec.zone_bounds positions zone iod
                        row_start row_end col_start col_end →
       getIRDataFromZone image positions zone (Z.of_nat iod)
       = Raise ValueError).
Proof.
  intros Hfile n. unfold rotateCSVFile180. rewrite Hfile. split_and!.
  - intros Hall. by rewrite rotated_covering.
  - intros Hshort. by rewrite rotated_short_row.
  - intros. by eapply getIRDataFromZone_ragged.
Qed.

Lemma rotation_of_ragged_grid_witness :
  rotateCSVFile180 "long_row.csv" Examples.csv_disk
  = Ok (<["long_row.csv" := [["c"]; ["a"]]]> Examples.csv_disk)
  ∧ rotateCSVFile180 "short_row.csv" Examples.csv_disk = Raise IndexError
  ∧ getIRDataFromZone Examples.ragged_image Examples.positions "zone1" 4
    = Raise ValueError.
Proof.
  destruct (rotation_of_ragged_grid Examples.csv_disk "long_row.csv" _ eq_refl)
    as (Hlong & _ & Hslice).
  destruct (rotation_of_ragged_grid Examples.csv_disk "short_row.csv" _ eq_refl)
    as (_ & Hshort & _).
  split_and!.
  - apply Hlong. repeat constructor.
  - apply Hshort. apply Exists_cons_tl, Exists_cons_hd.
    unfold Spec.first_width. simpl. lia.
  - apply (Hslice _ _ _ 4%nat 0 2 0 1).
    + exists [1%float; 2%float], [3%float].
      split_and!; [by left|by right; left|done].
    + repeat split; vm_compute; reflexivity.
Defined.

(** C7, as stated, fails on a grid whose second row is shorter than the
    first: the comprehension asks the second row for a cell it does not
    have, and the rotation raises IndexError before anything is written. *)
Lemma rotation_of_ragged_grid_counterexample :
  Examples.csv_disk !! "short_row.csv" = Some [["a"; "b"]; ["c"]]
  ∧ Spec.ragged [["a"; "b"]; ["c"]]
  ∧ rotateCSVFile180 "short_row.csv" Examples.csv_disk = Raise IndexError.
Proof.
  split_and!; [reflexivity| |reflexivity].
  exists ["a"; "b"], ["c"]. split_and!; [by left|by right; left|done].
Qed.

End rotation.

(* ===================================================================== *)
(** ** getFileInfo *)
(* ===================================================================== *)

(** C5: getFileInfo applied to
    "ir_export_20170815_P0000004_005_10-50-08.csv" returns the date
    "20170815", the folder "P0000004", the file number "005" and the time
    "10-50-08". *)
Theorem getFileInfo_example :
  IRUtils.getFileInfo "ir_export_20170815_P0000004_005_10-50-08.csv"
  = ("20170815", "10-50-08", "P0000004", "005")
  ∧ ∀ date time folder filenumber,
      IRUtils.getFileInfo "ir_export_20170815_P0000004_005_10-50-08.csv"
      = (date, time, folder, filenumber) →
      date = "20170815" ∧ folder = "P0000004"
      ∧ filenumber = "005" ∧ time = "10-50-08".
Proof. split; [reflexivity|]. by intros ? ? ? ? [= <- <- <- <-]. Qed.

(* ===================================================================== *)
(** ** The calibration lookup *)
(* ===================================================================== *)

Section lookup.
Import IRUtils.
Context `{EqDecision A}.
Implicit Types (x : A) (l : list A).

Lemma list_index_raises x l e :
  list_index x l = Raise e → e = ValueError ∧ x ∉ l.
Proof.
  induction l as [|y l IH]; simpl.
  - intros [= <-]. split; [done|]. apply not_elem_of_nil.
  - case_decide as Hy; [done|].
    destruct (list_index x l) eqn:Hl; [done|]. simpl. intros [= <-].
    destruct (IH eq_refl) as [-> Hnot]. split; [done|].
    rewrite not_elem_of_cons. auto.
Qed.

Lemma list_index_absent x l : x ∉ l → list_index x l = Raise ValueError.
Proof.
  induction l as [|y l IH]; [done|].
  intros [Hne Hnot]%not_elem_of_cons. simpl.
  rewrite decide_False by done. by rewrite IH.
Qed.

Lemma list_index_first x l (i : nat) :
  list_index x l = Ok i ↔
  l !! i = Some x ∧ ∀ j : nat, (j < i)%nat → l !! j ≠ Some x.
Proof.
  revert i. induction l as [|y l IH]; intros i; simpl.
  - split; [done|]. by intros [? _].
  - case_decide as Hy.
    + subst y. split.
      * intros [= <-]. split; [done|]. intros j Hj. lia.
      * intros [Hi Hfirst]. destruct i as [|i]; [done|].
        by destruct (Hfirst 0%nat); [lia|].
    + destruct (list_index x l) as [k|e] eqn:Hl; simpl.
      * split.
        -- intros [= <-]. destruct (proj1 (IH k) eq_refl) as [Hk Hfirst].
           split; [done|]. intros [|j] Hj; simpl; [congruence|].
           apply Hfirst. lia.
        -- intros [Hi Hfirst]. destruct i as [|i]; simpl in Hi; [congruence|].
           f_equal. symmetry.
           assert (Ok (A:=nat) k = Ok i) as [= ->]; [|done].
           apply IH. split; [done|]. intros j Hj. apply (Hfirst (S j)). lia.
      * split; [done|]. intros [Hi _].
        destruct i as [|i]; simpl in Hi; [congruence|].
        apply list_index_raises in Hl as [_ []].
        by eapply list_elem_of_lookup_2.
Qed.

End lookup.

(* ===================================================================== *)
(** ** Dictionaries and column names *)
(* ===================================================================== *)

Section dictionaries.
Context {V : Type}.
Implicit Types (d : list (string * V)) (k : string) (v : V).

Lemma dict_get_set_eq k v d : dict_get k (dict_set k v d) = Some v.
Proof.
  induction d as [|[k' v'] d IH]; simpl.
  - by rewrite decide_True.
  - case_decide as Hk; simpl.
    + by rewrite decide_True.
    + by rewrite decide_False.
Qed.

Lemma dict_get_set_ne k k' v d :
  k ≠ k' → dict_get k' (dict_set k v d) = dict_get k' d.
Proof.
  intros Hne. induction d as [|[k0 v0] d IH]; simpl.
  - by rewrite decide_False.
  - case_decide as Hk; simpl.
    + subst k0. by rewrite !decide_False.
    + case_decide; [done|apply IH].
Qed.

Lemma dict_get_fmap {W} (f : V → W) k d :
  dict_get k ((λ kv, (kv.1, f kv.2)) <$> d) = f <$> dict_get k d.
Proof.
  induction d as [|[k' v'] d IH]; [done|].
  simpl. case_decide; [done|apply IH].
Qed.

End dictionaries.

Section column_names.

Lemma list_ascii_of_string_app (s1 s2 : string) :
  list_ascii_of_string (s1 +:+ s2)
  = list_ascii_of_string s1 ++ list_ascii_of_string s2.
Proof. induction s1 as [|c s1 IH]; [done|]. simpl. by rewrite IH. Qed.

Lemma list_ascii_of_string_inj (s1 s2 : string) :
  list_ascii_of_string s1 = list_ascii_of_string s2 → s1 = s2.
Proof.
  intros Heq. rewrite <-(string_of_list_ascii_of_string s1),
    <-(string_of_list_ascii_of_string s2). by rewrite Heq.
Qed.

(** A column name determines the zone and the statistic. *)
Lemma stat_column_inj (zone zone' s s' : string) :
  Spec.stat_suffix s → Spec.stat_suffix s' →
  "ir_" +:+ zone +:+ s = "ir_" +:+ zone' +:+ s' → zone = zone' ∧ s = s'.
Proof.
  intros Hs Hs' Heq%(inj (String.app "ir_")).
  apply (f_equal list_ascii_of_string) in Heq.
  rewrite !list_ascii_of_string_app in Heq.
  assert (length (list_ascii_of_string s) = length (list_ascii_of_string s')
          → zone = zone' ∧ s = s') as Hsame.
  { intros Hlen. apply app_inj_2 in Heq as [Hz Hsuf]; [|done].
    split; by apply list_ascii_of_string_inj. }
  pose proof (f_equal last Heq) as Hlast. rewrite !last_app in Hlast.
  destruct Hs as [->| [->| ->]], Hs' as [->| [->| ->]];
    first [ by apply Hsame | by simpl in Hlast ].
Qed.

End column_names.

(* ===================================================================== *)
(** ** getIRDataFromMultipleZones *)
(* ===================================================================== *)

Section aggregator.
Import IRUtils.
Implicit Types (positions : gmap string (list pyval)) (disk : gmap string Pd.frame).

Lemma list_index_fmap_inj `{EqDecision A, EqDecision B} (f : A → B)
    `{!Inj (=) (=) f} (x : A) (l : list A) :
  list_index (f x) (f <$> l) = list_index x l.
Proof.
  induction l as [|y l IH]; [done|]. rewrite fmap_cons. cbn [list_index].
  destruct (decide (y = x)) as [->|Hne].
  - by rewrite decide_True.
  - rewrite decide_False by (by intros ?%(inj f)). by rewrite IH.
Qed.

#[local] Instance PyStr_inj : Inj (=) (=) PyStr.
Proof. by intros ? ? [= ->]. Qed.

(** The lookup of the aggregator, on the strings. *)
Lemma lookup_as_strings (date : string) (measurement : list pyval) :
  list_index (PyStr date) ((λ x, PyStr (py_str x)) <$> measurement)
  = list_index date (Spec.measurement_dates measurement).
Proof.
  unfold Spec.measurement_dates.
  rewrite (list_fmap_compose py_str PyStr). apply list_index_fmap_inj, _.
Qed.

Lemma str_of_strings (measurement : list pyval) :
  Forall is_pystr measurement →
  (λ x, PyStr (py_str x)) <$> measurement = measurement.
Proof.
  induction 1 as [|x l Hx _ IH]; [done|].
  rewrite fmap_cons, IH. by destruct x.
Qed.

(** The steps of the aggregator, once the table has its measurement
    column. *)
Lemma aggregator_steps csvpath positions zone_list disk measurement :
  positions !! "measurement" = Some measurement →
  getIRDataFromMultipleZones csvpath positions zone_list disk
  = let filename := OsPath.basename (OsPath.normpath csvpath) in
    let measurement := (λ x, PyStr (py_str x)) <$> measurement in
    let positions := <["measurement" := measurement]> positions in
    (positions,
     indexOfDataset ← list_index (PyStr (Spec.decoded_date csvpath)) measurement;
     df ← Pd.read_csv disk csvpath;
     zones ← iterate zone_list;
     irdata_dict ←
       add_zones (Pd.dropna_all_columns df) positions indexOfDataset
         [("ir_date", Pd.Scalar (getFileInfo filename).1.1.1);
          ("ir_time", Pd.Scalar (getFileInfo filename).1.1.2);
          ("ir_folder", Pd.Scalar (getFileInfo filename).1.2);
          ("ir_filenumber", Pd.Scalar (getFileInfo filename).2)] zones;
     Pd.DataFrame irdata_dict).
Proof. intros Hm. unfold getIRDataFromMultipleZones. by rewrite Hm. Qed.

(** C9: for every calibration table whose measurement entries are strings,
    getIRDataFromMultipleZones, whatever its outcome, leaves the table as
    it was: the table it leaves behind is equal to the one it was given,
    so that every key has the value it had before the call. *)
Theorem calibration_table_unchanged csvpath positions zone_list disk :
  (∀ measurement, positions !! "measurement" = Some measurement →
                  Forall is_pystr measurement) →
  (getIRDataFromMultipleZones csvpath positions zone_list disk).1 = positions
  ∧ ∀ key, (getIRDataFromMultipleZones csvpath positions zone_list disk).1 !! key
           = positions !! key.
Proof.
  intros Hstr.
  assert ((getIRDataFromMultipleZones csvpath positions zone_list disk).1
          = positions) as Heq; [|by rewrite Heq].
  destruct (positions !! "measurement") as [measurement|] eqn:Hm.
  - rewrite (aggregator_steps _ _ _ _ _ Hm). simpl.
    rewrite str_of_strings by auto. by apply insert_id.
  - unfold getIRDataFromMultipleZones. by rewrite Hm.
Qed.

Lemma calibration_table_unchanged_witness :
  (getIRDataFromMultipleZones Examples.frame_path Examples.positions
     (ZoneNames ["zone1"]) Examples.frames).1 = Examples.positions
  ∧ ∀ key,
      (getIRDataFromMultipleZones Examples.frame_path Examples.positions
         (ZoneNames ["zone1"]) Examples.frames).1 !! key
      = Examples.positions !! key.
Proof.
  apply calibration_table_unchanged.
  intros measurement Hm. vm_compute in Hm.
  injection Hm as <-. repeat constructor.
Defined.

(** C4: getIRDataFromMultipleZones raises at the calibration lookup (a
    ValueError: the value is not in the list), whatever the frame file and
    the zones, exactly when the date decoded from the file name is absent
    from the table's measurement list, and then no record comes out for
    that file; when the date is present, once or several times, the call
    goes on with the index of the first row that holds it: its outcome is
    that of reading the frame, dropping its empty columns and adding the
    zones for that row. *)
Theorem calibration_lookup csvpath positions zone_list disk measurement :
  positions !! "measurement" = Some measurement →
  let date := Spec.decoded_date csvpath in
  let dates := Spec.measurement_dates measurement in
  let filename := OsPath.basename (OsPath.normpath csvpath) in
  (date ∉ dates ↔
   ∀ zone_list' disk',
     (getIRDataFromMultipleZones csvpath positions zone_list' disk').2
     = Raise ValueError)
  ∧ (date ∉ dates →
     (getIRDataFromMultipleZones csvpath positions zone_list disk).2
     = Raise ValueError)
  ∧ (date ∈ dates →
     ∃ i : nat,
       dates !! i = Some date
       ∧ (∀ j : nat, (j < i)%nat → dates !! j ≠ Some date)
       ∧ (getIRDataFromMultipleZones csvpath positions zone_list disk).2
         = (df ← Pd.read_csv disk csvpath;
            zones ← iterate zone_list;
            irdata_dict ←
              add_zones (Pd.dropna_all_columns df)
                (getIRDataFromMultipleZones csvpath positions zone_list disk).1
                i
                [("ir_date", Pd.Scalar (getFileInfo filename).1.1.1);
                 ("ir_time", Pd.Scalar (getFileInfo filename).1.1.2);
                 ("ir_folder", Pd.Scalar (getFileInfo filename).1.2);
                 ("ir_filenumber", Pd.Scalar (getFileInfo filename).2)]
                zones;
            Pd.DataFrame irdata_dict)).
Proof.
  intros Hm date dates filename.
  assert (date ∉ dates →
          ∀ zone_list' disk',
            (getIRDataFromMultipleZones csvpath positions zone_list' disk').2
            = Raise ValueError) as Habsent.
  { intros Habs zone_list' disk'.
    rewrite (aggregator_steps _ _ _ _ _ Hm). cbv zeta. cbn [fst snd].
    rewrite lookup_as_strings. fold date dates.
    by rewrite list_index_absent. }
  split_and!.
  - split; [exact Habsent|]. intros Hraise Hin.
    specialize (Hraise zone_list ∅). revert Hraise.
    rewrite (aggregator_steps _ _ _ _ _ Hm). cbv zeta. cbn [fst snd].
    rewrite lookup_as_strings. fold date dates.
    destruct (list_index date dates) as [i|e] eqn:Hidx.
    + by unfold Pd.read_csv; rewrite lookup_empty.
    + by apply list_index_raises in Hidx as [_ ?].
  - intros Habs. by apply Habsent.
  - intros Hin.
    destruct (list_index date dates) as [i|e] eqn:Hidx.
    2:{ by apply list_index_raises in Hidx as [_ ?]. }
    exists i. apply list_index_first in Hidx as Hfirst.
    destruct Hfirst as [Hi Hbefore]. split_and!; [done|done|].
    rewrite (aggregator_steps _ _ _ _ _ Hm). cbv zeta. cbn [fst snd].
    rewrite lookup_as_strings. fold date dates. by rewrite Hidx.
Qed.

(** A date that occurs twice is found at its first row. *)
Example lookup_first_of_duplicates :
  list_index (PyStr (Spec.decoded_date Examples.frame_path))
    [PyStr "20170814"; PyStr "20170815"; PyStr "20170815"] = Ok 1%nat
  ∧ list_index (PyStr "20170816")
      [PyStr "20170814"; PyStr "20170815"; PyStr "20170815"]
    = Raise ValueError.
Proof. split; vm_compute; reflexivity. Qed.

Lemma calibration_lookup_witness :
  (getIRDataFromMultipleZones
     "path/to/IRExport/ir_export_20170816_P0000004_005_10-50-08.csv"
     Examples.duplicate_positions (ZoneNames ["zone1"]) Examples.frames).2
  = Raise ValueError
  ∧ ∃ i : nat,
      Spec.measurement_dates
        [PyStr "20170814"; PyStr "20170815"; PyStr "20170815"] !! i
      = Some "20170815"
      ∧ (∀ j : nat, (j < i)%nat →
           Spec.measurement_dates
             [PyStr "20170814"; PyStr "20170815"; PyStr "20170815"] !! j
           ≠ Some "20170815")
      ∧ (getIRDataFromMultipleZones Examples.frame_path
           Examples.duplicate_positions (ZoneNames ["zone1"])
           Examples.frames).2
        = add_zones [[1; 2]; [3; 4]; [5; 6]]%float
            Examples.duplicate_positions i
            [("ir_date", Pd.Scalar "20170815");
             ("ir_time", Pd.Scalar "10-50-08");
             ("ir_folder", Pd.Scalar "P0000004");
             ("ir_filenumber", Pd.Scalar "005")] ["zone1"]
          ≫= Pd.DataFrame.
Proof.
  split.
  - apply (calibration_lookup
             "path/to/IRExport/ir_export_20170816_P0000004_005_10-50-08.csv"
             Examples.duplicate_positions (ZoneNames ["zone1"])
             Examples.frames
             [PyStr "20170814"; PyStr "20170815"; PyStr "20170815"]
             eq_refl).
    apply (bool_decide_unpack _). vm_compute. reflexivity.
  - destruct (calibration_lookup Examples.frame_path
                Examples.duplicate_positions (ZoneNames ["zone1"])
                Examples.frames
                [PyStr "20170814"; PyStr "20170815"; PyStr "20170815"]
                eq_refl) as (_ & _ & Hpresent).
    destruct Hpresent as (i & Hi & Hfirst & Hrun).
    { apply (bool_decide_unpack _). vm_compute. reflexivity. }
    exists i. split_and!; [exact Hi|exact Hfirst|].
    rewrite Hrun. vm_compute. reflexivity.
Defined.

(** *** Columns without a value *)

Lemma select_app_false {A} (mask : list bool) (row : list A) (x : A) :
  length mask = length row →
  Pd.select (mask ++ [false]) (row ++ [x]) = Pd.select mask row.
Proof.
  intros Hlen. unfold Pd.select.
  rewrite zip_with_app by done. rewrite filter_app, fmap_app.
  simpl. by rewrite app_nil_r.
Qed.

Lemma has_value_before_trailing (df df' : Pd.frame) cols (j : nat) :
  Spec.rectangular df cols → Spec.trailing_empty_column df' df →
  (j < cols)%nat → Pd.has_value df' j = Pd.has_value df j.
Proof.
  intros Hrect Htrail Hj. unfold Pd.has_value.
  induction Htrail as [|row' row df' df (x & -> & _) _ IH]; [done|].
  apply Forall_cons in Hrect as [Hrow Hrect]. simpl.
  rewrite lookup_app_l by lia. by rewrite IH.
Qed.

Lemma has_value_trailing (df df' : Pd.frame) cols :
  Spec.rectangular df cols → Spec.trailing_empty_column df' df →
  Pd.has_value df' cols = false.
Proof.
  intros Hrect Htrail. unfold Pd.has_value.
  induction Htrail as [|row' row df' df (x & -> & Hnan) _ IH]; [done|].
  apply Forall_cons in Hrect as [Hrow Hrect]. simpl.
  rewrite <-Hrow at 1. rewrite list_lookup_middle by done.
  rewrite Hnan. simpl. by apply IH.
Qed.

(** Dropping the columns without a value removes a trailing column of
    empty cells, and treats the other columns as if it were not there. *)
Lemma dropna_trailing_empty_column (df df' : Pd.frame) cols :
  Spec.rectangular df cols → Spec.trailing_empty_column df' df →
  Pd.dropna_all_columns df' = Pd.dropna_all_columns df.
Proof.
  intros Hrect Htrail. unfold Pd.dropna_all_columns.
  destruct Htrail as [|row' row df' df (x & -> & Hnan) Htrail]; [done|].
  assert (Spec.trailing_empty_column ((row ++ [x]) :: df') (row :: df))
    as Hall by (constructor; eauto).
  pose proof (Forall_inv Hrect) as Hrow. simpl in Hrow.
  assert (Pd.ncols ((row ++ [x]) :: df') = S cols) as ->.
  { simpl. rewrite length_app. simpl. lia. }
  assert (Pd.ncols (row :: df) = cols) as -> by done.
  rewrite seq_S, fmap_app.
  change (Pd.has_value ((row ++ [x]) :: df') <$> [(0 + cols)%nat])
    with [Pd.has_value ((row ++ [x]) :: df') cols].
  rewrite (has_value_trailing _ _ _ Hrect Hall).
  assert (Pd.has_value ((row ++ [x]) :: df') <$> seq 0 cols
          = Pd.has_value (row :: df) <$> seq 0 cols) as ->.
  { apply Forall_fmap_ext, Forall_forall. intros j Hj%elem_of_seq.
    apply (has_value_before_trailing _ _ cols); [done|done|lia]. }
  assert (length (Pd.has_value (row :: df) <$> seq 0 cols) = cols) as Hmask.
  { by rewrite length_fmap, length_seq. }
  revert Hmask. generalize (Pd.has_value (row :: df) <$> seq 0 cols).
  intros mask Hmask. clear Hnan Htrail Hrow.
  induction Hall as [|r' r d' d (y & -> & _) _ IH]; [done|].
  apply Forall_cons in Hrect as [Hr Hrect].
  rewrite !fmap_cons. f_equal; [|by apply IH].
  apply select_app_false. congruence.
Qed.

(** C8: for every frame, every table and every list of zones, the
    aggregator's outcome (the three statistics of every zone included) on
    the frame with one more, trailing column of empty cells is the outcome
    on the frame without that column. *)
Theorem trailing_empty_column_dropped csvpath positions zone_list disk
    (df df' : Pd.frame) cols :
  Spec.rectangular df cols → Spec.trailing_empty_column df' df →
  Pd.dropna_all_columns df' = Pd.dropna_all_columns df
  ∧ getIRDataFromMultipleZones csvpath positions zone_list
      (<[csvpath := df']> disk)
    = getIRDataFromMultipleZones csvpath positions zone_list
        (<[csvpath := df]> disk).
Proof.
  intros Hrect Htrail.
  pose proof (dropna_trailing_empty_column df df' cols Hrect Htrail) as Hdrop.
  split; [done|].
  destruct (positions !! "measurement") as [measurement|] eqn:Hm.
  - rewrite !(aggregator_steps _ _ _ _ _ Hm). cbv zeta. f_equal.
    destruct (list_index _ _) as [iod|e]; [simpl|done].
    unfold Pd.read_csv. rewrite !lookup_insert_eq. simpl.
    by rewrite Hdrop.
  - unfold getIRDataFromMultipleZones. by rewrite Hm.
Qed.

Lemma trailing_empty_column_dropped_witness :
  Pd.dropna_all_columns
    [[1; 2; nan]; [3; 4; nan]; [5; 6; nan]]%float
  = Pd.dropna_all_columns Examples.image32
  ∧ getIRDataFromMultipleZones Examples.frame_path Examples.positions
      (ZoneNames ["zone1"])
      (<[Examples.frame_path := [[1; 2; nan]; [3; 4; nan]; [5; 6; nan]]%float]>
         Examples.frames)
    = getIRDataFromMultipleZones Examples.frame_path Examples.positions
        (ZoneNames ["zone1"])
        (<[Examples.frame_path := Examples.image32]> Examples.frames).
Proof.
  apply (trailing_empty_column_dropped _ _ _ _ _ _ 2).
  - repeat constructor.
  - repeat constructor; eexists; (split; [reflexivity|reflexivity]).
Defined.


(** *** The columns of the record *)

Lemma add_zone_ok image positions (iod : nat) d zone d1 :
  add_zone image positions iod d zone = Ok d1 →
  ∃ stats,
    getIRDataFromZone image positions zone (Z.of_nat iod) = Ok stats
    ∧ Spec.records_zone "ir_" d1 zone stats
    ∧ ∀ k, (∀ s, Spec.stat_suffix s → k ≠ "ir_" +:+ zone +:+ s) →
           dict_get k d1 = dict_get k d.
Proof.
  unfold add_zone.
  destruct (getIRDataFromZone _ _ _ _) as [stats|e]; [simpl|done].
  intros [= <-]. exists stats. split; [done|].
  assert (∀ s s', Spec.stat_suffix s → Spec.stat_suffix s' → s ≠ s' →
                  "ir_" +:+ zone +:+ s ≠ "ir_" +:+ zone +:+ s') as Hne.
  { intros s s' Hs Hs' Hss Heq.
    by destruct (stat_column_inj _ _ _ _ Hs Hs' Heq). }
  assert (Spec.stat_suffix "_med") as Hmed by (by left).
  assert (Spec.stat_suffix "_mean") as Hmean by (by right; left).
  assert (Spec.stat_suffix "_std") as Hstd by (by right; right).
  split; [split_and!|].
  - rewrite !dict_get_set_ne by (by apply Hne). apply dict_get_set_eq.
  - rewrite dict_get_set_ne by (by apply Hne). apply dict_get_set_eq.
  - apply dict_get_set_eq.
  - intros k Hk. rewrite !dict_get_set_ne; [done|..]; by apply not_eq_sym, Hk.
Qed.

Lemma add_zones_ok image positions (iod : nat) d zones d' :
  add_zones image positions iod d zones = Ok d' →
  (∀ zone, zone ∈ zones →
     ∃ stats,
       getIRDataFromZone image positions zone (Z.of_nat iod) = Ok stats
       ∧ Spec.records_zone "ir_" d' zone stats)
  ∧ (∀ k, (∀ zone s, zone ∈ zones → Spec.stat_suffix s →
                     k ≠ "ir_" +:+ zone +:+ s) →
          dict_get k d' = dict_get k d).
Proof.
  revert d. induction zones as [|z rest IH]; intros d; simpl.
  { intros [= <-]. split; [|done]. by intros zone ?%elem_of_nil. }
  destruct (add_zone image positions iod d z) as [d1|e] eqn:Hz; [simpl|done].
  intros Hrest. destruct (IH _ Hrest) as [IHzones IHother].
  destruct (add_zone_ok _ _ _ _ _ _ Hz) as (stats & Hstats & Hrec & Hother).
  split.
  - intros zone Hzone. destruct (decide (zone ∈ rest)) as [Hin|Hnotin]; [by auto|].
    apply elem_of_cons in Hzone as [->|?]; [|done].
    exists stats. split; [done|].
    assert (∀ s, Spec.stat_suffix s →
                 dict_get ("ir_" +:+ z +:+ s) d' = dict_get ("ir_" +:+ z +:+ s) d1)
      as Hkeep.
    { intros s Hs. apply IHother. intros zone' s' Hzone' Hs' Heq.
      destruct (stat_column_inj _ _ _ _ Hs Hs' Heq) as [-> _]. done. }
    destruct Hrec as (Hmed & Hmean & Hstd). unfold Spec.records_zone.
    rewrite !Hkeep; [done|..]; unfold Spec.stat_suffix; auto.
  - intros k Hk. rewrite IHother.
    + apply Hother. intros s Hs. apply Hk; [by left|done].
    + intros zone s Hzone Hs. apply Hk; [by right|done].
Qed.

Lemma DataFrame_column d record k x :
  Pd.DataFrame d = Ok record →
  dict_get k d = Some (Pd.Column [x]) →
  dict_get k record = Some [Pd.CNum x].
Proof.
  unfold Pd.DataFrame. intros Hframe Hk.
  destruct (omap _ d) as [|n ns].
  - destruct d; [done|discriminate].
  - destruct (forallb _ ns); [|done]. injection Hframe as <-.
    by rewrite dict_get_fmap, Hk.
Qed.

(** What a successful call went through. *)
Lemma aggregator_ok csvpath positions zone_list disk record :
  (getIRDataFromMultipleZones csvpath positions zone_list disk).2 = Ok record →
  ∃ measurement (iod : nat) df zones d0 irdata_dict,
    positions !! "measurement" = Some measurement
    ∧ list_index (Spec.decoded_date csvpath)
                 (Spec.measurement_dates measurement) = Ok iod
    ∧ disk !! csvpath = Some df
    ∧ zone_list = ZoneNames zones
    ∧ dict_get "ir_date" d0 = Some (Pd.Scalar (Spec.decoded_date csvpath))
    ∧ add_zones (Pd.dropna_all_columns df)
                (getIRDataFromMultipleZones csvpath positions zone_list disk).1
                iod d0 zones = Ok irdata_dict
    ∧ Pd.DataFrame irdata_dict = Ok record.
Proof.
  destruct (positions !! "measurement") as [measurement|] eqn:Hm.
  2:{ unfold getIRDataFromMultipleZones. by rewrite Hm. }
  rewrite (aggregator_steps _ _ _ _ _ Hm). cbv zeta. cbn [fst snd].
  rewrite lookup_as_strings.
  destruct (list_index _ _) as [iod|e] eqn:Hidx; [simpl|done].
  unfold Pd.read_csv. destruct (disk !! csvpath) as [df|] eqn:Hdf; [simpl|done].
  destruct zone_list as [zones|n]; [simpl|done].
  destruct (add_zones _ _ _ _ _) as [irdata_dict|e] eqn:Hzones; [simpl|done].
  intros Hframe. eexists measurement, iod, df, zones, _, irdata_dict.
  split_and!; try done. reflexivity.
Qed.


(** C6 (amended): whenever the aggregator produces a record for a frame
    file, the record holds, for every zone name of the list it was given,
    that zone's median, mean and standard deviation (computed by
    getIRDataFromZone on the frame without its empty columns, for the
    calibration row of the file's date) under the column names
    ir_<zone>_med, ir_<zone>_mean and ir_<zone>_std. *)
Theorem zone_statistics_columns csvpath positions zones disk record zone :
  (getIRDataFromMultipleZones csvpath positions (ZoneNames zones) disk).2
  = Ok record →
  zone ∈ zones →
  ∃ measurement (iod : nat) df median mean std,
    positions !! "measurement" = Some measurement
    ∧ list_index (Spec.decoded_date csvpath)
                 (Spec.measurement_dates measurement) = Ok iod
    ∧ disk !! csvpath = Some df
    ∧ getIRDataFromZone (Pd.dropna_all_columns df)
        (getIRDataFromMultipleZones csvpath positions (ZoneNames zones) disk).1
        zone (Z.of_nat iod)
      = Ok (median, mean, std)
    ∧ dict_get ("ir_" +:+ zone +:+ "_med") record = Some [Pd.CNum median]
    ∧ dict_get ("ir_" +:+ zone +:+ "_mean") record = Some [Pd.CNum mean]
    ∧ dict_get ("ir_" +:+ zone +:+ "_std") record = Some [Pd.CNum std].
Proof.
  intros Hok Hzone.
  destruct (aggregator_ok _ _ _ _ _ Hok)
    as (measurement & iod & df & zones' & d0 & d & Hm & Hidx & Hdf & [= <-]
        & _ & Hzones & Hframe).
  destruct (add_zones_ok _ _ _ _ _ _ Hzones) as [Hall _].
  destruct (Hall zone Hzone) as ([[median mean] std] & Hstats & Hmed & Hmean & Hstd).
  exists measurement, iod, df, median, mean, std.
  split_and!; try done; by eapply DataFrame_column.
Qed.

Lemma zone_statistics_columns_witness :
  ∃ measurement (iod : nat) df median mean std,
    Examples.positions !! "measurement" = Some measurement
    ∧ list_index (Spec.decoded_date Examples.frame_path)
                 (Spec.measurement_dates measurement) = Ok iod
    ∧ Examples.frames !! Examples.frame_path = Some df
    ∧ getIRDataFromZone (Pd.dropna_all_columns df)
        (getIRDataFromMultipleZones Examples.frame_path Examples.positions
           (ZoneNames ["zone1"]) Examples.frames).1
        "zone1" (Z.of_nat iod)
      = Ok (median, mean, std)
    ∧ dict_get ("ir_" +:+ "zone1" +:+ "_med") Examples.record
      = Some [Pd.CNum median]
    ∧ dict_get ("ir_" +:+ "zone1" +:+ "_mean") Examples.record
      = Some [Pd.CNum mean]
    ∧ dict_get ("ir_" +:+ "zone1" +:+ "_std") Examples.record
      = Some [Pd.CNum std].
Proof.
  apply (zone_statistics_columns Examples.frame_path Examples.positions
           ["zone1"] Examples.frames Examples.record "zone1").
  - vm_compute. reflexivity.
  - by left.
Defined.

(** C6, as stated, fails: the record made for zone "zone1" has no column
    named zone1_med, zone1_mean or zone1_std; the statistics are under
    ir_zone1_med, ir_zone1_mean and ir_zone1_std. *)
Lemma zone_statistics_columns_counterexample :
  (getIRDataFromMultipleZones Examples.frame_path Examples.positions
     (ZoneNames ["zone1"]) Examples.frames).2 = Ok Examples.record
  ∧ dict_get "zone1_med" Examples.record = None
  ∧ dict_get "zone1_mean" Examples.record = None
  ∧ dict_get "zone1_std" Examples.record = None
  ∧ dict_get "ir_zone1_med" Examples.record
    = Some [Pd.CNum (Np.median [1; 2; 3; 4]%float)].
Proof. split_and!; vm_compute; reflexivity. Qed.


(** *** The date of the record *)

Lemma date_column_name zone s :
  Spec.stat_suffix s → "ir_date" ≠ "ir_" +:+ zone +:+ s.
Proof.
  intros Hs Heq%(inj (String.app "ir_") "date").
  apply (f_equal list_ascii_of_string) in Heq.
  rewrite list_ascii_of_string_app in Heq.
  apply (f_equal last) in Heq. rewrite last_app in Heq.
  by destruct Hs as [->| [->| ->]].
Qed.

Lemma one_row_dict_set k v d :
  Spec.one_row d →
  match v with Pd.Scalar _ => True | Pd.Column xs => length xs = 1%nat end →
  Spec.one_row (dict_set k v d).
Proof.
  unfold Spec.one_row. intros Hd Hv.
  induction Hd as [|[k' v'] d Hkv Hd IH]; simpl.
  - by repeat constructor.
  - case_decide; constructor; auto.
Qed.

Lemma one_row_add_zones image positions (iod : nat) d zones d' :
  add_zones image positions iod d zones = Ok d' →
  Spec.one_row d → Spec.one_row d'.
Proof.
  revert d. induction zones as [|z rest IH]; intros d; simpl.
  { by intros [= <-]. }
  unfold add_zone at 1.
  destruct (getIRDataFromZone _ _ _ _) as [stats|e]; [simpl|done].
  intros Hrest Hd. apply (IH _ Hrest).
  by repeat apply one_row_dict_set.
Qed.

Lemma DataFrame_one_row d record k s :
  Spec.one_row d → Pd.DataFrame d = Ok record →
  dict_get k d = Some (Pd.Scalar s) →
  dict_get k record = Some [Pd.CStr s].
Proof.
  intros Hone Hframe Hk.
  assert (Forall (λ n, n = 1%nat) (omap (λ kv, Pd.column_length kv.2) d)) as Hn.
  { clear Hframe Hk.
    induction Hone as [|[k' v'] d' Hkv _ IH]; [by constructor|].
    destruct v' as [s'|xs]; cbn in *; [exact IH|by constructor]. }
  unfold Pd.DataFrame in Hframe.
  destruct (omap _ d) as [|n ns].
  - destruct d; [done|discriminate].
  - destruct (forallb _ ns); [|done]. injection Hframe as <-.
    apply Forall_cons in Hn as [-> _].
    by rewrite dict_get_fmap, Hk.
Qed.

(** Given a list of zone names, the aggregator tags its record with the
    date decoded from the file's name. *)
Lemma record_date csvpath positions zones disk record :
  (getIRDataFromMultipleZones csvpath positions (ZoneNames zones) disk).2
  = Ok record →
  dict_get "ir_date" record = Some [Pd.CStr (Spec.decoded_date csvpath)].
Proof.
  intros Hok. pose proof Hok as Hsteps. apply aggregator_ok in Hsteps
    as (measurement & iod & df & zones' & d0 & d & Hm & _ & _ & _
        & _ & _ & _).
  rewrite (aggregator_steps _ _ _ _ _ Hm) in Hok. cbv zeta in Hok.
  cbn [fst snd] in Hok.
  destruct (list_index _ _) as [i|e]; [simpl in Hok|done].
  destruct (Pd.read_csv _ _) as [frame|e]; [simpl in Hok|done].
  destruct (add_zones _ _ _ _ _) as [d'|e] eqn:Hzones; [simpl in Hok|done].
  apply (DataFrame_one_row d'); [|done|].
  - apply (one_row_add_zones _ _ _ _ _ _ Hzones). by repeat constructor.
  - destruct (add_zones_ok _ _ _ _ _ _ Hzones) as [_ Hother].
    rewrite Hother; [done|]. intros zone s _ Hs. by apply date_column_name.
Qed.

End aggregator.

(* ===================================================================== *)
(** ** getPositionInformation *)
(* ===================================================================== *)

Section loader.
Import IRUtils.
Implicit Types (pos_info : gmap string (list pyval)).

Lemma dict_set_Forall {V} (P : string * V → Prop) k v (d : list (string * V)) :
  P (k, v) → Forall P d → Forall P (dict_set k v d).
Proof.
  intros Hkv. induction 1 as [|[k' v'] d Hd Htail IH]; simpl.
  - by repeat constructor.
  - case_decide; constructor; auto.
Qed.

Lemma dictreader_row_complete (fieldnames row : list string) :
  length row = length fieldnames →
  ∃ d, dictreader_row fieldnames row = (d, None)
       ∧ Forall (λ kv, is_Some kv.2) d.
Proof.
  intros Hlen. unfold dictreader_row.
  rewrite (proj2 (Nat.ltb_ge _ _)) by lia.
  rewrite drop_ge by lia. simpl. eexists. split; [done|].
  generalize (zip fieldnames row).
  assert (Forall (λ kv : string * option string, is_Some kv.2) []) as Hnil
    by constructor.
  revert Hnil. generalize (@nil (string * option string)).
  intros d Hd l. revert d Hd. induction l as [|kv l IH]; intros d Hd; [done|].
  simpl. apply IH. by apply dict_set_Forall.
Qed.

Lemma add_field_strings pos_info c (s : string) pos_info' :
  Spec.string_measurements pos_info →
  add_field pos_info (c, Some s) = Ok pos_info' →
  Spec.string_measurements pos_info'.
Proof.
  unfold Spec.string_measurements, add_field, setdefault_append.
  intros Hstr Hadd m. case_decide as Hc.
  - injection Hadd as <-. subst c. rewrite lookup_insert_eq. intros [= <-].
    apply Forall_app. split; [|by repeat constructor].
    destruct (pos_info !! "measurement") eqn:Hm; simpl; auto.
  - destruct (py_int s) as [z|e]; [simpl in Hadd|done].
    injection Hadd as <-. rewrite lookup_insert_ne by done. auto.
Qed.

Lemma add_fields_strings pos_info items pos_info' :
  Forall (λ kv : string * option string, is_Some kv.2) items →
  Spec.string_measurements pos_info →
  add_fields pos_info items = Ok pos_info' →
  Spec.string_measurements pos_info'.
Proof.
  intros Hitems. revert pos_info.
  induction Hitems as [|[c v] items [s Hs] _ IH]; intros pos_info Hstr;
    cbn [add_fields].
  { intros [= <-]. exact Hstr. }
  simpl in Hs. subst v.
  destruct (add_field pos_info (c, Some s)) as [pos_info1|e] eqn:Hadd;
    [simpl|by simpl].
  apply IH. by eapply add_field_strings.
Qed.

Lemma add_rows_strings (fieldnames : list string) rows pos_info pos_info' :
  Forall (λ row, length row = length fieldnames) rows →
  Spec.string_measurements pos_info →
  add_rows pos_info (dictreader_row fieldnames <$> rows) = Ok pos_info' →
  Spec.string_measurements pos_info'.
Proof.
  intros Hrows. revert pos_info.
  induction Hrows as [|row rows Hrow _ IH]; intros pos_info Hstr;
    rewrite ?fmap_cons; cbn [add_rows].
  { intros [= <-]. exact Hstr. }
  destruct (dictreader_row_complete fieldnames row Hrow) as (d & -> & Hd).
  unfold add_row at 1. cbn [fst snd].
  destruct (add_fields pos_info d) as [pos_info1|e] eqn:Hadd;
    [simpl|by simpl].
  apply IH. by eapply add_fields_strings.
Qed.

(** The table that the loader builds from a calibration file whose rows
    have one cell per field name holds strings in its measurement
    column. *)
Lemma loader_measurement_strings (files : gmap string (list (list string)))
    position_path fieldnames rows positions numberOfZones :
  files !! position_path = Some (fieldnames :: rows) →
  Forall (λ row, row = [] ∨ length row = length fieldnames) rows →
  getPositionInformation files position_path = Ok (positions, numberOfZones) →
  Spec.string_measurements positions.
Proof.
  intros Hfile Hrows. unfold getPositionInformation. rewrite Hfile.
  destruct (add_rows _ _) as [pos_info|e] eqn:Hadd; [simpl|done].
  intros [= <- _]. simpl in Hadd.
  eapply add_rows_strings; [| |exact Hadd].
  - apply Forall_forall. intros row [Hne Hin]%list_elem_of_filter.
    rewrite Forall_forall in Hrows. by destruct (Hrows row Hin).
  - intros m Hm. by rewrite lookup_empty in Hm.
Qed.

End loader.

(* ===================================================================== *)
(** ** The batch driver *)
(* ===================================================================== *)

Section driver.
Import IRUtils.

(** Handed an integer for its list of zones, the aggregator raises. *)
Lemma aggregator_zone_number csvpath positions (n : Z) disk :
  is_ok (getIRDataFromMultipleZones csvpath positions (ZoneNumber n) disk).2
  = false.
Proof.
  destruct (positions !! "measurement") as [measurement|] eqn:Hm.
  - rewrite (aggregator_steps _ _ _ _ _ Hm). cbv zeta. cbn [fst snd].
    destruct (list_index _ _); [simpl|done].
    by destruct (Pd.read_csv _ _).
  - unfold getIRDataFromMultipleZones. by rewrite Hm.
Qed.

(** C3: the claim does not hold for the driver as written.  The script
    hands numberOfZones, an integer, to getIRDataFromMultipleZones where
    the list of zone names is expected, so that the loop over the zones
    raises TypeError for the first file: whatever the calibration file and
    the frames, a batch of one file or more yields no output at all.  For
    one calibration row and the one file of its date the outcome is that
    TypeError instead of one record.  Given a list of zone names, the
    aggregator does tag its record with the date decoded from the file's
    name. *)
Theorem driver_raises_on_first_file :
  (∀ calibration csvfile rest disk,
     is_ok (AnalyzeIRData.main calibration (csvfile :: rest) disk) = false)
  ∧ AnalyzeIRData.main Examples.calibration [Examples.frame_path]
                       Examples.frames
    = Raise TypeError
  ∧ (∀ csvpath positions zones disk record,
       (getIRDataFromMultipleZones csvpath positions (ZoneNames zones) disk).2
       = Ok record →
       dict_get "ir_date" record = Some [Pd.CStr (Spec.decoded_date csvpath)]).
Proof.
  split_and!.
  - intros calibration csvfile rest disk. unfold AnalyzeIRData.main.
    destruct (getPositionInformation _ _) as [[positions n]|e]; [simpl|done].
    pose proof (aggregator_zone_number csvfile positions n disk) as Hraise.
    destruct (getIRDataFromMultipleZones _ _ _ _) as [positions' [record|e]];
      [done|done].
  - vm_compute. reflexivity.
  - apply record_date.
Qed.

End driver.

(* ===================================================================== *)
(** * Further properties of the code *)
(* ===================================================================== *)

(* ===================================================================== *)
(** ** getIRDataFromZone: bounds, empty regions, failures *)
(* ===================================================================== *)

Section zone_engine.
Import IRUtils.
Implicit Types (image : list (list float)) (positions : gmap string (list pyval)).

(** X1: on a non-empty rectangular grid getIRDataFromZone succeeds for any
    four integer bounds; a negative bound b stands for b plus the number
    of rows (or of columns), and for 0 if that is still negative, and the
    statistics are those of the cells of the resulting rectangle that lie
    in the grid. *)
Theorem zone_bounds_counted_from_end image positions zone (iod : nat)
    (row_start row_end col_start col_end : Z) cols :
  image ≠ [] → Spec.rectangular image cols →
  Spec.zone_bounds positions zone iod row_start row_end col_start col_end →
  let rows := Z.of_nat (length image) in
  let roi :=
    Spec.sub_rectangle image
      (Spec.from_end rows row_start) (Spec.from_end rows row_end)
      (Spec.from_end (Z.of_nat cols) col_start)
      (Spec.from_end (Z.of_nat cols) col_end) in
  getIRDataFromZone image positions zone (Z.of_nat iod)
  = Ok (Np.median roi, Np.mean roi, Np.std roi).
Proof. apply getIRDataFromZone_bounds. Qed.

Lemma zone_bounds_counted_from_end_witness :
  getIRDataFromZone Examples.image32 Examples.positions "zone1" 1
  = Ok (Np.median (Spec.sub_rectangle Examples.image32 2 2 0 2),
        Np.mean (Spec.sub_rectangle Examples.image32 2 2 0 2),
        Np.std (Spec.sub_rectangle Examples.image32 2 2 0 2)).
Proof.
  apply (zone_bounds_counted_from_end
           Examples.image32 Examples.positions "zone1" 1 (-1) 2 0 2 2).
  - discriminate.
  - repeat constructor.
  - repeat split; vm_compute; reflexivity.
Defined.

Lemma sub_rectangle_empty {A} (grid : list (list A)) cols (r0 r1 c0 c1 : Z) :
  Spec.rectangular grid cols →
  0 ≤ r0 → 0 ≤ r1 → 0 ≤ c0 → 0 ≤ c1 →
  r1 ≤ r0 ∨ c1 ≤ c0 ∨ Z.of_nat (length grid) ≤ r0 ∨ Z.of_nat cols ≤ c0 →
  Spec.sub_rectangle grid r0 r1 c0 c1 = [].
Proof.
  intros Hrect ? ? ? ? Hempty. rewrite <-ravel_slices by done.
  apply length_zero_iff_nil.
  rewrite (length_concat_same _ (Z.to_nat (c1 - c0) `min` (cols - Z.to_nat c0))).
  - rewrite length_fmap, py_slice_nonneg, length_take, length_drop by done. lia.
  - apply Forall_fmap, Forall_forall. intros row Hrow. simpl.
    rewrite py_slice_nonneg in Hrow by done.
    apply subseteq_take, subseteq_drop in Hrow.
    unfold Spec.rectangular in Hrect. rewrite Forall_forall in Hrect.
    rewrite py_slice_nonneg, length_take, length_drop, (Hrect _ Hrow) by done.
    done.
Qed.

(** X2: a zone that selects no cell of a non-empty rectangular grid (its
    non-negative bounds have row_end <= row_start or col_end <= col_start,
    or start at or beyond the last row or column) raises nothing: the
    median, the mean and the standard deviation are all NaN. *)
Theorem empty_zone_gives_nan image positions zone (iod : nat)
    (row_start row_end col_start col_end : Z) cols :
  image ≠ [] → Spec.rectangular image cols →
  Spec.zone_bounds positions zone iod row_start row_end col_start col_end →
  0 ≤ row_start → 0 ≤ row_end → 0 ≤ col_start → 0 ≤ col_end →
  row_end ≤ row_start ∨ col_end ≤ col_start
  ∨ Z.of_nat (length image) ≤ row_start ∨ Z.of_nat cols ≤ col_start →
  getIRDataFromZone image positions zone (Z.of_nat iod)
  = Ok (PrimFloat.nan, PrimFloat.nan, PrimFloat.nan).
Proof.
  intros Hne Hrect Hb ? ? ? ? Hempty.
  rewrite (getIRDataFromZone_nonneg _ _ _ _ _ _ _ _ cols) by done.
  by rewrite (sub_rectangle_empty _ cols).
Qed.

Lemma empty_zone_gives_nan_witness :
  getIRDataFromZone Examples.image32 Examples.positions "zone1" 3
  = Ok (PrimFloat.nan, PrimFloat.nan, PrimFloat.nan).
Proof.
  apply (empty_zone_gives_nan
           Examples.image32 Examples.positions "zone1" 3 0 0 0 0 2).
  - discriminate.
  - repeat constructor.
  - repeat split; vm_compute; reflexivity.
  - lia.
  - lia.
  - lia.
  - lia.
  - left. lia.
Defined.

Lemma array_2d image data :
  Np.array image = Ok (Np.Array2 data) →
  data = image ∧ image ≠ [] ∧ Spec.rectangular image (Spec.first_width image).
Proof.
  destruct image as [|r rs]; [done|]. simpl.
  destruct (forallb _ rs) eqn:Hall; [|done]. intros [= <-].
  split_and!; [done|done|]. constructor; [done|].
  apply Forall_forall. intros r' Hr'. rewrite forallb_forall in Hall.
  apply Nat.eqb_eq, Hall. by apply list_elem_of_In.
Qed.

Lemma edge_ok positions key (iod : Z) v :
  edge positions key iod = Ok v ↔
  ∃ col, positions !! key = Some col ∧ py_getitem col iod = Ok v.
Proof.
  unfold edge, py_lookup. destruct (positions !! key) as [col|]; simpl.
  - split; [by eauto|]. by intros (col' & [= <-] & ?).
  - split; [done|]. by intros (col' & ? & _).
Qed.

Lemma slice_bound_ok v : is_ok (Np.slice_bound v) = true ↔ ¬ is_pystr v.
Proof. destruct v; simpl; split; try done; tauto. Qed.

Lemma getIRDataFromZone_ok_iff image positions zone (iod : Z) :
  is_ok (getIRDataFromZone image positions zone iod) = true ↔
  Forall (λ key, Conditions.usable_bound positions key iod)
         (Conditions.bound_keys zone)
  ∧ image ≠ []
  ∧ ∃ cols, Spec.rectangular image cols.
Proof.
  unfold Conditions.bound_keys, Conditions.usable_bound.
  rewrite !Forall_cons, Forall_nil. unfold getIRDataFromZone. split.
  - destruct (edge _ (_ +:+ "_row_start") _) as [e0|] eqn:H0; [simpl|done].
    destruct (edge _ (_ +:+ "_row_end") _) as [e1|] eqn:H1; [simpl|done].
    destruct (edge _ (_ +:+ "_col_start") _) as [e2|] eqn:H2; [simpl|done].
    destruct (edge _ (_ +:+ "_col_end") _) as [e3|] eqn:H3; [simpl|done].
    apply edge_ok in H0 as (c0 & ? & ?), H1 as (c1 & ? & ?),
      H2 as (c2 & ? & ?), H3 as (c3 & ? & ?).
    destruct (Np.array image) as [[n|data]|e] eqn:Harr; [done| |done].
    apply array_2d in Harr as (-> & Hne & Hrect). simpl.
    destruct (Np.slice_bound e0) eqn:B0; [simpl|done].
    destruct (Np.slice_bound e1) eqn:B1; [simpl|done].
    destruct (Np.slice_bound e2) eqn:B2; [simpl|done].
    destruct (Np.slice_bound e3) eqn:B3; [simpl|done].
    intros _. split_and!; eauto 10;
      eexists _, _; split_and!; eauto; apply slice_bound_ok;
      by match goal with H : Np.slice_bound ?e = _ |- context [?e] =>
           rewrite H end.
  - intros (((c0 & e0 & L0 & G0 & B0) & (c1 & e1 & L1 & G1 & B1)
             & (c2 & e2 & L2 & G2 & B2) & (c3 & e3 & L3 & G3 & B3) & _)
            & Hne & cols & Hrect).
    rewrite (proj2 (edge_ok _ _ _ e0) (ex_intro _ c0 (conj L0 G0))),
      (proj2 (edge_ok _ _ _ e1) (ex_intro _ c1 (conj L1 G1))),
      (proj2 (edge_ok _ _ _ e2) (ex_intro _ c2 (conj L2 G2))),
      (proj2 (edge_ok _ _ _ e3) (ex_intro _ c3 (conj L3 G3))).
    simpl. rewrite (array_rectangular image cols Hne Hrect). simpl.
    apply slice_bound_ok in B0, B1, B2, B3.
    destruct (Np.slice_bound e0); [simpl|done].
    destruct (Np.slice_bound e1); [simpl|done].
    destruct (Np.slice_bound e2); [simpl|done].
    by destruct (Np.slice_bound e3).
Qed.

(** X3: getIRDataFromZone returns its three statistics exactly when each
    of the zone's four bound columns exists in the table, has an entry at
    index iod (counted from the end when negative) and that entry is not
    a string, and the grid has at least one row and rows of one length;
    in every other case it raises. *)
Theorem zone_engine_succeeds_iff image positions zone (iod : Z) :
  is_ok (getIRDataFromZone image positions zone iod) = true ↔
  Forall (λ key, Conditions.usable_bound positions key iod)
         (Conditions.bound_keys zone)
  ∧ image ≠ []
  ∧ ∃ cols, Spec.rectangular image cols.
Proof. apply getIRDataFromZone_ok_iff. Qed.

End zone_engine.

(* ===================================================================== *)
(** ** rotateCSVFile180: what it changes and where the cells go *)
(* ===================================================================== *)

Section rotation_effects.
Import IRUtils.
Implicit Types (disk : gmap string (list (list string))).

(** The comprehension either fails or returns the rows cut to the width of
    row 0, each reversed, in reverse order. *)
Lemma rotated_ok (csvcontent new : list (list string)) :
  rotated csvcontent = Ok new →
  Forall (λ row, Spec.first_width csvcontent ≤ length row)%nat csvcontent
  ∧ new = reverse ((λ row, reverse (take (Spec.first_width csvcontent) row))
                     <$> csvcontent).
Proof.
  intros Hrot.
  destruct (decide (Forall (λ row, Spec.first_width csvcontent ≤ length row)%nat
                           csvcontent)) as [Hall|Hshort].
  - rewrite (rotated_covering _ Hall) in Hrot. by injection Hrot as <-.
  - apply not_Forall_Exists in Hshort; [|apply _].
    rewrite rotated_short_row in Hrot; [done|].
    eapply Exists_impl; [exact Hshort|]. intros row Hrow. simpl in *. lia.
Qed.

(** X4: a successful rotation rewrites the file at csvpath and nothing
    else: every other path keeps its content; the rewritten file has as
    many rows as before, and all its rows have the length of the former
    first row, whatever the lengths of the former rows were. *)
Theorem rotation_rewrites_one_file disk csvpath disk' :
  rotateCSVFile180 csvpath disk = Ok disk' →
  ∃ old new,
    disk !! csvpath = Some old ∧ disk' !! csvpath = Some new
    ∧ (∀ path, path ≠ csvpath → disk' !! path = disk !! path)
    ∧ length new = length old
    ∧ Forall (λ row, length row = Spec.first_width old) new.
Proof.
  unfold rotateCSVFile180.
  destruct (disk !! csvpath) as [old|] eqn:Hold; [|done].
  destruct (rotated old) as [new|e] eqn:Hrot; [simpl|done].
  intros [= <-]. exists old, new.
  destruct (rotated_ok _ _ Hrot) as [Hall ->]. split_and!.
  - done.
  - by rewrite lookup_insert_eq.
  - intros path Hpath. by rewrite lookup_insert_ne.
  - by rewrite length_reverse, length_fmap.
  - apply Forall_reverse, Forall_fmap.
    eapply Forall_impl; [exact Hall|]. intros row Hrow. simpl in *.
    rewrite length_reverse, length_take. lia.
Qed.

Lemma rotation_rewrites_one_file_witness :
  ∃ old new,
    Examples.csv_disk !! "long_row.csv" = Some old
    ∧ (<["long_row.csv" := [["c"]; ["a"]]]> Examples.csv_disk)
        !! "long_row.csv" = Some new
    ∧ (∀ path, path ≠ "long_row.csv" →
         (<["long_row.csv" := [["c"]; ["a"]]]> Examples.csv_disk) !! path
         = Examples.csv_disk !! path)
    ∧ length new = length old
    ∧ Forall (λ row, length row = Spec.first_width old) new.
Proof.
  apply (rotation_rewrites_one_file Examples.csv_disk "long_row.csv").
  vm_compute. reflexivity.
Defined.

(** X5: on a rectangular grid of R rows and C columns the rotation puts
    at row r and column c the cell that was at row R-1-r and column
    C-1-c. *)
Theorem rotation_moves_cells disk csvpath (grid : list (list string)) cols :
  disk !! csvpath = Some grid → Spec.rectangular grid cols →
  ∃ new,
    rotateCSVFile180 csvpath disk = Ok (<[csvpath := new]> disk)
    ∧ ∀ r c : Z,
        0 ≤ r < Z.of_nat (length grid) → 0 ≤ c < Z.of_nat cols →
        Spec.cell_at new r c
        = Spec.cell_at grid (Z.of_nat (length grid) - 1 - r)
                            (Z.of_nat cols - 1 - c).
Proof.
  intros Hfile Hrect. exists (Spec.rotate180 grid). split.
  { unfold rotateCSVFile180. by rewrite Hfile, (rotated_rectangular grid cols). }
  intros r c Hr Hc. unfold Spec.cell_at, Spec.rotate180.
  rewrite !(proj2 (Z.leb_le 0 _)) by lia. simpl.
  rewrite reverse_lookup by (rewrite length_fmap; lia).
  rewrite length_fmap, list_lookup_fmap.
  replace (Z.to_nat (Z.of_nat (length grid) - 1 - r))
    with (length grid - S (Z.to_nat r))%nat by lia.
  destruct (grid !! (length grid - S (Z.to_nat r))%nat) as [row|] eqn:Hrow;
    [simpl|done].
  assert (length row = cols) as Hlen.
  { unfold Spec.rectangular in Hrect. rewrite Forall_forall in Hrect.
    by eapply Hrect, list_elem_of_lookup_2. }
  rewrite reverse_lookup by lia. rewrite Hlen. f_equal. lia.
Qed.

Lemma rotation_moves_cells_witness :
  ∃ new,
    rotateCSVFile180 "frame.csv" Examples.csv_disk
    = Ok (<["frame.csv" := new]> Examples.csv_disk)
    ∧ ∀ r c : Z,
        0 ≤ r < Z.of_nat (length [["a"; "b"]; ["c"; "d"]; ["e"; "f"]]) →
        0 ≤ c < Z.of_nat 2 →
        Spec.cell_at new r c
        = Spec.cell_at [["a"; "b"]; ["c"; "d"]; ["e"; "f"]]
            (Z.of_nat (length [["a"; "b"]; ["c"; "d"]; ["e"; "f"]]) - 1 - r)
            (Z.of_nat 2 - 1 - c).
Proof.
  apply (rotation_moves_cells Examples.csv_disk "frame.csv").
  - reflexivity.
  - repeat constructor.
Defined.

(** X6: when no row is shorter than the first row, two rotations in a row
    succeed and leave every row cut to the length of the first row, in the
    original order: the cells beyond that length are lost, and only a
    rectangular grid comes back unchanged. *)
Theorem rotating_twice_truncates disk csvpath (grid : list (list string)) :
  disk !! csvpath = Some grid →
  Forall (λ row, Spec.first_width grid ≤ length row)%nat grid →
  (rotateCSVFile180 csvpath disk ≫= rotateCSVFile180 csvpath)
  = Ok (<[csvpath := take (Spec.first_width grid) <$> grid]> disk).
Proof.
  intros Hfile Hall. unfold rotateCSVFile180 at 2.
  rewrite Hfile, (rotated_covering _ Hall). simpl.
  unfold rotateCSVFile180. rewrite lookup_insert_eq.
  rewrite (rotated_rectangular _ (Spec.first_width grid)).
  - simpl. rewrite insert_insert_eq. do 2 f_equal.
    unfold Spec.rotate180.
    rewrite fmap_reverse, reverse_involutive, <-list_fmap_compose.
    apply list_fmap_ext. intros _ row _. simpl. apply reverse_involutive.
  - apply Forall_reverse, Forall_fmap.
    eapply Forall_impl; [exact Hall|]. intros row Hrow. simpl in *.
    rewrite length_reverse, length_take. lia.
Qed.

Lemma rotating_twice_truncates_witness :
  (rotateCSVFile180 "long_row.csv" Examples.csv_disk
     ≫= rotateCSVFile180 "long_row.csv")
  = Ok (<["long_row.csv" :=
            take (Spec.first_width [["a"]; ["c"; "d"]]) <$> [["a"]; ["c"; "d"]]]>
          Examples.csv_disk).
Proof.
  apply (rotating_twice_truncates Examples.csv_disk "long_row.csv").
  - reflexivity.
  - repeat constructor.
Defined.

End rotation_effects.

(* ===================================================================== *)
(** ** getFileInfo: the template it reads and what it does without one *)
(* ===================================================================== *)

Section file_names.
Import IRUtils.

Lemma length_list_ascii_of_string (s : string) :
  length (list_ascii_of_string s) = String.length s.
Proof. induction s as [|c s IH]; [done|]. simpl. by rewrite IH. Qed.

Lemma str_slice_spec (start stop : option Z) (s w : string) :
  py_slice start stop (list_ascii_of_string s) = list_ascii_of_string w →
  str_slice start stop s = w.
Proof.
  unfold str_slice. intros ->. apply string_of_list_ascii_of_string.
Qed.

(** The window [a, a + |w|) of a list that has [w] at offset [a]. *)
Lemma py_slice_window {A} (before w after : list A) (a b : Z) :
  Z.of_nat (length before) = a → a + Z.of_nat (length w) = b →
  py_slice (Some a) (Some b) (before ++ w ++ after) = w.
Proof.
  intros Ha Hb. rewrite py_slice_nonneg by lia.
  rewrite drop_app_length' by lia. apply take_app_length'. lia.
Qed.

(** The window that ends [|after|] cells before the end. *)
Lemma py_slice_window_from_end {A} (before w after : list A) (a b : Z) :
  a = - Z.of_nat (length w + length after) →
  b = - Z.of_nat (length after) → (0 < length after)%nat →
  py_slice (Some a) (Some b) (before ++ w ++ after) = w.
Proof.
  intros -> -> Hafter. unfold py_slice, slice_indices, adjust_index. simpl.
  rewrite !(proj2 (Z.ltb_lt _ 0)) by lia.
  rewrite !length_app.
  replace (Z.to_nat (0 `max` (- Z.of_nat (length w + length after)
             + Z.of_nat (length before + (length w + length after)))))
    with (length before) by lia.
  replace (Z.to_nat (0 `max` (- Z.of_nat (length after)
             + Z.of_nat (length before + (length w + length after)))))
    with (length before + length w)%nat by lia.
  rewrite drop_app_length. apply take_app_length'. lia.
Qed.

(** X7: getFileInfo reads the template by position only.  For every name
    made of 10 characters, an 8-character date, one character, an
    8-character folder, one character, a 3-character file number, any
    characters, an 8-character time and 4 final characters, it returns
    that date, time, folder and file number; the prefix, the separators
    and the extension are not looked at. *)
Theorem getFileInfo_reads_template
    (prefix date sep1 folder sep2 filenumber middle time ext : string) :
  String.length prefix = 10%nat → String.length date = 8%nat →
  String.length sep1 = 1%nat → String.length folder = 8%nat →
  String.length sep2 = 1%nat → String.length filenumber = 3%nat →
  String.length time = 8%nat → String.length ext = 4%nat →
  getFileInfo (prefix +:+ date +:+ sep1 +:+ folder +:+ sep2 +:+ filenumber
               +:+ middle +:+ time +:+ ext)
  = (date, time, folder, filenumber).
Proof.
  intros Hp Hd Hs1 Hf Hs2 Hn Ht He.
  rewrite <-length_list_ascii_of_string in Hp, Hd, Hs1, Hf, Hs2, Hn, Ht, He.
  unfold getFileInfo.
  f_equal; [f_equal; [f_equal|]|];
    apply str_slice_spec; rewrite !list_ascii_of_string_app.
  - apply py_slice_window; lia.
  - rewrite !app_assoc. rewrite <-(app_assoc _ (list_ascii_of_string time)).
    apply py_slice_window_from_end; lia.
  - rewrite (app_assoc _ (list_ascii_of_string date)), (app_assoc _ (list_ascii_of_string sep1)).
    apply py_slice_window; rewrite ?length_app; lia.
  - rewrite (app_assoc _ (list_ascii_of_string date)), (app_assoc _ (list_ascii_of_string sep1)),
      (app_assoc _ (list_ascii_of_string folder)), (app_assoc _ (list_ascii_of_string sep2)).
    apply py_slice_window; rewrite ?length_app; lia.
Qed.

Lemma getFileInfo_reads_template_witness :
  getFileInfo ("IR_EXPORT-" +:+ "20170815" +:+ "." +:+ "P0000004" +:+ "/"
               +:+ "005" +:+ "_frame_0001_" +:+ "10-50-08" +:+ ".txt")
  = ("20170815", "10-50-08", "P0000004", "005").
Proof. by apply getFileInfo_reads_template. Defined.

Lemma length_py_slice {A} (start stop : option Z) (l : list A) :
  length (py_slice start stop l)
  = (((slice_indices (length l) start stop).2
        - (slice_indices (length l) start stop).1)
     `min` (length l - (slice_indices (length l) start stop).1))%nat.
Proof.
  unfold py_slice. destruct (slice_indices _ _ _) as [s e]. simpl.
  by rewrite length_take, length_drop.
Qed.

Lemma length_str_slice (start stop : option Z) (s : string) :
  String.length (str_slice start stop s)
  = length (py_slice start stop (list_ascii_of_string s)).
Proof.
  unfold str_slice.
  by rewrite <-length_list_ascii_of_string, list_ascii_of_string_of_list_ascii.
Qed.

(** X8: getFileInfo accepts every name and cuts silently: of a name of n
    characters the date has min(8, n-10) characters, the folder
    min(8, n-19), the file number min(3, n-28) and the time min(8, n-4),
    each difference counting as 0 when negative. *)
Theorem getFileInfo_field_lengths (filename : string) :
  let n := String.length filename in
  let '(date, time, folder, filenumber) := getFileInfo filename in
  String.length date = (8 `min` (n - 10))%nat
  ∧ String.length time = (8 `min` (n - 4))%nat
  ∧ String.length folder = (8 `min` (n - 19))%nat
  ∧ String.length filenumber = (3 `min` (n - 28))%nat.
Proof.
  unfold getFileInfo. cbv zeta.
  rewrite !length_str_slice, !length_py_slice, length_list_ascii_of_string.
  unfold slice_indices, adjust_index. cbn [fst snd from_option].
  repeat match goal with
         | |- context [?a <? 0] =>
             let b := eval vm_compute in (a <? 0) in
             change (a <? 0) with b; cbv iota
         end.
  split_and!; lia.
Qed.

End file_names.

(* ===================================================================== *)
(** ** getIRDataFromMultipleZones: the table it leaves, when it succeeds *)
(* ===================================================================== *)

Section aggregator_effects.
Import IRUtils.
Implicit Types (positions : gmap string (list pyval)) (disk : gmap string Pd.frame).

Lemma strings_of_any (measurement : list pyval) :
  Forall is_pystr ((λ x, PyStr (py_str x)) <$> measurement).
Proof. apply Forall_fmap, Forall_true. done. Qed.

Lemma table_after_call csvpath positions zone_list disk :
  (getIRDataFromMultipleZones csvpath positions zone_list disk).1
  = match positions !! "measurement" with
    | Some measurement =>
        <["measurement" := (λ x, PyStr (py_str x)) <$> measurement]> positions
    | None => positions
    end.
Proof.
  destruct (positions !! "measurement") as [measurement|] eqn:Hm.
  - by rewrite (aggregator_steps _ _ _ _ _ Hm).
  - unfold getIRDataFromMultipleZones. by rewrite Hm.
Qed.

(** X9: whatever the table holds and whatever the outcome of the call,
    getIRDataFromMultipleZones changes at most the table's measurement
    column, which it replaces by the strings of its entries (an integer
    becomes its decimal writing); every other key keeps its value, and
    every later call leaves the table as this one left it. *)
Theorem calibration_table_normalised csvpath positions zone_list disk :
  let positions' :=
    (getIRDataFromMultipleZones csvpath positions zone_list disk).1 in
  (∀ key, key ≠ "measurement" → positions' !! key = positions !! key)
  ∧ positions' !! "measurement"
    = fmap (λ x, PyStr (py_str x)) <$> positions !! "measurement"
  ∧ Spec.string_measurements positions'
  ∧ ∀ csvpath2 zone_list2 disk2,
      (getIRDataFromMultipleZones csvpath2 positions' zone_list2 disk2).1
      = positions'.
Proof.
  cbv zeta. rewrite table_after_call.
  destruct (positions !! "measurement") as [measurement|] eqn:Hm.
  - assert (Spec.string_measurements
              (<["measurement" := (λ x, PyStr (py_str x)) <$> measurement]>
                 positions)) as Hstr.
    { intros m. rewrite lookup_insert_eq. intros [= <-]. apply strings_of_any. }
    split_and!.
    + intros key Hkey. by rewrite lookup_insert_ne.
    + by rewrite lookup_insert_eq.
    + done.
    + intros csvpath2 zone_list2 disk2. rewrite table_after_call.
      rewrite lookup_insert_eq, insert_insert_eq. f_equal.
      apply str_of_strings, strings_of_any.
  - split_and!.
    + done.
    + by rewrite Hm.
    + intros m Hm'. congruence.
    + intros csvpath2 zone_list2 disk2. by rewrite table_after_call, Hm.
Qed.

(** The dictionary of the four name fields on its own is refused by the
    frame constructor. *)
Lemma DataFrame_of_scalars (date time folder filenumber : string) :
  Pd.DataFrame [("ir_date", Pd.Scalar date); ("ir_time", Pd.Scalar time);
                ("ir_folder", Pd.Scalar folder);
                ("ir_filenumber", Pd.Scalar filenumber)]
  = Raise ValueError.
Proof. reflexivity. Qed.

(** X10: with an empty list of zones the aggregator never returns a
    record; when the table has the file's date and the frame file exists
    it raises ValueError, because a frame cannot be made of the four name
    fields alone. *)
Theorem no_zone_no_record csvpath positions disk :
  is_ok (getIRDataFromMultipleZones csvpath positions (ZoneNames []) disk).2
  = false
  ∧ ∀ measurement,
      positions !! "measurement" = Some measurement →
      Spec.decoded_date csvpath ∈ Spec.measurement_dates measurement →
      is_Some (disk !! csvpath) →
      (getIRDataFromMultipleZones csvpath positions (ZoneNames []) disk).2
      = Raise ValueError.
Proof.
  split.
  - destruct (positions !! "measurement") as [measurement|] eqn:Hm.
    + rewrite (aggregator_steps _ _ _ _ _ Hm). cbv zeta. cbn [fst snd].
      destruct (list_index _ _); [simpl|done].
      by destruct (Pd.read_csv _ _).
    + unfold getIRDataFromMultipleZones. by rewrite Hm.
  - intros measurement Hm Hdate [df Hdf].
    rewrite (aggregator_steps _ _ _ _ _ Hm). cbv zeta. cbn [fst snd].
    rewrite lookup_as_strings.
    destruct (list_index _ _) as [iod|e] eqn:Hidx.
    + simpl. unfold Pd.read_csv. by rewrite Hdf.
    + by apply list_index_raises in Hidx as [_ ?].
Qed.

Lemma add_zones_all_ok image positions (iod : nat) d zones :
  Forall (λ zone, is_ok (getIRDataFromZone image positions zone (Z.of_nat iod))
                  = true) zones →
  ∃ d', add_zones image positions iod d zones = Ok d'.
Proof.
  intros Hall. revert d. induction Hall as [|z rest Hz _ IH]; intros d.
  - by exists d.
  - cbn [add_zones]. unfold add_zone at 1.
    destruct (getIRDataFromZone _ _ z _) as [stats|e]; [simpl|done].
    apply IH.
Qed.

Lemma DataFrame_ok d k xs :
  Spec.one_row d → dict_get k d = Some (Pd.Column xs) →
  is_ok (Pd.DataFrame d) = true.
Proof.
  intros Hone Hk. unfold Pd.DataFrame.
  assert (Forall (λ n, n = 1%nat) (omap (λ kv, Pd.column_length kv.2) d)) as Hn.
  { clear Hk. induction Hone as [|[k' v'] d' Hkv _ IH]; [by constructor|].
    destruct v' as [s'|ys]; cbn in *; [exact IH|by constructor]. }
  assert (omap (λ kv, Pd.column_length kv.2) d ≠ []) as Hne.
  { clear Hone Hn. induction d as [|[k' v'] d IH]; [done|].
    simpl in Hk. cbn. destruct v' as [s'|ys]; [|done]. cbn.
    case_decide; [done|by apply IH]. }
  destruct (omap _ d) as [|n ns]; [done|].
  apply Forall_cons in Hn as [-> Hns].
  rewrite (proj2 (forallb_forall _ _)); [done|].
  intros m Hm. rewrite Forall_forall in Hns.
  apply list_elem_of_In in Hm. by rewrite (Hns m Hm).
Qed.

(** X11: the aggregator returns a record exactly when the table has a
    measurement column that holds the date decoded from the file's name,
    the frame file exists, zone_list is a list with at least one zone
    name, and getIRDataFromZone succeeds for every one of these zones on
    the frame without its empty columns; in every other case it raises. *)
Theorem aggregator_succeeds_iff csvpath positions zone_list disk :
  is_ok (getIRDataFromMultipleZones csvpath positions zone_list disk).2 = true
  ↔ ∃ measurement (iod : nat) df zones,
      positions !! "measurement" = Some measurement
      ∧ list_index (Spec.decoded_date csvpath)
                   (Spec.measurement_dates measurement) = Ok iod
      ∧ disk !! csvpath = Some df
      ∧ zone_list = ZoneNames zones ∧ zones ≠ []
      ∧ Forall (λ zone,
                  is_ok (getIRDataFromZone (Pd.dropna_all_columns df)
                           (getIRDataFromMultipleZones
                              csvpath positions zone_list disk).1
                           zone (Z.of_nat iod)) = true) zones.
Proof.
  split.
  - destruct (positions !! "measurement") as [measurement|] eqn:Hm.
    2:{ unfold getIRDataFromMultipleZones. by rewrite Hm. }
    rewrite (aggregator_steps _ _ _ _ _ Hm). cbv zeta. cbn [fst snd].
    rewrite lookup_as_strings.
    destruct (list_index _ _) as [iod|e] eqn:Hidx; [simpl|done].
    unfold Pd.read_csv. destruct (disk !! csvpath) as [df|] eqn:Hdf; [simpl|done].
    destruct zone_list as [zones|n]; [simpl|done].
    destruct (add_zones _ _ _ _ _) as [d|e] eqn:Hzones; [simpl|done].
    intros Hframe. exists measurement, iod, df, zones.
    split_and!; try done.
    + intros ->. by injection Hzones as <-.
    + destruct (add_zones_ok _ _ _ _ _ _ Hzones) as [Hall _].
      apply Forall_forall. intros zone Hzone.
      destruct (Hall zone Hzone) as (stats & -> & _). done.
  - intros (measurement & iod & df & zones & Hm & Hidx & Hdf & -> & Hne & Hall).
    rewrite (aggregator_steps _ _ _ _ _ Hm) in Hall |- *.
    cbv zeta in Hall |- *. cbn [fst snd] in Hall |- *.
    rewrite lookup_as_strings, Hidx. simpl.
    unfold Pd.read_csv. rewrite Hdf. simpl.
    match goal with
    | |- context [add_zones ?i ?p ?n ?d0 ?z] =>
        destruct (add_zones_all_ok i p n d0 z Hall) as [d Hd]
    end.
    rewrite Hd. simpl.
    destruct zones as [|zone rest]; [done|].
    destruct (add_zones_ok _ _ _ _ _ _ Hd) as [Hrec _].
    destruct (Hrec zone) as (stats & _ & Hmed & _); [by left|].
    apply (DataFrame_ok d _ _ (one_row_add_zones _ _ _ _ _ _ Hd
                                 ltac:(by repeat constructor)) Hmed).
Qed.

Lemma dict_set_fresh {V} (k : string) (v : V) (d : list (string * V)) :
  k ∉ d.*1 → dict_set k v d = d ++ [(k, v)].
Proof.
  induction d as [|[k' v'] d IH]; [done|]. simpl.
  intros [Hne Hd]%not_elem_of_cons.
  rewrite decide_False by done. by rewrite IH.
Qed.

Lemma fst_app_singleton {V} (d : list (string * V)) (k : string) (v : V) :
  (d ++ [(k, v)]).*1 = d.*1 ++ [k].
Proof. by rewrite fmap_app. Qed.

Lemma identity_column_name (k zone s : string) :
  k ∈ Conditions.identity_columns → Spec.stat_suffix s →
  k ≠ "ir_" +:+ zone +:+ s.
Proof.
  intros Hk Hs Heq. unfold Conditions.identity_columns in Hk.
  assert (∃ k', k = "ir_" +:+ k'
                ∧ (last (list_ascii_of_string k') = Some "e"%char
                   ∨ last (list_ascii_of_string k') = Some "r"%char))
    as (k' & -> & Hlast).
  { repeat (apply elem_of_cons in Hk as [->|Hk]);
      [by exists "date"; auto|by exists "time"; auto|by exists "folder"; auto
      |by exists "filenumber"; auto|by apply elem_of_nil in Hk]. }
  apply (inj (String.app "ir_")) in Heq. subst k'.
  rewrite list_ascii_of_string_app, last_app in Hlast.
  by destruct Hs as [->| [->| ->]], Hlast.
Qed.

Lemma add_zones_fresh image positions (iod : nat) d zones d' :
  NoDup zones →
  (∀ zone s, zone ∈ zones → Spec.stat_suffix s →
             "ir_" +:+ zone +:+ s ∉ d.*1) →
  add_zones image positions iod d zones = Ok d' →
  d'.*1 = d.*1 ++ (zones ≫= Conditions.zone_columns).
Proof.
  intros Hnodup. revert d.
  induction Hnodup as [|z rest Hz _ IH]; intros d Hfresh; cbn [add_zones].
  { intros [= <-]. by rewrite app_nil_r. }
  unfold add_zone at 1.
  destruct (getIRDataFromZone _ _ z _) as [stats|e]; [simpl|done].
  assert (Spec.stat_suffix "_med") as Hmed by (by left).
  assert (Spec.stat_suffix "_mean") as Hmean by (by right; left).
  assert (Spec.stat_suffix "_std") as Hstd by (by right; right).
  assert (∀ s s', Spec.stat_suffix s → Spec.stat_suffix s' → s ≠ s' →
                  "ir_" +:+ z +:+ s ≠ "ir_" +:+ z +:+ s') as Hne.
  { intros s s' Hs Hs' Hss Heq.
    by destruct (stat_column_inj _ _ _ _ Hs Hs' Heq). }
  rewrite (dict_set_fresh _ _ d) by (apply Hfresh; [by left|done]).
  rewrite (dict_set_fresh _ _ (d ++ _)).
  2:{ rewrite fst_app_singleton, elem_of_app, list_elem_of_singleton.
      intros [Hin|Heq]; [by eapply Hfresh; [left| |exact Hin]|].
      by eapply Hne; [| |..|exact Heq]. }
  rewrite (dict_set_fresh _ _ ((d ++ _) ++ _)).
  2:{ rewrite !fst_app_singleton, !elem_of_app, !list_elem_of_singleton.
      intros [[Hin|Heq]|Heq]; [by eapply Hfresh; [left| |exact Hin]|..];
        by eapply Hne; [| |..|exact Heq]. }
  intros Hrest. apply IH in Hrest.
  - rewrite Hrest, !fst_app_singleton, <-!app_assoc. done.
  - intros zone s Hzone Hs.
    rewrite !fst_app_singleton, !elem_of_app, !list_elem_of_singleton.
    intros [[[Hin|Heq]|Heq]|Heq]; [by eapply Hfresh; [right| |exact Hin]|..];
      apply stat_column_inj in Heq as [-> _]; done.
Qed.

Lemma DataFrame_rows d record :
  Spec.one_row d → Pd.DataFrame d = Ok record →
  record = (λ kv, (kv.1, Pd.broadcast 1 kv.2)) <$> d.
Proof.
  intros Hone Hframe.
  assert (Forall (λ n, n = 1%nat) (omap (λ kv, Pd.column_length kv.2) d)) as Hn.
  { clear Hframe. induction Hone as [|[k' v'] d' Hkv _ IH]; [by constructor|].
    destruct v' as [s'|ys]; cbn in *; [exact IH|by constructor]. }
  unfold Pd.DataFrame in Hframe. destruct (omap _ d) as [|n ns].
  - destruct d; [by injection Hframe as <-|discriminate].
  - destruct (forallb _ ns); [|done]. injection Hframe as <-.
    by apply Forall_cons in Hn as [-> _].
Qed.

(** X12: for a list of distinct zone names, the record that the
    aggregator returns has one cell in every column, and its columns are,
    in this order, ir_date, ir_time, ir_folder, ir_filenumber and then, zone
    after zone in the order of the list, ir_<zone>_med, ir_<zone>_mean and
    ir_<zone>_std; the first four hold the four fields that getFileInfo
    reads from the file's name. *)
Theorem record_layout csvpath positions zones disk record :
  NoDup zones →
  (getIRDataFromMultipleZones csvpath positions (ZoneNames zones) disk).2
  = Ok record →
  record.*1 = Conditions.identity_columns ++ (zones ≫= Conditions.zone_columns)
  ∧ Forall (λ kv, length kv.2 = 1%nat) record
  ∧ let '(date, time, folder, filenumber) :=
      getFileInfo (OsPath.basename (OsPath.normpath csvpath)) in
    dict_get "ir_date" record = Some [Pd.CStr date]
    ∧ dict_get "ir_time" record = Some [Pd.CStr time]
    ∧ dict_get "ir_folder" record = Some [Pd.CStr folder]
    ∧ dict_get "ir_filenumber" record = Some [Pd.CStr filenumber].
Proof.
  intros Hnodup.
  destruct (positions !! "measurement") as [measurement|] eqn:Hm.
  2:{ unfold getIRDataFromMultipleZones. by rewrite Hm. }
  rewrite (aggregator_steps _ _ _ _ _ Hm). cbv zeta. cbn [fst snd].
  destruct (list_index _ _) as [iod|e]; [simpl|done].
  destruct (Pd.read_csv _ _) as [df|e]; [simpl|done].
  destruct (add_zones _ _ _ _ _) as [d|e] eqn:Hzones; [simpl|done].
  intros Hframe.
  assert (Spec.one_row d) as Hone.
  { apply (one_row_add_zones _ _ _ _ _ _ Hzones). by repeat constructor. }
  rewrite (DataFrame_rows d record Hone Hframe).
  destruct (add_zones_ok _ _ _ _ _ _ Hzones) as [_ Hother].
  unfold getFileInfo. cbv beta iota zeta. split_and!.
  - rewrite <-list_fmap_compose.
    transitivity (d.*1); [by apply list_fmap_ext|].
    apply (add_zones_fresh _ _ _ _ _ _ Hnodup) in Hzones; [done|].
    intros zone s _ Hs Hin.
    by apply (identity_column_name _ zone s Hin Hs).
  - apply Forall_fmap. eapply Forall_impl; [exact Hone|].
    intros [k [s|xs]] Hkv; simpl in *; [done|by rewrite length_fmap].
  - rewrite dict_get_fmap, Hother;
      first [ reflexivity
            | intros zone s _ Hs; apply identity_column_name; [|done];
              unfold Conditions.identity_columns; set_solver ].
  - rewrite dict_get_fmap, Hother;
      first [ reflexivity
            | intros zone s _ Hs; apply identity_column_name; [|done];
              unfold Conditions.identity_columns; set_solver ].
  - rewrite dict_get_fmap, Hother;
      first [ reflexivity
            | intros zone s _ Hs; apply identity_column_name; [|done];
              unfold Conditions.identity_columns; set_solver ].
  - rewrite dict_get_fmap, Hother;
      first [ reflexivity
            | intros zone s _ Hs; apply identity_column_name; [|done];
              unfold Conditions.identity_columns; set_solver ].
Qed.

Lemma record_layout_witness :
  Examples.record.*1
  = Conditions.identity_columns ++ (["zone1"] ≫= Conditions.zone_columns)
  ∧ Forall (λ kv, length kv.2 = 1%nat) Examples.record
  ∧ let '(date, time, folder, filenumber) :=
      getFileInfo (OsPath.basename (OsPath.normpath Examples.frame_path)) in
    dict_get "ir_date" Examples.record = Some [Pd.CStr date]
    ∧ dict_get "ir_time" Examples.record = Some [Pd.CStr time]
    ∧ dict_get "ir_folder" Examples.record = Some [Pd.CStr folder]
    ∧ dict_get "ir_filenumber" Examples.record = Some [Pd.CStr filenumber].
Proof.
  apply (record_layout Examples.frame_path Examples.positions ["zone1"]
           Examples.frames Examples.record).
  - repeat constructor. apply not_elem_of_nil.
  - vm_compute. reflexivity.
Defined.

End aggregator_effects.

(* ===================================================================== *)
(** ** Dropping the empty columns of a frame *)
(* ===================================================================== *)

Section empty_columns.

Lemma select_cons {A} (b : bool) (mask : list bool) (x : A) (r : list A) :
  Pd.select (b :: mask) (x :: r)
  = if b then x :: Pd.select mask r else Pd.select mask r.
Proof. by destruct b. Qed.

Lemma select_sublist {A} (mask : list bool) (r : list A) :
  Pd.select mask r `sublist_of` r.
Proof.
  revert r. induction mask as [|b mask IH]; intros [|x r];
    try apply sublist_nil_l.
  rewrite select_cons. destruct b.
  - by apply sublist_skip.
  - by apply sublist_cons.
Qed.

Lemma length_select {A} (mask : list bool) (r : list A) :
  length mask = length r →
  length (Pd.select mask r) = length (filter (λ b, b = true) mask).
Proof.
  revert r. induction mask as [|b mask IH]; intros [|x r] Hlen; try done.
  rewrite select_cons. injection Hlen as Hlen. destruct b.
  - rewrite filter_cons_True by done. simpl. by rewrite IH.
  - rewrite filter_cons_False by done. by apply IH.
Qed.

Lemma select_all {A} (mask : list bool) (r : list A) :
  Forall (λ b, b = true) mask → length mask = length r →
  Pd.select mask r = r.
Proof.
  intros Hall. revert r.
  induction Hall as [|b mask -> _ IH]; intros [|x r] Hlen; try done.
  rewrite select_cons. injection Hlen as Hlen. by rewrite IH.
Qed.

(** X13: dropna(axis=1, how='all'), as the aggregator applies it to a
    frame, removes cells but neither rows nor order: the result has as
    many rows as the frame, every row of it is a sub-sequence of the row
    it comes from, all its rows have one length, and a frame in which
    every column holds at least one value that is not NaN is returned
    unchanged. *)
Theorem dropna_keeps_rows_and_order (df : Pd.frame) cols :
  Spec.rectangular df cols →
  length (Pd.dropna_all_columns df) = length df
  ∧ Forall2 (λ row' row, row' `sublist_of` row) (Pd.dropna_all_columns df) df
  ∧ (∃ cols', (cols' ≤ cols)%nat
              ∧ Spec.rectangular (Pd.dropna_all_columns df) cols')
  ∧ ((∀ j, (j < cols)%nat → Pd.has_value df j = true) →
     Pd.dropna_all_columns df = df).
Proof.
  intros Hrect. unfold Pd.dropna_all_columns.
  set (mask := Pd.has_value df <$> seq 0 (Pd.ncols df)).
  assert (Forall (λ row, length mask = length row) df) as Hlen.
  { subst mask. rewrite length_fmap, length_seq.
    destruct df as [|row0 rest]; [done|].
    pose proof (Forall_inv Hrect) as H0. simpl in *.
    eapply Forall_impl; [exact Hrect|]. intros row Hrow. simpl in *. congruence. }
  split_and!.
  - by rewrite length_fmap.
  - apply Forall2_fmap_l, Forall_Forall2_diag, Forall_true.
    intros row. apply select_sublist.
  - exists (length (filter (λ b, b = true) mask)). split.
    + etrans; [apply length_filter|]. subst mask.
      rewrite length_fmap, length_seq.
      destruct df as [|row0 rest]; [simpl; lia|].
      pose proof (Forall_inv Hrect) as H0. simpl in *. lia.
    + apply Forall_fmap. eapply Forall_impl; [exact Hlen|].
      intros row Hrow. simpl. by apply length_select.
  - intros Hvalues. rewrite <-(list_fmap_id df) at 2.
    apply Forall_fmap_ext. eapply Forall_impl; [exact Hlen|].
    intros row Hrow. simpl. apply select_all; [|done].
    subst mask. apply Forall_fmap, Forall_forall.
    intros j Hj%elem_of_seq. simpl. apply Hvalues.
    destruct df as [|row0 rest]; [simpl in Hj; lia|].
    pose proof (Forall_inv Hrect) as H0. simpl in *. lia.
Qed.

Lemma dropna_keeps_rows_and_order_witness :
  length (Pd.dropna_all_columns [[1; nan; nan]; [nan; 4; nan]]%float)
  = length [[1; nan; nan]; [nan; 4; nan]]%float
  ∧ Forall2 (λ row' row, row' `sublist_of` row)
      (Pd.dropna_all_columns [[1; nan; nan]; [nan; 4; nan]]%float)
      [[1; nan; nan]; [nan; 4; nan]]%float
  ∧ (∃ cols', (cols' ≤ 3)%nat
              ∧ Spec.rectangular
                  (Pd.dropna_all_columns [[1; nan; nan]; [nan; 4; nan]]%float)
                  cols')
  ∧ ((∀ j, (j < 3)%nat →
           Pd.has_value [[1; nan; nan]; [nan; 4; nan]]%float j = true) →
     Pd.dropna_all_columns [[1; nan; nan]; [nan; 4; nan]]%float
     = [[1; nan; nan]; [nan; 4; nan]]%float).
Proof.
  apply (dropna_keeps_rows_and_order [[1; nan; nan]; [nan; 4; nan]]%float 3).
  repeat constructor.
Defined.

End empty_columns.

(* ===================================================================== *)
(** ** Loading the calibration file *)
(* ===================================================================== *)

Section loader_effects.
Import IRUtils.
Implicit Types (pos_info : gmap string (list pyval)).

Lemma filter_all {A} (P : A → Prop) `{!∀ x, Decision (P x)} (l : list A) :
  Forall P l → filter P l = l.
Proof.
  induction 1 as [|x l Hx _ IH]; [done|].
  by rewrite filter_cons_True, IH.
Qed.

Lemma foldl_dict_set_fresh (kvs : list (string * string))
    (d : list (string * option string)) :
  NoDup (d.*1 ++ kvs.*1) →
  foldl (λ d kv, dict_set kv.1 (Some kv.2) d) d kvs
  = d ++ ((λ kv, (kv.1, Some kv.2)) <$> kvs).
Proof.
  revert d. induction kvs as [|[k v] kvs IH]; intros d Hnodup; simpl.
  { by rewrite app_nil_r. }
  simpl in Hnodup.
  rewrite dict_set_fresh.
  - rewrite IH.
    + by rewrite <-app_assoc.
    + rewrite fst_app_singleton, <-app_assoc. exact Hnodup.
  - apply NoDup_app in Hnodup as (_ & Hdisj & _).
    intros Hin. apply (Hdisj k Hin). left.
Qed.

Lemma dictreader_row_distinct (fieldnames row : list string) :
  NoDup fieldnames → length row = length fieldnames →
  dictreader_row fieldnames row = (Conditions.row_items fieldnames row, None).
Proof.
  intros Hnodup Hlen. unfold dictreader_row.
  rewrite (proj2 (Nat.ltb_ge _ _)) by lia.
  rewrite drop_ge by lia. simpl.
  rewrite foldl_dict_set_fresh; [done|].
  simpl. rewrite fst_zip by lia. exact Hnodup.
Qed.

Lemma add_fields_columns (fieldnames row : list string) pos_info :
  NoDup fieldnames → Forall2 Conditions.readable fieldnames row →
  ∃ pos_info',
    add_fields pos_info (Conditions.row_items fieldnames row) = Ok pos_info'
    ∧ (∀ j c, fieldnames !! j = Some c →
         pos_info' !! c
         = Some (default [] (pos_info !! c)
                 ++ [Conditions.loaded_cell c (row !!! j)]))
    ∧ (∀ c, c ∉ fieldnames → pos_info' !! c = pos_info !! c).
Proof.
  intros Hnodup Hrow. revert pos_info Hnodup.
  induction Hrow as [|c v fieldnames row Hcv Hrow IH]; intros pos_info Hnodup.
  { exists pos_info. split_and!; [done| |done]. intros j c Hj. done. }
  apply NoDup_cons in Hnodup as [Hc Hnodup].
  change (Conditions.row_items (c :: fieldnames) (v :: row))
    with ((c, Some v) :: Conditions.row_items fieldnames row).
  cbn [add_fields].
  assert (add_field pos_info (c, Some v)
          = Ok (setdefault_append c (Conditions.loaded_cell c v) pos_info))
    as ->.
  { unfold add_field, Conditions.loaded_cell. case_decide; [done|].
    destruct Hcv as [?|Hint]; [done|].
    by destruct (py_int v). }
  simpl.
  destruct (IH (setdefault_append c (Conditions.loaded_cell c v) pos_info)
              Hnodup) as (pos_info' & Hadd & Hcols & Hother).
  exists pos_info'. split_and!; [done| |].
  - intros [|j] c' Hj; simpl in Hj.
    + injection Hj as <-. rewrite (Hother _ Hc).
      unfold setdefault_append. by rewrite lookup_insert_eq.
    + rewrite (Hcols _ _ Hj). unfold setdefault_append.
      rewrite lookup_insert_ne; [done|].
      intros ->. apply Hc. by eapply list_elem_of_lookup_2.
  - intros c' [Hne Hc']%not_elem_of_cons. rewrite (Hother _ Hc').
    unfold setdefault_append. by rewrite lookup_insert_ne.
Qed.

Lemma add_rows_columns (fieldnames : list string) rows pos_info :
  NoDup fieldnames → Forall (Forall2 Conditions.readable fieldnames) rows →
  ∃ pos_info',
    add_rows pos_info (dictreader_row fieldnames <$> rows) = Ok pos_info'
    ∧ (∀ j c, fieldnames !! j = Some c →
         pos_info' !! c
         = match rows with
           | [] => pos_info !! c
           | _ => Some (default [] (pos_info !! c)
                        ++ ((λ row, Conditions.loaded_cell c (row !!! j))
                              <$> rows))
           end)
    ∧ (∀ c, c ∉ fieldnames → pos_info' !! c = pos_info !! c).
Proof.
  intros Hnodup Hrows. revert pos_info.
  induction Hrows as [|row rows Hrow Hrows IH]; intros pos_info.
  { by exists pos_info. }
  rewrite fmap_cons. cbn [add_rows].
  rewrite dictreader_row_distinct
    by (done || symmetry; by eapply Forall2_length).
  unfold add_row at 1. cbn [fst snd].
  destruct (add_fields_columns fieldnames row pos_info Hnodup Hrow)
    as (pos_info1 & -> & Hcols1 & Hother1).
  simpl.
  destruct (IH pos_info1) as (pos_info' & Hadd & Hcols & Hother).
  exists pos_info'. split_and!; [done| |].
  - intros j c Hj. rewrite (Hcols _ _ Hj), (Hcols1 _ _ Hj).
    destruct rows; [done|]. simpl. by rewrite <-app_assoc.
  - intros c Hc. by rewrite (Hother _ Hc), (Hother1 _ Hc).
Qed.

(** X14: a calibration file with distinct field names whose rows have one
    readable cell per field name (any text under "measurement", a decimal
    integer elsewhere) is loaded column by column: the table has exactly
    the field names as keys, the column of a field name holds the cells of
    that column in the order of the rows (text for the measurement column,
    the integer values for the others), and the number of zones is the
    number of field names less one, divided by four. *)
Theorem loader_reads_columns (files : gmap string (list (list string)))
    position_path fieldnames rows :
  files !! position_path = Some (fieldnames :: rows) →
  fieldnames ≠ [] → NoDup fieldnames → rows ≠ [] →
  Forall (Forall2 Conditions.readable fieldnames) rows →
  ∃ positions,
    getPositionInformation files position_path
    = Ok (positions, (Z.of_nat (length fieldnames) - 1) `div` 4)
    ∧ dom positions = list_to_set fieldnames
    ∧ ∀ j c, fieldnames !! j = Some c →
        positions !! c
        = Some ((λ row, Conditions.loaded_cell c (row !!! j)) <$> rows).
Proof.
  intros Hfile Hfields Hnodup Hsome Hrows.
  unfold getPositionInformation. rewrite Hfile. cbn [DictReader].
  assert (filter (λ r : list string, r ≠ []) rows = rows) as ->.
  { apply filter_all. eapply Forall_impl; [exact Hrows|].
    intros row Hrow ->. apply Forall2_nil_inv_r in Hrow. done. }
  destruct (add_rows_columns fieldnames rows ∅ Hnodup Hrows)
    as (positions & -> & Hcols & Hother).
  assert (dom positions = list_to_set (C := gset string) fieldnames) as Hdom.
  { apply set_eq. intros c. rewrite elem_of_dom, elem_of_list_to_set.
    split.
    - intros Hc. destruct (decide (c ∈ fieldnames)) as [|Hnot]; [done|].
      rewrite (Hother _ Hnot), lookup_empty in Hc. by destruct Hc.
    - intros (j & Hj)%list_elem_of_lookup_1. rewrite (Hcols _ _ Hj).
      destruct rows; [done|]. by eexists. }
  exists positions. simpl. split_and!.
  - do 3 f_equal. rewrite <-size_dom, Hdom.
    by rewrite size_list_to_set.
  - exact Hdom.
  - intros j c Hj. rewrite (Hcols _ _ Hj). destruct rows; [done|].
    by rewrite lookup_empty.
Qed.

Lemma loader_reads_columns_witness :
  ∃ positions,
    getPositionInformation Examples.calibration "positions.csv"
    = Ok (positions, 1)
    ∧ dom positions
      = list_to_set ["measurement"; "zone1_row_start"; "zone1_row_end";
                     "zone1_col_start"; "zone1_col_end"]
    ∧ positions !! "zone1_row_end" = Some [PyInt 2].
Proof.
  destruct (loader_reads_columns Examples.calibration "positions.csv"
              ["measurement"; "zone1_row_start"; "zone1_row_end";
               "zone1_col_start"; "zone1_col_end"]
              [["20170815"; "0"; "2"; "0"; "2"]])
    as (positions & Hload & Hdom & Hcols).
  - reflexivity.
  - discriminate.
  - apply (bool_decide_unpack _). vm_compute. reflexivity.
  - discriminate.
  - repeat constructor; right; reflexivity.
  - exists positions. split_and!; [exact Hload|exact Hdom|].
    apply (Hcols 2%nat "zone1_row_end"). reflexivity.
Defined.

Lemma add_field_types pos_info cv pos_info' :
  (∀ c col, pos_info !! c = Some col → col ≠ [] ∧ Conditions.loaded_types c col) →
  add_field pos_info cv = Ok pos_info' →
  ∀ c col, pos_info' !! c = Some col → col ≠ [] ∧ Conditions.loaded_types c col.
Proof.
  intros Htypes Hadd c col. destruct cv as [c0 v].
  assert (∃ x, pos_info' = setdefault_append c0 x pos_info
               ∧ Conditions.loaded_types c0 [x]) as (x & -> & Hx).
  { unfold add_field in Hadd. unfold Conditions.loaded_types.
    destruct (decide (c0 = "measurement")) as [Hc0|Hc0].
    - injection Hadd as <-. eexists. split; [done|].
      apply Forall_singleton. destruct v; simpl; auto.
    - destruct v as [s|]; [|done].
      destruct (py_int s) as [z|e]; [simpl in Hadd|done].
      injection Hadd as <-. eexists. split; [done|].
      apply Forall_singleton. by eexists. }
  unfold setdefault_append.
  destruct (decide (c = c0)) as [->|Hne].
  - rewrite lookup_insert_eq. intros [= <-]. split.
    { by destruct (default [] _). }
    unfold Conditions.loaded_types in *.
    destruct (pos_info !! c0) as [col0|] eqn:Hcol0; simpl.
    + destruct (Htypes _ _ Hcol0) as [_ Hcol]. revert Hcol Hx.
      case_decide; intros Hcol Hx; apply Forall_app; by split.
    + exact Hx.
  - rewrite lookup_insert_ne by done. apply Htypes.
Qed.

Lemma add_fields_types items pos_info pos_info' :
  (∀ c col, pos_info !! c = Some col → col ≠ [] ∧ Conditions.loaded_types c col) →
  add_fields pos_info items = Ok pos_info' →
  ∀ c col, pos_info' !! c = Some col → col ≠ [] ∧ Conditions.loaded_types c col.
Proof.
  revert pos_info. induction items as [|cv items IH]; intros pos_info Htypes;
    cbn [add_fields].
  { intros [= <-]. exact Htypes. }
  destruct (add_field pos_info cv) as [pos_info1|e] eqn:Hadd; [simpl|done].
  apply IH. by eapply add_field_types.
Qed.

Lemma add_rows_types rows pos_info pos_info' :
  (∀ c col, pos_info !! c = Some col → col ≠ [] ∧ Conditions.loaded_types c col) →
  add_rows pos_info rows = Ok pos_info' →
  ∀ c col, pos_info' !! c = Some col → col ≠ [] ∧ Conditions.loaded_types c col.
Proof.
  revert pos_info. induction rows as [|row rows IH]; intros pos_info Htypes;
    cbn [add_rows].
  { intros [= <-]. exact Htypes. }
  unfold add_row at 1.
  destruct (add_fields pos_info row.1) as [pos_info1|e] eqn:Hadd;
    [simpl|done].
  destruct row.2; [done|]. simpl.
  apply IH. by eapply add_fields_types.
Qed.

(** X15: whatever the calibration file, a table that the loader returns
    is well typed: no column is empty, every entry of a column other than
    "measurement" is an integer, every entry of the measurement column is
    text or None, and the number of zones is the number of columns less
    one, divided by four. *)
Theorem loader_column_types (files : gmap string (list (list string)))
    position_path positions numberOfZones :
  getPositionInformation files position_path = Ok (positions, numberOfZones) →
  numberOfZones = (Z.of_nat (size positions) - 1) `div` 4
  ∧ ∀ c col, positions !! c = Some col →
             col ≠ [] ∧ Conditions.loaded_types c col.
Proof.
  unfold getPositionInformation.
  destruct (files !! position_path) as [content|]; [|done].
  destruct (add_rows _ _) as [pos_info|e] eqn:Hadd; [simpl|done].
  intros [= <- <-]. split; [done|].
  eapply add_rows_types; [|exact Hadd].
  intros c col Hc. by rewrite lookup_empty in Hc.
Qed.

Lemma loader_column_types_witness :
  ∃ positions,
    getPositionInformation Examples.calibration "positions.csv"
    = Ok (positions, 1)
    ∧ 1 = (Z.of_nat (size positions) - 1) `div` 4
    ∧ ∀ c col, positions !! c = Some col →
               col ≠ [] ∧ Conditions.loaded_types c col.
Proof.
  exists Examples.loaded_calibration. split; [vm_compute; reflexivity|].
  apply (loader_column_types Examples.calibration "positions.csv").
  vm_compute. reflexivity.
Defined.

Lemma dict_set_elem {V} (k : string) (v : V) (d : list (string * V)) :
  (k, v) ∈ dict_set k v d.
Proof.
  induction d as [|[k' v'] d IH]; simpl; [left|].
  case_decide; [left|by right].
Qed.

Lemma dict_set_keeps {V} (k c : string) (v : V) (d : list (string * V)) :
  (c, v) ∈ d → (c, v) ∈ dict_set k v d.
Proof.
  induction d as [|[k' v'] d IH]; simpl; [by intros ?%elem_of_nil|].
  intros [[= <- <-]|Hin]%elem_of_cons; case_decide; subst.
  - left.
  - left.
  - by right.
  - right. by apply IH.
Qed.

Lemma foldl_dict_set_None (keys : list string) (c : string)
    (d : list (string * option string)) :
  c ∈ keys → (c, None) ∈ foldl (λ d key, dict_set key None d) d keys.
Proof.
  induction keys as [|k keys IH] using rev_ind; [by intros ?%elem_of_nil|].
  rewrite foldl_app. simpl.
  intros [Hin|Hin]%elem_of_app.
  - by apply dict_set_keeps, IH.
  - apply list_elem_of_singleton in Hin as ->. apply dict_set_elem.
Qed.

Lemma add_fields_None items c pos_info :
  (c, None) ∈ items → c ≠ "measurement" →
  is_ok (add_fields pos_info items) = false.
Proof.
  intros Hin Hc. revert pos_info.
  induction items as [|cv items IH]; intros pos_info;
    [by apply elem_of_nil in Hin|].
  cbn [add_fields].
  apply elem_of_cons in Hin as [<-|Hin].
  - unfold add_field. by rewrite decide_False.
  - destruct (add_field pos_info cv); [simpl; by apply IH|done].
Qed.

Lemma add_row_malformed (fieldnames row : list string) pos_info :
  Conditions.malformed fieldnames row →
  is_ok (add_row pos_info (dictreader_row fieldnames row)) = false.
Proof.
  intros [_ Hrow]. unfold add_row, dictreader_row.
  destruct (length fieldnames <? length row)%nat eqn:Hlong; cbn [fst snd].
  - by destruct (add_fields _ _).
  - destruct Hrow as [Hlt|(c & Hin & Hc)].
    { apply Nat.ltb_ge in Hlong. lia. }
    match goal with
    | |- context [add_fields ?p ?items] =>
        pose proof (add_fields_None items c p) as Hraise
    end.
    destruct (add_fields _ _); [|done].
    discriminate Hraise; [by apply foldl_dict_set_None|done].
Qed.

Lemma add_rows_malformed (fieldnames : list string) rows pos_info :
  Exists (Conditions.malformed fieldnames) rows →
  is_ok (add_rows pos_info (dictreader_row fieldnames <$> rows)) = false.
Proof.
  intros Hrows. revert pos_info.
  induction Hrows as [row rows Hrow|row rows _ IH]; intros pos_info;
    rewrite fmap_cons; cbn [add_rows].
  - pose proof (add_row_malformed fieldnames row pos_info Hrow) as Hraise.
    by destruct (add_row _ _).
  - destruct (add_row _ _); [simpl; apply IH|done].
Qed.

(** X16: a calibration file is refused as soon as one of its non-empty
    rows has more cells than the header, or stops before a column other
    than "measurement": the loader raises and returns no table, whatever
    the other rows hold. *)
Theorem loader_refuses_malformed_rows
    (files : gmap string (list (list string))) position_path fieldnames rows :
  files !! position_path = Some (fieldnames :: rows) →
  Exists (Conditions.malformed fieldnames) rows →
  is_ok (getPositionInformation files position_path) = false.
Proof.
  intros Hfile Hrows. unfold getPositionInformation. rewrite Hfile.
  cbn [DictReader].
  match goal with
  | |- context [add_rows ?p _] =>
      pose proof (add_rows_malformed fieldnames
                    (filter (λ row : list string, row ≠ []) rows) p) as Hraise
  end.
  destruct (add_rows _ _); [|done].
  discriminate Hraise.
  apply Exists_exists in Hrows as (row & Hin & Hrow).
  apply Exists_exists. exists row. split; [|done].
  apply list_elem_of_filter. split; [apply Hrow|done].
Qed.

Lemma loader_refuses_malformed_rows_witness :
  is_ok (getPositionInformation
           (<["positions.csv" :=
                [["measurement"; "zone1_row_start"; "zone1_row_end";
                  "zone1_col_start"; "zone1_col_end"];
                 ["20170815"; "0"; "2"; "0"; "2"];
                 ["20170816"; "0"; "2"; "0"]]]> ∅)
           "positions.csv") = false.
Proof.
  apply (loader_refuses_malformed_rows _ _
           ["measurement"; "zone1_row_start"; "zone1_row_end";
            "zone1_col_start"; "zone1_col_end"]
           [["20170815"; "0"; "2"; "0"; "2"]; ["20170816"; "0"; "2"; "0"]]).
  - reflexivity.
  - right. left. split; [discriminate|]. right.
    exists "zone1_col_end". split; [simpl; left|discriminate].
Defined.

Lemma py_getitem_ok {A} (l : list A) (i : Z) :
  (∃ v, py_getitem l i = Ok v ∧ v ∈ l)
  ↔ - Z.of_nat (length l) ≤ i < Z.of_nat (length l).
Proof.
  unfold py_getitem. cbv zeta.
  destruct (Z.ltb_spec i 0) as [Hneg|Hpos].
  - destruct (Z.ltb_spec (i + Z.of_nat (length l)) 0) as [Hlow|Hlow].
    { split; [by intros (v & ? & _)|lia]. }
    destruct (l !! Z.to_nat (i + Z.of_nat (length l))) as [x|] eqn:Hx.
    + pose proof (lookup_lt_Some _ _ _ Hx). split; [lia|]. intros _.
      exists x. split; [done|]. by eapply list_elem_of_lookup_2.
    + apply lookup_ge_None in Hx. lia.
  - destruct (Z.ltb_spec i 0) as [?|_]; [lia|].
    destruct (l !! Z.to_nat i) as [x|] eqn:Hx.
    + pose proof (lookup_lt_Some _ _ _ Hx). split; [lia|]. intros _.
      exists x. split; [done|]. by eapply list_elem_of_lookup_2.
    + apply lookup_ge_None in Hx. split; [by intros (v & ? & _)|lia].
Qed.

Lemma py_getitem_elem {A} (l : list A) (i : Z) v :
  py_getitem l i = Ok v → v ∈ l.
Proof.
  unfold py_getitem. cbv zeta.
  destruct (_ <? 0); [done|].
  destruct (l !! _) as [x|] eqn:Hx; [|done].
  intros [= <-]. by eapply list_elem_of_lookup_2.
Qed.

Lemma bound_key_not_measurement (zone key : string) :
  key ∈ Conditions.bound_keys zone → key ≠ "measurement".
Proof.
  unfold Conditions.bound_keys. intros Hkey ->.
  repeat (apply elem_of_cons in Hkey as [Hkey|Hkey]);
    [..|by apply elem_of_nil in Hkey];
    apply (f_equal list_ascii_of_string) in Hkey;
    rewrite list_ascii_of_string_app in Hkey;
    pose proof (f_equal length Hkey) as Hlen;
    rewrite length_app in Hlen; simpl in Hlen;
    destruct (list_ascii_of_string zone) as [|a0 [|a1 [|a2 [|a3 l]]]];
    simpl in Hlen; try lia; discriminate Hkey.
Qed.

(** X17: the loader and the zone engine fit together.  On a table that
    the loader returned, getIRDataFromZone never fails on the type of a
    bound: it returns its statistics exactly when the zone's four bound
    columns are in the table and have a row iod (counted from the end
    when negative), and the grid has at least one row and rows of one
    length. *)
Theorem loaded_table_bounds_usable
    (files : gmap string (list (list string))) position_path positions
    numberOfZones image zone (iod : Z) :
  getPositionInformation files position_path = Ok (positions, numberOfZones) →
  is_ok (getIRDataFromZone image positions zone iod) = true ↔
  Forall (λ key, ∃ col, positions !! key = Some col
                        ∧ - Z.of_nat (length col) ≤ iod
                            < Z.of_nat (length col))
         (Conditions.bound_keys zone)
  ∧ image ≠ []
  ∧ ∃ cols, Spec.rectangular image cols.
Proof.
  intros Hload. rewrite getIRDataFromZone_ok_iff.
  assert (∀ c col, positions !! c = Some col → Conditions.loaded_types c col)
    as Htypes.
  { intros c col Hc.
    unfold getPositionInformation in Hload.
    destruct (files !! position_path) as [content|]; [|done].
    destruct (add_rows _ _) as [pos_info|e] eqn:Hadd; [simpl in Hload|done].
    injection Hload as <- _.
    eapply (add_rows_types _ ∅ pos_info); [|exact Hadd|exact Hc].
    intros c' col' Hc'. by rewrite lookup_empty in Hc'. }
  apply and_iff_compat_r. rewrite !Forall_forall.
  split; intros Hkeys key Hkey; specialize (Hkeys key Hkey).
  - destruct Hkeys as (col & v & Hcol & Hv & _). exists col. split; [done|].
    apply py_getitem_ok. exists v. split; [done|]. by eapply py_getitem_elem.
  - destruct Hkeys as (col & Hcol & Hrange).
    apply py_getitem_ok in Hrange as (v & Hv & Hin).
    exists col, v. split_and!; [done|done|].
    specialize (Htypes _ _ Hcol). unfold Conditions.loaded_types in Htypes.
    rewrite decide_False in Htypes
      by (eapply bound_key_not_measurement; exact Hkey).
    rewrite Forall_forall in Htypes. destruct (Htypes v Hin) as [z ->].
    by intros [].
Qed.

Lemma loaded_table_bounds_usable_witness :
  ∃ positions,
    getPositionInformation Examples.calibration "positions.csv"
    = Ok (positions, 1)
    ∧ is_ok (getIRDataFromZone Examples.image32 positions "zone1" (-1))
      = true.
Proof.
  exists Examples.loaded_calibration. split; [vm_compute; reflexivity|].
  apply (loaded_table_bounds_usable Examples.calibration "positions.csv"
           Examples.loaded_calibration 1).
  - vm_compute. reflexivity.
  - split_and!.
    + unfold Conditions.bound_keys. repeat apply Forall_cons_2;
        [..|apply Forall_nil_2].
      * exists [PyInt 0]. split; [vm_compute; reflexivity|simpl; lia].
      * exists [PyInt 2]. split; [vm_compute; reflexivity|simpl; lia].
      * exists [PyInt 0]. split; [vm_compute; reflexivity|simpl; lia].
      * exists [PyInt 2]. split; [vm_compute; reflexivity|simpl; lia].
    + discriminate.
    + exists 2%nat. repeat constructor.
Defined.

End loader_effects.

(* ===================================================================== *)
(** ** The export of the camera files *)
(* ===================================================================== *)

Section export_effects.
Import IRUtils IRExport.
Implicit Types (disk : gmap string (list (list string))).

Context (call : list string → gmap string (list (list string))
                → outcome (gmap string (list (list string))))
        (glob : string → gmap string (list (list string)) → list string)
        (strptime_timestamp : string → outcome float)
        (timedelta_total_seconds : float → outcome float)
        (fromtimestamp_strftime : float → outcome string).

(** X18: ThermoViewer gets as far as running the application exactly when
    the mode is "file" or "folder", meta is not True, and the rotation can
    be read as an integer that is one of 0, 90, 180 and 270 or else is
    given as a string.  In particular an integer rotation outside these
    four values is not warned about: the function raises. *)
Theorem viewer_runs_iff mode inputpath exportpath rotation prefix
    (frame_start frame_end : Z) exportformat colorpalette meta close :
  is_ok (calllist mode inputpath exportpath rotation prefix frame_start
                  frame_end exportformat colorpalette meta close) = true
  ↔ (mode = "file" ∨ mode = "folder")
    ∧ (∃ r, int_of rotation = Ok r
            ∧ (r ∈ [0; 90; 180; 270] ∨ is_pystr rotation))
    ∧ meta ≠ MetaBool true.
Proof.
  unfold calllist.
  destruct (decide (mode = "file")) as [Hfile|Hfile];
    [|destruct (decide (mode = "folder")) as [Hfolder|Hfolder]];
    cbn [mbind result_bind].
  3:{ split; [done|]. by intros ([?|?] & _). }
  all: destruct (int_of rotation) as [r|e] eqn:Hr; cbn [mbind result_bind];
    [|split; [done|]; by intros (_ & (r & ? & _) & _)].
  all: destruct (decide (r ∈ [0; 90; 180; 270])) as [Hin|Hin];
    cbn [mbind result_bind].
  all: try (destruct (concat_str rotation) as [[]|e] eqn:Hc;
            cbn [mbind result_bind]).
  all: destruct meta as [m|[|]];
    [destruct (decide (m ∈ ["CSVpf"; "CSVfa"; "KML"; "RAW"]))|..];
    cbn [mbind result_bind is_ok].
  all: split; try done.
  all: try (intros (_ & _ & Hmeta); done).
  all: try (intros _; split_and!; [by auto|exists r; by auto|done]).
  all: try (intros _; split_and!; [by auto| |done]; exists r; split; [done|];
            right; by destruct rotation).
  all: intros (_ & (r' & Hr' & [?|?]) & _); [congruence|by destruct rotation].
Qed.

(** *** processIRMovie *)

Lemma movie_steps call' measurement rotation inputfolder exportpath
    (timeshift : Z) doRotation doRenaming disk :
  processIRMovie call' glob measurement rotation inputfolder exportpath
                 timeshift doRotation doRenaming disk
  = match call' (Conditions.movie_command_line measurement inputfolder
                                               exportpath) disk with
    | Raises e => (disk, Raises e)
    | Returns disk1 =>
        let '(disk2, r) :=
          if doRotation
          then rotate_files rotation
                 (glob (exportpath
                        +:+ Conditions.movie_prefix measurement inputfolder
                        +:+ "*.csv") disk1) disk1
          else (disk1, Returns ()) in
        match r with
        | Raises e => (disk2, Raises e)
        | Returns _ =>
            if doRenaming
            then (disk2,
                  rename_movie_files (glob (inputfolder +:+ "/*.TMC") disk2))
            else (disk2, Returns ())
        end
    end.
Proof. reflexivity. Qed.

(** X19: processIRMovie runs the application on one command line only,
    which names the input folder, rotation 0, frames 1 to 1, the csv
    format, the iron palette and the automatic close.  The rotation, the
    time shift and the two switches never reach the application: an
    application that behaves on this one command line as another one does
    gives the same files and the same outcome. *)
Theorem movie_runs_one_command_line call2 measurement rotation inputfolder
    exportpath (timeshift : Z) doRotation doRenaming disk :
  call (Conditions.movie_command_line measurement inputfolder exportpath) disk
  = call2 (Conditions.movie_command_line measurement inputfolder exportpath)
          disk →
  processIRMovie call glob measurement rotation inputfolder exportpath
                 timeshift doRotation doRenaming disk
  = processIRMovie call2 glob measurement rotation inputfolder exportpath
                   timeshift doRotation doRenaming disk.
Proof. intros Hcall. by rewrite !movie_steps, Hcall. Qed.

Lemma rotate_files_dom rotation ofiles disk :
  dom (rotate_files rotation ofiles disk).1 = dom disk.
Proof.
  revert disk. induction ofiles as [|ofile rest IH]; intros disk; [done|].
  cbn [rotate_files]. destruct (equals_180 rotation); [|apply IH].
  unfold rotateCSVFile180.
  destruct (disk !! ofile) as [content|] eqn:Hfile; [|done].
  destruct (rotated content) as [new|e]; [simpl|done].
  rewrite IH. apply dom_insert_lookup_L. by rewrite Hfile.
Qed.

Lemma rotate_files_other rotation ofiles disk :
  equals_180 rotation = false →
  rotate_files rotation ofiles disk = (disk, Returns ()).
Proof.
  intros Hrot. induction ofiles as [|ofile rest IH]; [done|].
  cbn [rotate_files]. by rewrite Hrot.
Qed.

Lemma rotate_files_alike rotation rotation' ofiles disk :
  equals_180 rotation = equals_180 rotation' →
  rotate_files rotation ofiles disk = rotate_files rotation' ofiles disk.
Proof.
  intros Hrot. revert disk.
  induction ofiles as [|ofile rest IH]; intros disk; [done|].
  cbn [rotate_files]. rewrite Hrot.
  destruct (equals_180 rotation'); [|apply IH].
  destruct (rotateCSVFile180 ofile disk); [apply IH|done].
Qed.

Lemma rotate_files_180 ofiles disk :
  NoDup ofiles →
  Forall (λ ofile, ∃ grid cols, disk !! ofile = Some grid
                                ∧ Spec.rectangular grid cols) ofiles →
  ∃ disk',
    rotate_files (PyInt 180) ofiles disk = (disk', Returns ())
    ∧ ∀ path, disk' !! path
              = if decide (path ∈ ofiles)
                then Spec.rotate180 <$> disk !! path
                else disk !! path.
Proof.
  intros Hnodup. revert disk.
  induction Hnodup as [|ofile rest Hnotin Hnodup IH]; intros disk Hfiles.
  { exists disk. split; [done|]. intros path. by rewrite decide_False
      by apply not_elem_of_nil. }
  apply Forall_cons in Hfiles as [(grid & cols & Hfile & Hrect) Hrest].
  cbn [rotate_files].
  change (equals_180 (PyInt 180)) with true. cbv iota.
  unfold rotateCSVFile180.
  rewrite Hfile, (rotated_rectangular grid cols Hrect). simpl.
  destruct (IH (<[ofile := Spec.rotate180 grid]> disk))
    as (disk' & -> & Hdisk').
  { rewrite Forall_forall in Hrest |- *. intros f Hf.
    destruct (Hrest f Hf) as (g & c & Hg & Hc). exists g, c.
    split; [|done]. rewrite lookup_insert_ne; [done|]. by intros ->. }
  exists disk'. split; [done|]. intros path. rewrite Hdisk'.
  destruct (decide (path = ofile)) as [->|Hne].
  - rewrite decide_False by done. rewrite decide_True by left.
    by rewrite lookup_insert_eq, Hfile.
  - rewrite lookup_insert_ne by done.
    destruct (decide (path ∈ rest)).
    + rewrite decide_True; [done|by right].
    + rewrite decide_False; [done|]. by intros [?|?]%elem_of_cons.
Qed.

(** X20: processIRMovie renames no file.  When the application has run,
    the files on the disk afterwards have the names of those that the
    application left; and with doRenaming the function returns normally
    only when glob finds no TMC file in the input folder, since the
    renaming of the first TMC file raises. *)
Theorem movie_renames_nothing measurement rotation inputfolder exportpath
    (timeshift : Z) doRotation doRenaming disk :
  let '(disk', r) :=
    processIRMovie call glob measurement rotation inputfolder exportpath
                   timeshift doRotation doRenaming disk in
  (∀ disk1,
     call (Conditions.movie_command_line measurement inputfolder exportpath)
          disk = Returns disk1 →
     dom disk' = dom disk1)
  ∧ (doRenaming = true → returns r = true →
     glob (inputfolder +:+ "/*.TMC") disk' = []).
Proof.
  rewrite movie_steps.
  destruct (call _ disk) as [disk1|e]; [|done].
  assert (∃ disk2 r,
            (if doRotation
             then rotate_files rotation
                    (glob (exportpath
                           +:+ Conditions.movie_prefix measurement inputfolder
                           +:+ "*.csv") disk1) disk1
             else (disk1, Returns ())) = (disk2, r)
            ∧ dom disk2 = dom disk1) as (disk2 & r & -> & Hdom).
  { destruct doRotation; [|by eauto].
    pose proof (rotate_files_dom rotation
                  (glob (exportpath
                         +:+ Conditions.movie_prefix measurement inputfolder
                         +:+ "*.csv") disk1) disk1) as Hdom.
    destruct (rotate_files _ _ _) as [disk2 r]. by eauto. }
  destruct r as [[]|e].
  - destruct doRenaming.
    + split; [by intros ? [= <-]|]. intros _.
      by destruct (glob (inputfolder +:+ "/*.TMC") disk2).
    + split; [by intros ? [= <-]|done].
  - split; [by intros ? [= <-]|done].
Qed.

(** X21: with the integer rotation 180 and doRotation, processIRMovie
    rotates every exported file that glob finds: when these files are
    distinct and hold grids with rows of one length, the function returns,
    each of them holds its grid turned by 180 degrees, and every other
    file is as the application left it. *)
Theorem movie_rotates_every_export measurement inputfolder exportpath
    (timeshift : Z) disk disk1 :
  call (Conditions.movie_command_line measurement inputfolder exportpath) disk
  = Returns disk1 →
  let ofiles :=
    glob (exportpath +:+ Conditions.movie_prefix measurement inputfolder
          +:+ "*.csv") disk1 in
  NoDup ofiles →
  Forall (λ ofile, ∃ grid cols, disk1 !! ofile = Some grid
                                ∧ Spec.rectangular grid cols) ofiles →
  ∃ disk2,
    processIRMovie call glob measurement (PyInt 180) inputfolder exportpath
                   timeshift true false disk
    = (disk2, Returns ())
    ∧ ∀ path, disk2 !! path
              = if decide (path ∈ ofiles)
                then Spec.rotate180 <$> disk1 !! path
                else disk1 !! path.
Proof.
  intros Hcall ofiles Hnodup Hfiles. rewrite movie_steps, Hcall.
  destruct (rotate_files_180 ofiles disk1 Hnodup Hfiles)
    as (disk2 & Hrot & Hdisk2).
  exists disk2. fold ofiles. by rewrite Hrot.
Qed.

(** *** processIRTimelapse *)

Lemma timelapse_steps inputfile rotation exportpath date starttime endtime
    (numberofframes : Z) doRotation doRenaming disk foldername :
  py_getitem (OsPath.split "/" (OsPath.normpath inputfile)) (-2)
  = Ok foldername →
  processIRTimelapse call glob strptime_timestamp
      timedelta_total_seconds fromtimestamp_strftime
      inputfile rotation exportpath date starttime endtime
            numberofframes doRotation doRenaming disk
  = match call (Conditions.timelapse_command_line inputfile exportpath date
                                                  foldername) disk with
    | Raises e => (disk, Raises e)
    | Returns disk1 =>
        let '(disk2, r) :=
          if doRotation
          then rotate_files rotation
                 (glob (Conditions.timelapse_pattern inputfile exportpath date
                                                     foldername) disk1) disk1
          else (disk1, Returns ()) in
        match r with
        | Raises e => (disk2, Raises e)
        | Returns _ =>
            if doRenaming
            then rename_timelapse_files glob strptime_timestamp
                   timedelta_total_seconds fromtimestamp_strftime
                   (Conditions.timelapse_pattern inputfile exportpath date
                                                 foldername)
                   starttime endtime numberofframes disk2
            else (disk2, Returns ())
        end
    end.
Proof. intros Hfolder. unfold processIRTimelapse. by rewrite Hfolder. Qed.

Lemma timelapse_renaming_last inputfile rotation exportpath date starttime
    endtime (numberofframes : Z) doRotation disk foldername disk1 :
  py_getitem (OsPath.split "/" (OsPath.normpath inputfile)) (-2)
  = Ok foldername →
  processIRTimelapse call glob strptime_timestamp
      timedelta_total_seconds fromtimestamp_strftime
      inputfile rotation exportpath date starttime endtime
            numberofframes doRotation false disk = (disk1, Returns ()) →
  processIRTimelapse call glob strptime_timestamp
      timedelta_total_seconds fromtimestamp_strftime
      inputfile rotation exportpath date starttime endtime
            numberofframes doRotation true disk
  = rename_timelapse_files glob strptime_timestamp timedelta_total_seconds
      fromtimestamp_strftime
      (Conditions.timelapse_pattern inputfile exportpath date foldername)
      starttime endtime numberofframes disk1.
Proof.
  intros Hfolder. rewrite !(timelapse_steps _ _ _ _ _ _ _ _ _ _ _ Hfolder).
  destruct (call _ disk) as [disk0|e]; [|done].
  destruct (if doRotation then _ else _) as [disk2 [[]|e]]; [|done].
  by intros [= ->].
Qed.

Lemma split_go_no_sep (sep : ascii) (cur cs : list ascii) :
  sep ∉ cs →
  OsPath.split_go sep cur cs = [string_of_list_ascii (reverse cur ++ cs)].
Proof.
  revert cur. induction cs as [|c cs IH]; intros cur Hsep; simpl.
  { by rewrite app_nil_r. }
  apply not_elem_of_cons in Hsep as [Hne Hsep].
  rewrite decide_False by done. rewrite IH by done.
  by rewrite reverse_cons, <-app_assoc.
Qed.

Lemma split_no_sep (sep : ascii) (s : string) :
  sep ∉ list_ascii_of_string s → OsPath.split sep s = [s].
Proof.
  intros Hsep. unfold OsPath.split. rewrite split_go_no_sep by done.
  simpl. by rewrite string_of_list_ascii_of_string.
Qed.

Lemma normpath_no_slash (path : string) :
  "/"%char ∉ list_ascii_of_string path →
  "/"%char ∉ list_ascii_of_string (OsPath.normpath path).
Proof.
  intros Hsep. unfold OsPath.normpath.
  rewrite split_no_sep by done.
  assert (OsPath.leading_slashes path = "") as ->.
  { unfold OsPath.leading_slashes.
    destruct (list_ascii_of_string path) as [|a l]; [done|].
    apply not_elem_of_cons in Hsep as [Hne _].
    destruct a as [[] [] [] [] [] [] [] []]; done. }
  simpl.
  destruct (decide (path = "")) as [->|?];
    [by apply (bool_decide_unpack _)|].
  destruct (decide (path = ".")) as [->|?];
    [by apply (bool_decide_unpack _)|].
  destruct (decide (path = "..")) as [->|?];
    [by apply (bool_decide_unpack _)|].
  simpl. by rewrite decide_False.
Qed.

(** X22: an input file given without a folder part (no slash in its path)
    makes processIRTimelapse raise IndexError before anything is run: the
    files are untouched. *)
Theorem timelapse_needs_a_folder inputfile rotation exportpath date starttime
    endtime (numberofframes : Z) doRotation doRenaming disk :
  "/"%char ∉ list_ascii_of_string inputfile →
  processIRTimelapse call glob strptime_timestamp
      timedelta_total_seconds fromtimestamp_strftime
      inputfile rotation exportpath date starttime endtime
            numberofframes doRotation doRenaming disk
  = (disk, Raises (Python IndexError)).
Proof.
  intros Hsep. unfold processIRTimelapse.
  by rewrite split_no_sep by by apply normpath_no_slash.
Qed.

Lemma length_measurement_intervals starttimestamp seconds frames intervals :
  measurement_intervals fromtimestamp_strftime starttimestamp seconds frames
  = Returns intervals →
  length intervals = length frames.
Proof.
  revert intervals. induction frames as [|i frames IH]; intros intervals;
    cbn [measurement_intervals].
  { by intros [= <-]. }
  destruct (fromtimestamp_strftime _) as [t|e]; [|done].
  destruct (measurement_intervals _ _ _ _) as [ts|e]; [|done].
  intros [= <-]. simpl. by rewrite (IH ts).
Qed.

Lemma rename_frames_short intervals (i : nat) ofiles disk :
  (i ≤ length intervals < i + length ofiles)%nat →
  returns (rename_frames intervals i ofiles disk).2 = false.
Proof.
  revert i disk. induction ofiles as [|ofile rest IH]; intros i disk Hlen;
    cbn [rename_frames].
  { simpl in Hlen. lia. }
  destruct (intervals !! i) as [t|] eqn:Ht; [|done].
  apply lookup_lt_Some in Ht.
  destruct (rename _ _ _) as [disk'|e]; [|done].
  apply IH. simpl in Hlen. lia.
Qed.

Lemma rename_frames_fresh intervals (i : nat) ofiles disk :
  NoDup ofiles →
  (i + length ofiles ≤ length intervals)%nat →
  Forall (λ ofile, is_Some (disk !! ofile)) ofiles →
  NoDup (zip_with Conditions.frame_name ofiles (drop i intervals)) →
  Forall (λ new, disk !! new = None)
         (zip_with Conditions.frame_name ofiles (drop i intervals)) →
  ∃ disk',
    rename_frames intervals i ofiles disk = (disk', Returns ())
    ∧ (∀ (k : nat) ofile t,
         ofiles !! k = Some ofile → intervals !! (i + k)%nat = Some t →
         disk' !! Conditions.frame_name ofile t = disk !! ofile
         ∧ disk' !! ofile = None)
    ∧ (∀ path,
         path ∉ ofiles →
         path ∉ zip_with Conditions.frame_name ofiles (drop i intervals) →
         disk' !! path = disk !! path).
Proof.
  intros Hnodup. revert i disk.
  induction Hnodup as [|ofile rest Hnotin Hnodup IH];
    intros i disk Hlen Hfiles Hnews Hfresh.
  { exists disk. split_and!; [done| |done]. intros k ofile t Hk. done. }
  simpl in Hlen.
  destruct (intervals !! i) as [t|] eqn:Ht;
    [|apply lookup_ge_None in Ht; lia].
  rewrite (drop_S _ _ _ Ht) in Hnews, Hfresh |- *.
  cbn [zip_with] in Hnews, Hfresh |- *.
  apply NoDup_cons in Hnews as [Hnew Hnews].
  apply Forall_cons in Hfresh as [Hfresh0 Hfresh].
  apply Forall_cons in Hfiles as [[content Hfile] Hfiles].
  set (new := Conditions.frame_name ofile t) in *.
  assert (new ≠ ofile) as Hne by (intros Heq; congruence).
  assert (rename_frames intervals i (ofile :: rest) disk
          = rename_frames intervals (S i) rest
              (<[new := content]> (delete ofile disk))) as ->.
  { cbn [rename_frames]. rewrite Ht. cbv zeta. unfold rename.
    by rewrite Hfile. }
  destruct (IH (S i) (<[new := content]> (delete ofile disk)))
    as (disk' & -> & Hrenamed & Hother).
  - lia.
  - rewrite Forall_forall in Hfiles |- *. intros f Hf.
    rewrite lookup_insert_ne, lookup_delete_ne; [by apply Hfiles| |].
    + by intros ->.
    + intros ->. destruct (Hfiles _ Hf) as [c Hc]. congruence.
  - done.
  - rewrite Forall_forall in Hfresh |- *. intros f Hf.
    rewrite lookup_insert_ne by (by intros ->).
    destruct (decide (ofile = f)) as [->|?].
    + by rewrite lookup_delete_eq.
    + rewrite lookup_delete_ne by done. by apply Hfresh.
  - exists disk'. split_and!; [done| |].
    + intros [|k] f t' Hk Ht'; simpl in Hk.
      * injection Hk as <-. rewrite Nat.add_0_r in Ht'.
        assert (t' = t) as -> by congruence. fold new.
        rewrite !Hother.
        -- rewrite lookup_insert_eq, lookup_insert_ne, lookup_delete_eq by done.
           by rewrite Hfile.
        -- done.
        -- intros Hin. rewrite Forall_forall in Hfresh.
           specialize (Hfresh _ Hin). congruence.
        -- intros Hin. rewrite Forall_forall in Hfiles.
           destruct (Hfiles _ Hin) as [c Hc]. congruence.
        -- done.
      * replace (i + S k)%nat with (S i + k)%nat in Ht' by lia.
        destruct (Hrenamed k f t' Hk Ht') as [Hnewf Hold].
        split; [|done]. rewrite Hnewf.
        assert (f ∈ rest) as Hf by by eapply list_elem_of_lookup_2.
        rewrite lookup_insert_ne, lookup_delete_ne; [done| |].
        -- by intros ->.
        -- intros ->. rewrite Forall_forall in Hfiles.
           destruct (Hfiles _ Hf) as [c Hc]. congruence.
    + intros path [Hp0 Hprest]%not_elem_of_cons [Hn0 Hnrest]%not_elem_of_cons.
      rewrite Hother by done.
      by rewrite lookup_insert_ne, lookup_delete_ne.
Qed.

(** X23: with one frame and doRenaming, processIRTimelapse never returns
    normally; when the export and the rotation go through and both times
    can be read, it raises ZeroDivisionError and leaves the exported files
    under their first names. *)
Theorem timelapse_single_frame inputfile rotation exportpath date starttime
    endtime doRotation disk :
  returns (processIRTimelapse call glob strptime_timestamp
      timedelta_total_seconds fromtimestamp_strftime
      inputfile rotation exportpath date starttime endtime 1
                     doRotation true disk).2 = false
  ∧ ∀ disk1 starttimestamp endtimestamp,
      processIRTimelapse call glob strptime_timestamp
      timedelta_total_seconds fromtimestamp_strftime
      inputfile rotation exportpath date starttime endtime 1
                doRotation false disk = (disk1, Returns ()) →
      strptime_timestamp starttime = Returns starttimestamp →
      strptime_timestamp endtime = Returns endtimestamp →
      processIRTimelapse call glob strptime_timestamp
      timedelta_total_seconds fromtimestamp_strftime
      inputfile rotation exportpath date starttime endtime 1
                doRotation true disk
      = (disk1, Raises ZeroDivisionError).
Proof.
  destruct (py_getitem (OsPath.split "/" (OsPath.normpath inputfile)) (-2))
    as [foldername|e] eqn:Hfolder.
  2:{ unfold processIRTimelapse. rewrite Hfolder. by split. }
  split.
  - rewrite (timelapse_steps _ _ _ _ _ _ _ _ _ _ _ Hfolder).
    destruct (call _ disk) as [disk0|e]; [|done].
    destruct (if doRotation then _ else _) as [disk2 [[]|e]]; [|done].
    unfold rename_timelapse_files.
    destruct (strptime_timestamp starttime); [|done].
    by destruct (strptime_timestamp endtime).
  - intros disk1 starttimestamp endtimestamp Hfirst Hstart Hend.
    rewrite (timelapse_renaming_last _ _ _ _ _ _ _ _ _ _ _ Hfolder Hfirst).
    unfold rename_timelapse_files. by rewrite Hstart, Hend.
Qed.

(** X24: when glob finds more exported files than numberofframes, the
    renaming of processIRTimelapse never returns normally: it runs out of
    frame times. *)
Theorem timelapse_more_files_than_frames inputfile rotation exportpath date
    starttime endtime (numberofframes : Z) doRotation disk foldername disk1 :
  py_getitem (OsPath.split "/" (OsPath.normpath inputfile)) (-2)
  = Ok foldername →
  processIRTimelapse call glob strptime_timestamp
      timedelta_total_seconds fromtimestamp_strftime
      inputfile rotation exportpath date starttime endtime
            numberofframes doRotation false disk = (disk1, Returns ()) →
  (Z.to_nat numberofframes
   < length (glob (Conditions.timelapse_pattern inputfile exportpath date
                                                foldername) disk1))%nat →
  returns (processIRTimelapse call glob strptime_timestamp
      timedelta_total_seconds fromtimestamp_strftime
      inputfile rotation exportpath date starttime endtime
                     numberofframes doRotation true disk).2 = false.
Proof.
  intros Hfolder Hfirst Hfiles.
  rewrite (timelapse_renaming_last _ _ _ _ _ _ _ _ _ _ _ Hfolder Hfirst).
  unfold rename_timelapse_files.
  destruct (strptime_timestamp starttime) as [s|e]; [|done].
  destruct (strptime_timestamp endtime) as [e|e']; [|done].
  case_decide; [done|].
  destruct (timedelta_total_seconds _) as [seconds|e']; [|done].
  destruct (measurement_intervals _ _ _ _) as [intervals|e'] eqn:Hint;
    [|done].
  apply rename_frames_short.
  apply length_measurement_intervals in Hint. unfold range in Hint.
  rewrite length_seq in Hint. lia.
Qed.

(** X25: the renaming of processIRTimelapse gives the k-th exported file
    the k-th frame time.  When the times can be read, numberofframes is
    not 1, glob finds at most numberofframes distinct existing files, and
    the new names are distinct and not yet taken, the function returns;
    the content of each file is then found under its name without the
    last four characters, followed by an underscore, its frame time and
    ".csv", its former name is gone, and every other file is unchanged. *)
Theorem timelapse_renames_frames inputfile rotation exportpath date starttime
    endtime (numberofframes : Z) doRotation disk foldername disk1
    starttimestamp endtimestamp seconds intervals :
  py_getitem (OsPath.split "/" (OsPath.normpath inputfile)) (-2)
  = Ok foldername →
  processIRTimelapse call glob strptime_timestamp
      timedelta_total_seconds fromtimestamp_strftime
      inputfile rotation exportpath date starttime endtime
            numberofframes doRotation false disk = (disk1, Returns ()) →
  strptime_timestamp starttime = Returns starttimestamp →
  strptime_timestamp endtime = Returns endtimestamp →
  numberofframes ≠ 1 →
  timedelta_total_seconds
    (PrimFloat.div (PrimFloat.sub endtimestamp starttimestamp)
                   (float_of_Z (numberofframes - 1)))
  = Returns seconds →
  measurement_intervals fromtimestamp_strftime starttimestamp seconds
                        (range (Z.to_nat numberofframes))
  = Returns intervals →
  let ofiles :=
    glob (Conditions.timelapse_pattern inputfile exportpath date foldername)
         disk1 in
  let news := zip_with Conditions.frame_name ofiles intervals in
  (length ofiles ≤ Z.to_nat numberofframes)%nat →
  NoDup ofiles → Forall (λ ofile, is_Some (disk1 !! ofile)) ofiles →
  NoDup news → Forall (λ new, disk1 !! new = None) news →
  ∃ disk2,
    processIRTimelapse call glob strptime_timestamp
      timedelta_total_seconds fromtimestamp_strftime
      inputfile rotation exportpath date starttime endtime
              numberofframes doRotation true disk = (disk2, Returns ())
    ∧ (∀ (k : nat) ofile t,
         ofiles !! k = Some ofile → intervals !! k = Some t →
         disk2 !! Conditions.frame_name ofile t = disk1 !! ofile
         ∧ disk2 !! ofile = None)
    ∧ (∀ path, path ∉ ofiles → path ∉ news → disk2 !! path = disk1 !! path).
Proof.
  intros Hfolder Hfirst Hstart Hend Hframes Hdelta Hint ofiles news Hlen
    Hnodup Hfiles Hnews Hfresh.
  rewrite (timelapse_renaming_last _ _ _ _ _ _ _ _ _ _ _ Hfolder Hfirst).
  unfold rename_timelapse_files. rewrite Hstart, Hend.
  rewrite decide_False by lia. rewrite Hdelta, Hint.
  apply length_measurement_intervals in Hint as Hlength.
  unfold range in Hlength. rewrite length_seq in Hlength.
  apply (rename_frames_fresh intervals 0 ofiles disk1); try done.
  simpl. lia.
Qed.

(** *** Both functions *)

(** X26: the exported files are rotated only for a rotation that Python
    finds equal to 180, that is the integer 180 or the float 180.0.  For
    every other value, among them the string "180" that a rotation read
    from a CSV list is, and the documented values 90 and 270,
    processIRMovie and processIRTimelapse do what they do with doRotation
    switched off. *)
Theorem rotation_only_for_180 (rotation : rotation_arg) :
  rotation ≠ PyInt 180 →
  (∀ f, rotation = Float f → PrimFloat.eqb f 180 = false) →
  (∀ measurement inputfolder exportpath (timeshift : Z) doRotation doRenaming
     disk,
     processIRMovie call glob measurement rotation inputfolder exportpath
                    timeshift doRotation doRenaming disk
     = processIRMovie call glob measurement rotation inputfolder exportpath
                      timeshift false doRenaming disk)
  ∧ (∀ inputfile exportpath date starttime endtime (numberofframes : Z)
       doRotation doRenaming disk,
       processIRTimelapse call glob strptime_timestamp
         timedelta_total_seconds fromtimestamp_strftime
         inputfile rotation exportpath date starttime endtime
         numberofframes doRotation doRenaming disk
       = processIRTimelapse call glob strptime_timestamp
           timedelta_total_seconds fromtimestamp_strftime
           inputfile rotation exportpath date starttime endtime
           numberofframes false doRenaming disk).
Proof.
  intros Hint Hfloat.
  assert (equals_180 rotation = false) as Hrot.
  { destruct rotation as [[|z|t]|f]; simpl; [done| |done|by apply Hfloat].
    apply bool_decide_eq_false. by intros ->. }
  split.
  - intros. unfold processIRMovie.
    destruct (ThermoViewer _ _ _ _ _ _ _ _ _ _ _ _ _) as [disk1|e]; [|done].
    destruct doRotation; [|done]. by rewrite rotate_files_other.
  - intros. unfold processIRTimelapse.
    destruct (py_getitem _ _) as [foldername|e]; [|done].
    destruct (ThermoViewer _ _ _ _ _ _ _ _ _ _ _ _ _) as [disk1|e]; [|done].
    destruct doRotation; [|done]. by rewrite rotate_files_other.
Qed.

(** X27: a rotation given as the float 180.0 is a rotation by 180 degrees:
    processIRMovie and processIRTimelapse do with it what they do with
    the integer 180. *)
Theorem float_180_rotates measurement inputfolder inputfile exportpath date
    starttime endtime (timeshift numberofframes : Z) doRotation doRenaming
    disk :
  processIRMovie call glob measurement (Float 180) inputfolder exportpath
                 timeshift doRotation doRenaming disk
  = processIRMovie call glob measurement (PyInt 180) inputfolder exportpath
                   timeshift doRotation doRenaming disk
  ∧ processIRTimelapse call glob strptime_timestamp
      timedelta_total_seconds fromtimestamp_strftime
      inputfile (Float 180) exportpath date starttime endtime
      numberofframes doRotation doRenaming disk
    = processIRTimelapse call glob strptime_timestamp
        timedelta_total_seconds fromtimestamp_strftime
        inputfile (PyInt 180) exportpath date starttime endtime
        numberofframes doRotation doRenaming disk.
Proof.
  split.
  - unfold processIRMovie.
    destruct (ThermoViewer _ _ _ _ _ _ _ _ _ _ _ _ _) as [disk1|e]; [|done].
    destruct doRotation; [|done].
    by rewrite (rotate_files_alike (Float 180) (PyInt 180)).
  - unfold processIRTimelapse.
    destruct (py_getitem _ _) as [foldername|e]; [|done].
    destruct (ThermoViewer _ _ _ _ _ _ _ _ _ _ _ _ _) as [disk1|e]; [|done].
    destruct doRotation; [|done].
    by rewrite (rotate_files_alike (Float 180) (PyInt 180)).
Qed.

End export_effects.

(** Instances of the theorems above in the world of the examples. *)

Section export_examples.
Import IRUtils IRExport.

Lemma movie_runs_one_command_line_witness :
  processIRMovie Examples.tool Examples.glob "20170815_First/IR/P0000004/"
                 (PyInt 180) "data/20170815_First/IR/P0000004/" "out/" 2
                 true true ∅
  = processIRMovie Examples.strict_tool Examples.glob
                   "20170815_First/IR/P0000004/" (PyInt 180)
                   "data/20170815_First/IR/P0000004/" "out/" 2 true true ∅.
Proof.
  apply (movie_runs_one_command_line Examples.tool Examples.glob
           Examples.strict_tool).
  reflexivity.
Defined.

Lemma movie_rotates_every_export_witness :
  ∃ disk2,
    processIRMovie Examples.tool Examples.glob "20170815_First/IR/P0000004/"
                   (PyInt 180) "data/20170815_First/IR/P0000004/" "out/" 2
                   true false ∅
    = (disk2, Returns ())
    ∧ disk2 !! Examples.exported_frame = Some [["4"; "3"]; ["2"; "1"]].
Proof.
  destruct (movie_rotates_every_export Examples.tool Examples.glob
              "20170815_First/IR/P0000004/"
              "data/20170815_First/IR/P0000004/" "out/" 2 ∅
              (<[Examples.exported_frame := [["1"; "2"]; ["3"; "4"]]]> ∅))
    as (disk2 & Hrun & Hfiles).
  - reflexivity.
  - apply (bool_decide_unpack _). vm_compute. reflexivity.
  - vm_compute. repeat constructor.
    exists [["1"; "2"]; ["3"; "4"]], 2%nat. split; [reflexivity|].
    repeat constructor.
  - exists disk2. split; [exact Hrun|].
    rewrite Hfiles. vm_compute. reflexivity.
Defined.

Lemma timelapse_needs_a_folder_witness :
  processIRTimelapse Examples.tool Examples.glob Examples.strptime_timestamp
                     Examples.timedelta_total_seconds
                     Examples.fromtimestamp_strftime
                     "0001.TMC" (PyInt 180) "out/" "20170815" "11:00" "13:00"
                     2 true true ∅
  = (∅, Raises (Python IndexError)).
Proof.
  apply (timelapse_needs_a_folder Examples.tool Examples.glob
           Examples.strptime_timestamp Examples.timedelta_total_seconds
           Examples.fromtimestamp_strftime).
  apply (bool_decide_unpack _). vm_compute. reflexivity.
Defined.

Lemma timelapse_more_files_than_frames_witness :
  returns (processIRTimelapse Examples.tool Examples.glob
             Examples.strptime_timestamp Examples.timedelta_total_seconds
             Examples.fromtimestamp_strftime
             "data/P0000004/0001.TMC" (PyInt 0) "out/" "20170815" "11:00"
             "13:00" 0 true true ∅).2 = false.
Proof.
  apply (timelapse_more_files_than_frames Examples.tool Examples.glob
           Examples.strptime_timestamp Examples.timedelta_total_seconds
           Examples.fromtimestamp_strftime
           "data/P0000004/0001.TMC" (PyInt 0) "out/" "20170815" "11:00"
           "13:00" 0 true ∅ "P0000004"
           (<[Examples.exported_frame := [["1"; "2"]; ["3"; "4"]]]> ∅)).
  - reflexivity.
  - vm_compute. reflexivity.
  - vm_compute. lia.
Defined.

Lemma timelapse_renames_frames_witness :
  ∃ disk2,
    processIRTimelapse Examples.tool Examples.glob
      Examples.strptime_timestamp Examples.timedelta_total_seconds
      Examples.fromtimestamp_strftime
      "data/P0000004/0001.TMC" (PyStr "180") "out/" "20170815" "11:00"
      "13:00" 2 false true ∅
    = (disk2, Returns ())
    ∧ disk2 !! "out/ir_export_20170815_P0000004_0001_12-00-00.csv"
      = Some [["1"; "2"]; ["3"; "4"]]
    ∧ disk2 !! Examples.exported_frame = None.
Proof.
  destruct (timelapse_renames_frames Examples.tool Examples.glob
              Examples.strptime_timestamp Examples.timedelta_total_seconds
              Examples.fromtimestamp_strftime
              "data/P0000004/0001.TMC" (PyStr "180") "out/" "20170815"
              "11:00" "13:00" 2 false ∅ "P0000004"
              (<[Examples.exported_frame := [["1"; "2"]; ["3"; "4"]]]> ∅)
              0%float 0%float 0%float ["12-00-00"; "12-00-00"])
    as (disk2 & Hrun & Hrenamed & _).
  - reflexivity.
  - vm_compute. reflexivity.
  - reflexivity.
  - reflexivity.
  - lia.
  - vm_compute. reflexivity.
  - vm_compute. reflexivity.
  - vm_compute. lia.
  - apply (bool_decide_unpack _). vm_compute. reflexivity.
  - vm_compute. repeat constructor. by eexists.
  - apply (bool_decide_unpack _). vm_compute. reflexivity.
  - vm_compute. repeat constructor.
  - exists disk2. split; [exact Hrun|].
    destruct (Hrenamed 0%nat Examples.exported_frame "12-00-00")
      as [Hnew Hold]; [reflexivity|reflexivity|].
    split; [|exact Hold]. etrans; [exact Hnew|reflexivity].
Defined.

Lemma rotation_only_for_180_witness :
  (∀ measurement inputfolder exportpath (timeshift : Z) doRotation doRenaming
     disk,
     processIRMovie Examples.tool Examples.glob measurement (PyStr "180")
                    inputfolder exportpath timeshift doRotation doRenaming
                    disk
     = processIRMovie Examples.tool Examples.glob measurement (PyStr "180")
                      inputfolder exportpath timeshift false doRenaming disk)
  ∧ (∀ inputfile exportpath date starttime endtime (numberofframes : Z)
       doRotation doRenaming disk,
       processIRTimelapse Examples.tool Examples.glob
         Examples.strptime_timestamp Examples.timedelta_total_seconds
         Examples.fromtimestamp_strftime inputfile (PyStr "180") exportpath
         date starttime endtime numberofframes doRotation doRenaming disk
       = processIRTimelapse Examples.tool Examples.glob
           Examples.strptime_timestamp Examples.timedelta_total_seconds
           Examples.fromtimestamp_strftime inputfile (PyStr "180") exportpath
           date starttime endtime numberofframes false doRenaming disk).
Proof.
  apply (rotation_only_for_180 Examples.tool Examples.glob
           Examples.strptime_timestamp Examples.timedelta_total_seconds
           Examples.fromtimestamp_strftime (PyStr "180")).
  - discriminate.
  - intros f Hf. discriminate Hf.
Defined.

End export_examples.
